(** * MY-NOTE: the flat-file note store of [app.py]

    A shallow embedding of the non-UI logic of [app.py] (JSON stores,
    document files, the MkDocs configuration builder, the merge utility) and
    of the button handlers of [main], with the properties stated for them.

    Representation choices.
    - A Python [str] is a [string] holding the UTF-8 encoding of its code
      points; a surrogate code point (which a [str] may hold, but which
      cannot be written to a file opened with [encoding="utf-8"]) is kept in
      its three-byte generalised form.
    - A file holds bytes, again a [string]; reading through a text handle
      checks that the bytes are well-formed UTF-8, writing checks that the
      text is.
    - The file system is a finite map from paths, as the program writes them,
      to nodes (regular file or directory); a file can be created in the
      working directory or in a directory of the map. Paths are POSIX paths
      and are compared as written; permissions, symbolic links and the line
      end translation of other platforms are outside the model.
    - [json.loads] and [json.dumps] follow CPython's [json] package for the
      arguments the program passes ([ensure_ascii=False], [indent=4]). The
      interpreter's recursion limit and its limit on the number of digits of
      an integer are outside the model.
    - Python values that come out of [json.load] are terms of [json]; the
      operations the program applies to them ([in], [del], item assignment,
      [.items()], truth value) follow Python on every constructor, raising
      [TypeError] and the like where Python does. *)

From Stdlib Require Import ZArith NArith Ascii String List Decimal DecimalString
  DecimalFacts DecimalN DecimalNat Lia Bool.
From stdpp Require Import base gmap strings list.

(** ** Characters used by the JSON text format *)

Definition dquote : ascii := "034"%char.
Definition backslash : ascii := "092"%char.
Definition ch_nl : ascii := "010"%char.
Definition ch_cr : ascii := "013"%char.
Definition ch_tab : ascii := "009"%char.
Definition ch_bs : ascii := "008"%char.
Definition ch_ff : ascii := "012"%char.

Definition code (c : ascii) : N := N_of_ascii c.

(** ** UTF-8 well-formedness (the [utf-8] codec in strict mode) *)

Module Utf8.

(** The decoder as an automaton over bytes; the state records what the
    bytes still to come must look like. *)
Inductive state :=
| Start          (* at a code point boundary *)
| Cont1          (* one continuation byte 80..BF *)
| Cont2          (* two continuation bytes *)
| Cont3          (* three continuation bytes *)
| AfterE0        (* A0..BF, then one continuation byte *)
| AfterED        (* 80..9F, then one continuation byte: no surrogates *)
| AfterF0        (* 90..BF, then two continuation bytes *)
| AfterF4.       (* 80..8F, then two continuation bytes *)

Definition between (lo hi n : N) : bool := (lo <=? n)%N && (n <=? hi)%N.

Definition step (st : state) (c : ascii) : option state :=
  let n := code c in
  match st with
  | Start =>
      if (n <? 128)%N then Some Start
      else if between 194 223 n then Some Cont1
      else if (n =? 224)%N then Some AfterE0
      else if between 225 236 n then Some Cont2
      else if (n =? 237)%N then Some AfterED
      else if between 238 239 n then Some Cont2
      else if (n =? 240)%N then Some AfterF0
      else if between 241 243 n then Some Cont3
      else if (n =? 244)%N then Some AfterF4
      else None
  | Cont1 => if between 128 191 n then Some Start else None
  | Cont2 => if between 128 191 n then Some Cont1 else None
  | Cont3 => if between 128 191 n then Some Cont2 else None
  | AfterE0 => if between 160 191 n then Some Cont1 else None
  | AfterED => if between 128 159 n then Some Cont1 else None
  | AfterF0 => if between 144 191 n then Some Cont2 else None
  | AfterF4 => if between 128 143 n then Some Cont2 else None
  end.

Fixpoint run (st : state) (s : string) : option state :=
  match s with
  | EmptyString => Some st
  | String c s' =>
      match step st c with
      | Some st' => run st' s'
      | None => None
      end
  end.

Definition valid (s : string) : bool :=
  match run Start s with
  | Some Start => true
  | _ => false
  end.

(** The bytes of one code point, surrogates included (three bytes). Used for
    the [\uXXXX] escapes of JSON text. *)
Definition byte (n : N) : ascii := ascii_of_N n.

Definition encode (cp : N) : string :=
  if (cp <? 128)%N then String (byte cp) EmptyString
  else if (cp <? 2048)%N then
    String (byte (192 + cp / 64)) (String (byte (128 + cp mod 64)) EmptyString)
  else if (cp <? 65536)%N then
    String (byte (224 + cp / 4096))
      (String (byte (128 + (cp / 64) mod 64))
         (String (byte (128 + cp mod 64)) EmptyString))
  else
    String (byte (240 + cp / 262144))
      (String (byte (128 + (cp / 4096) mod 64))
         (String (byte (128 + (cp / 64) mod 64))
            (String (byte (128 + cp mod 64)) EmptyString))).

End Utf8.

(** ** Numerals: [str(int)], [int(str)], zero padding, hexadecimal *)

Module Numeral.

(** [str(n)] for a natural number: decimal, no leading zero. *)
Definition str_of_N (n : N) : string := NilEmpty.string_of_uint (N.to_uint n).
Definition str_of_nat (n : nat) : string := NilEmpty.string_of_uint (Nat.to_uint n).

(** [str(z)] for an integer. *)
Definition str_of_Z (z : Z) : string :=
  match z with
  | Zneg p => String "-" (str_of_N (Npos p))
  | _ => str_of_N (Z.to_N z)
  end.

Definition is_digit (c : ascii) : bool :=
  match uint_of_char c (Some Nil) with
  | Some _ => true
  | None => false
  end.

(** The longest prefix of decimal digits, as a numeral, and what follows. *)
Fixpoint scan_uint (s : string) : uint * string :=
  match s with
  | EmptyString => (Nil, s)
  | String c s' =>
      if is_digit c then
        let '(d, r) := scan_uint s' in
        (match uint_of_char c (Some d) with Some d' => d' | None => Nil end, r)
      else (Nil, s)
  end.

(** [str.zfill]-like padding used by [strftime]: at least [w] digits. *)
Definition pad (w : nat) (s : string) : string :=
  string_of_list_ascii (repeat "0"%char (w - String.length s)) +:+ s.

Definition hex_digit (n : N) : ascii :=
  if (n <? 10)%N then ascii_of_N (48 + n) else ascii_of_N (87 + n).

(** The value of one hexadecimal digit, either case. *)
Definition hex_val (c : ascii) : option N :=
  let n := code c in
  if Utf8.between 48 57 n then Some (n - 48)%N
  else if Utf8.between 97 102 n then Some (n - 87)%N
  else if Utf8.between 65 70 n then Some (n - 55)%N
  else None.

(** ['{0:04x}'.format(n)] for [n < 65536]. *)
Definition hex4 (n : N) : string :=
  String (hex_digit (n / 4096 mod 16))
    (String (hex_digit (n / 256 mod 16))
       (String (hex_digit (n / 16 mod 16))
          (String (hex_digit (n mod 16)) EmptyString))).

Definition hex4_val (a b c d : ascii) : option N :=
  match hex_val a, hex_val b, hex_val c, hex_val d with
  | Some x, Some y, Some z, Some w => Some (x * 4096 + y * 256 + z * 16 + w)%N
  | _, _, _, _ => None
  end.

End Numeral.

(** ** JSON values, [json.dumps] and [json.loads] *)

Module Json.
Import Numeral.

(** What [json.load] can return. A dict keeps its insertion order and has
    each key once; a float is kept as the numeral it is written as, float
    arithmetic being outside the model. *)
Unset Elimination Schemes.
Inductive json :=
| JNull
| JBool (b : bool)
| JInt (z : Z)
| JFloat (lit : string)
| JStr (s : string)
| JArr (l : list json)
| JObj (m : list (string * json)).
Set Elimination Schemes.

(** *** Python dicts as association lists *)

Fixpoint dict_get (k : string) (m : list (string * json)) : option json :=
  match m with
  | [] => None
  | (k', v) :: m' => if String.eqb k k' then Some v else dict_get k m'
  end.

Definition dict_mem (k : string) (m : list (string * json)) : bool :=
  match dict_get k m with Some _ => true | None => false end.

(** [d[k] = v]: in place when the key is there, at the end otherwise. *)
Fixpoint dict_set (k : string) (v : json) (m : list (string * json))
  : list (string * json) :=
  match m with
  | [] => [(k, v)]
  | (k', v') :: m' =>
      if String.eqb k k' then (k', v) :: m' else (k', v') :: dict_set k v m'
  end.

(** [del d[k]] for a key that is there. *)
Fixpoint dict_del (k : string) (m : list (string * json)) : list (string * json) :=
  match m with
  | [] => []
  | (k', v') :: m' => if String.eqb k k' then m' else (k', v') :: dict_del k m'
  end.

(** [dict(pairs)] *)
Definition dict_of_pairs (pairs : list (string * json)) : list (string * json) :=
  fold_left (fun d kv => dict_set (fst kv) (snd kv) d) pairs [].

(** *** Encoder: [json.dumps(v, ensure_ascii=False, indent=4)] *)

Definition escape_char (c : ascii) : string :=
  if Ascii.eqb c dquote then String backslash (String dquote EmptyString)
  else if Ascii.eqb c backslash then String backslash (String backslash EmptyString)
  else if Ascii.eqb c ch_nl then String backslash "n"
  else if Ascii.eqb c ch_cr then String backslash "r"
  else if Ascii.eqb c ch_tab then String backslash "t"
  else if Ascii.eqb c ch_bs then String backslash "b"
  else if Ascii.eqb c ch_ff then String backslash "f"
  else if (code c <? 32)%N then String backslash (String "u" (hex4 (code c)))
  else String c EmptyString.

Fixpoint escape (s : string) : string :=
  match s with
  | EmptyString => EmptyString
  | String c s' => escape_char c +:+ escape s'
  end.

Definition py_encode_basestring (s : string) : string :=
  String dquote (escape s +:+ String dquote EmptyString).

Definition spaces (n : nat) : string := string_of_list_ascii (repeat " "%char n).

Definition newline_indent (lvl : nat) : string := String ch_nl (spaces (4 * lvl)).

Definition item_separator (lvl : nat) : string := String "," (newline_indent lvl).

Fixpoint iterencode (lvl : nat) (v : json) : string :=
  match v with
  | JNull => "null"
  | JBool true => "true"
  | JBool false => "false"
  | JInt z => str_of_Z z
  | JFloat lit => lit
  | JStr s => py_encode_basestring s
  | JArr [] => "[]"
  | JArr l =>
      "[" +:+ newline_indent (S lvl)
      +:+ String.concat (item_separator (S lvl)) (map (iterencode (S lvl)) l)
      +:+ newline_indent lvl +:+ "]"
  | JObj [] => "{}"
  | JObj m =>
      "{" +:+ newline_indent (S lvl)
      +:+ String.concat (item_separator (S lvl))
            (map (fun kv => let '(k, x) := kv in
                            py_encode_basestring k +:+ ": " +:+ iterencode (S lvl) x) m)
      +:+ newline_indent lvl +:+ "}"
  end.

Definition json_dumps (v : json) : string := iterencode 0 v.

(** *** Decoder: [json.loads] *)

Definition is_ws (c : ascii) : bool :=
  Ascii.eqb c " " || Ascii.eqb c ch_tab || Ascii.eqb c ch_nl || Ascii.eqb c ch_cr.

Fixpoint skip_ws (s : string) : string :=
  match s with
  | String c s' => if is_ws c then skip_ws s' else s
  | EmptyString => EmptyString
  end.

Fixpoint strip_prefix (p s : string) : option string :=
  match p with
  | EmptyString => Some s
  | String a p' =>
      match s with
      | String b s' => if Ascii.eqb a b then strip_prefix p' s' else None
      | EmptyString => None
      end
  end.

(** The table [BACKSLASH] of the decoder. *)
Definition unescape (e : ascii) : option ascii :=
  if Ascii.eqb e dquote then Some dquote
  else if Ascii.eqb e backslash then Some backslash
  else if Ascii.eqb e "/" then Some "/"%char
  else if Ascii.eqb e "b" then Some ch_bs
  else if Ascii.eqb e "f" then Some ch_ff
  else if Ascii.eqb e "n" then Some ch_nl
  else if Ascii.eqb e "r" then Some ch_cr
  else if Ascii.eqb e "t" then Some ch_tab
  else None.

Definition prepend (p : string) (r : option (string * string))
  : option (string * string) :=
  match r with
  | Some (s, rest) => Some (p +:+ s, rest)
  | None => None
  end.

Definition is_high (u : N) : bool := Utf8.between 55296 56319 u.
Definition is_low (u : N) : bool := Utf8.between 56320 57343 u.

Definition join_surrogates (hi lo : N) : N :=
  (65536 + N.lor (N.shiftl (hi - 55296) 10) (lo - 56320))%N.

(** [py_scanstring] in strict mode, from just after the opening quote: the
    decoded text and what follows the closing quote. *)
Fixpoint py_scanstring (s : string) : option (string * string) :=
  match s with
  | EmptyString => None
  | String c s' =>
      if Ascii.eqb c dquote then Some (EmptyString, s')
      else if Ascii.eqb c backslash then
        match s' with
        | EmptyString => None
        | String e s'' =>
            if Ascii.eqb e "u" then
              match s'' with
              | String h1 (String h2 (String h3 (String h4 r))) =>
                  match hex4_val h1 h2 h3 h4 with
                  | None => None
                  | Some uni =>
                      if is_high uni then
                        match r with
                        | String b (String u r2) =>
                            if Ascii.eqb b backslash && Ascii.eqb u "u" then
                              match r2 with
                              | String k1 (String k2 (String k3 (String k4 r3))) =>
                                  match hex4_val k1 k2 k3 k4 with
                                  | None => None
                                  | Some uni2 =>
                                      if is_low uni2 then
                                        prepend (Utf8.encode (join_surrogates uni uni2))
                                          (py_scanstring r3)
                                      else prepend (Utf8.encode uni) (py_scanstring r)
                                  end
                              | _ => None
                              end
                            else prepend (Utf8.encode uni) (py_scanstring r)
                        | _ => prepend (Utf8.encode uni) (py_scanstring r)
                        end
                      else prepend (Utf8.encode uni) (py_scanstring r)
                  end
              | _ => None
              end
            else
              match unescape e with
              | Some ch => prepend (String ch EmptyString) (py_scanstring s'')
              | None => None
              end
        end
      else if (code c <? 32)%N then None
      else prepend (String c EmptyString) (py_scanstring s')
  end.

(** [NUMBER_RE]: an optional minus sign, then 0 or a digit 1-9 followed by
    digits; optionally a dot and one or more digits; optionally e or E, an
    optional sign and one or more digits. *)

Definition scan_int_part (s : string) : option (uint * string) :=
  match s with
  | String c s' =>
      if Ascii.eqb c "0" then Some (D0 Nil, s')
      else if is_digit c then Some (scan_uint s)
      else None
  | EmptyString => None
  end.

Definition is_nil (d : uint) : bool :=
  match d with
  | Nil => true
  | _ => false
  end.

(** The matched text of group 2, empty when the group does not match. *)
Definition scan_frac (s : string) : string * string :=
  match s with
  | String c s' =>
      if Ascii.eqb c "." then
        let '(d, r) := scan_uint s' in
        if is_nil d then (EmptyString, s)
        else (String c (NilEmpty.string_of_uint d), r)
      else (EmptyString, s)
  | EmptyString => (EmptyString, s)
  end.

Definition scan_exp (s : string) : string * string :=
  match s with
  | String c s' =>
      if Ascii.eqb c "e" || Ascii.eqb c "E" then
        let '(sgn, s1) :=
          match s' with
          | String g t =>
              if Ascii.eqb g "+" || Ascii.eqb g "-"
              then (String g EmptyString, t) else (EmptyString, s')
          | EmptyString => (EmptyString, s')
          end in
        let '(d, r) := scan_uint s1 in
        if is_nil d then (EmptyString, s)
        else (String c (sgn +:+ NilEmpty.string_of_uint d), r)
      else (EmptyString, s)
  | EmptyString => (EmptyString, s)
  end.

Definition match_number (s : string) : option (json * string) :=
  let '(neg, s1) :=
    match s with
    | String c t => if Ascii.eqb c "-" then (true, t) else (false, s)
    | EmptyString => (false, s)
    end in
  match scan_int_part s1 with
  | None => None
  | Some (d, s2) =>
      let '(frac, s3) := scan_frac s2 in
      let '(ex, s4) := scan_exp s3 in
      let integer := (if neg then "-" else "") +:+ NilEmpty.string_of_uint d in
      match frac, ex with
      | EmptyString, EmptyString =>
          Some (JInt (if neg then Z.opp (Z.of_N (N.of_uint d)) else Z.of_N (N.of_uint d)), s4)
      | _, _ => Some (JFloat (integer +:+ frac +:+ ex), s4)
      end
  end.

Definition scan_number (s : string) : option (json * string) :=
  match match_number s with
  | Some r => Some r
  | None =>
      match strip_prefix "NaN" s with
      | Some r => Some (JFloat "NaN", r)
      | None =>
          match strip_prefix "Infinity" s with
          | Some r => Some (JFloat "Infinity", r)
          | None =>
              match strip_prefix "-Infinity" s with
              | Some r => Some (JFloat "-Infinity", r)
              | None => None
              end
          end
      end
  end.

(** Result of the recursive scanner: a value and the rest of the text, a
    syntax error ([JSONDecodeError]), or the recursion budget of the model
    used up (shown below never to happen for the budget [json_loads] gives). *)
Inductive pres :=
| POk (v : json) (rest : string)
| PErr
| PFuel.

(** [scan_once], with the loops of [JSONArray] and [JSONObject]. The array
    loop starts at the first character of an element, the object loop just
    after the opening quote of a key. *)
Fixpoint scan_once (fuel : nat) (s : string) : pres :=
  match fuel with
  | O => PFuel
  | S f =>
      match s with
      | EmptyString => PErr
      | String c s' =>
          if Ascii.eqb c dquote then
            match py_scanstring s' with
            | Some (str, r) => POk (JStr str) r
            | None => PErr
            end
          else if Ascii.eqb c "{" then
            match skip_ws s' with
            | String c1 r1 =>
                if Ascii.eqb c1 "}" then POk (JObj []) r1
                else if Ascii.eqb c1 dquote then JSONObject f r1 []
                else PErr
            | EmptyString => PErr
            end
          else if Ascii.eqb c "[" then
            match skip_ws s' with
            | String c1 r1 =>
                if Ascii.eqb c1 "]" then POk (JArr []) r1
                else JSONArray f (String c1 r1) []
            | EmptyString => PErr
            end
          else
            match strip_prefix "null" s with
            | Some r => POk JNull r
            | None =>
                match strip_prefix "true" s with
                | Some r => POk (JBool true) r
                | None =>
                    match strip_prefix "false" s with
                    | Some r => POk (JBool false) r
                    | None =>
                        match scan_number s with
                        | Some (v, r) => POk v r
                        | None => PErr
                        end
                    end
                end
            end
      end
  end
with JSONArray (fuel : nat) (s : string) (values : list json) : pres :=
  match fuel with
  | O => PFuel
  | S f =>
      match scan_once f s with
      | POk v r =>
          match skip_ws r with
          | String c r' =>
              if Ascii.eqb c "]" then POk (JArr (values ++ [v])) r'
              else if Ascii.eqb c "," then JSONArray f (skip_ws r') (values ++ [v])
              else PErr
          | EmptyString => PErr
          end
      | PErr => PErr
      | PFuel => PFuel
      end
  end
with JSONObject (fuel : nat) (s : string) (pairs : list (string * json)) : pres :=
  match fuel with
  | O => PFuel
  | S f =>
      match py_scanstring s with
      | None => PErr
      | Some (key, r) =>
          match skip_ws r with
          | String c r1 =>
              if Ascii.eqb c ":" then
                match scan_once f (skip_ws r1) with
                | POk v r2 =>
                    match skip_ws r2 with
                    | String c2 r3 =>
                        if Ascii.eqb c2 "}" then
                          POk (JObj (dict_of_pairs (pairs ++ [(key, v)]))) r3
                        else if Ascii.eqb c2 "," then
                          match skip_ws r3 with
                          | String c3 r4 =>
                              if Ascii.eqb c3 dquote
                              then JSONObject f r4 (pairs ++ [(key, v)])
                              else PErr
                          | EmptyString => PErr
                          end
                        else PErr
                    | EmptyString => PErr
                    end
                | PErr => PErr
                | PFuel => PFuel
                end
              else PErr
          | EmptyString => PErr
          end
      end
  end.

(** The budget: two steps per character and one to start. *)
Definition budget (s : string) : nat := S (2 * String.length s).

(** [JSONDecoder.decode]: leading white space, one value, trailing white
    space, end of text. [None] is [JSONDecodeError]. *)
Definition json_loads (s : string) : option json :=
  let s0 := skip_ws s in
  match scan_once (budget s0) s0 with
  | POk v r =>
      match skip_ws r with
      | EmptyString => Some v
      | String _ _ => None
      end
  | PErr => None
  | PFuel => None
  end.

End Json.

(** ** The world the program runs in *)

Import Json.

(** A path names a regular file with its bytes, or a directory. *)
Inductive node :=
| File (content : string)
| Dir.

(** The exceptions the embedded code can raise. [LoopBudget] is not a Python
    exception: it marks the iteration budget of a [while True] loop of the
    model being used up, and is shown unreachable. *)
Inductive exn :=
| JSONDecodeError
| UnicodeDecodeError
| UnicodeEncodeError
| FileNotFoundError
| IsADirectoryError
| NotADirectoryError
| FileExistsError
| KeyError
| TypeError
| AttributeError
| LoopBudget.

(** What Streamlit shows: [st.error], [st.success], [st.info]. *)
Inductive ui_msg :=
| StError (text : string)
| StSuccess (text : string)
| StInfo (text : string).

Record world := World {
  fs : gmap string node;
  ui : list ui_msg
}.

Inductive result (A : Type) :=
| Ok (a : A)
| Raise (e : exn).
Arguments Ok {A} a.
Arguments Raise {A} e.

(** Computations: state passing with exceptions; the state an exception
    leaves behind is kept. *)
Definition M (A : Type) : Type := world -> result A * world.

Definition ret {A} (a : A) : M A := fun w => (Ok a, w).

Definition raise {A} (e : exn) : M A := fun w => (Raise e, w).

Definition bind {A B} (m : M A) (k : A -> M B) : M B :=
  fun w =>
    match m w with
    | (Ok a, w') => k a w'
    | (Raise e, w') => (Raise e, w')
    end.

Notation "'let*' x ':=' m 'in' k" := (bind m (fun x => k))
  (at level 10, x name, m at level 100, k at level 200).
Notation "m >> k" := (bind m (fun _ => k))
  (at level 90, right associativity).

(** [try: m except E: h] for the exceptions selected by [catch]. *)
Definition try_except {A} (m : M A) (catch : exn -> bool) (h : exn -> M A) : M A :=
  fun w =>
    match m w with
    | (Ok a, w') => (Ok a, w')
    | (Raise e, w') => if catch e then h e w' else (Raise e, w')
    end.

Definition lift {A} (r : result A) : M A := fun w => (r, w).

Definition set_fs (f : gmap string node -> gmap string node) : M unit :=
  fun w => (Ok tt, World (f (fs w)) (ui w)).

Definition st_show (m : ui_msg) : M unit :=
  fun w => (Ok tt, World (fs w) (ui w ++ [m])).

(** *** [os] and text files *)

Definition os_path_exists (p : string) : M bool :=
  fun w => (Ok (match fs w !! p with Some _ => true | None => false end), w).

Definition starts_with_sep (s : string) : bool :=
  match s with
  | String c _ => Ascii.eqb c "/"
  | EmptyString => false
  end.

Fixpoint ends_with_sep (s : string) : bool :=
  match s with
  | EmptyString => false
  | String c EmptyString => Ascii.eqb c "/"
  | String _ s' => ends_with_sep s'
  end.

(** [posixpath.join] with two components. *)
Definition os_path_join (a b : string) : string :=
  if starts_with_sep b then b
  else if String.eqb a "" || ends_with_sep a then a +:+ b
  else a +:+ "/" +:+ b.

(** [os.makedirs(p)]; the program calls it on the one-component [DOCS_DIR]
    only, so intermediate directories are not modelled. *)
Definition os_makedirs (p : string) : M unit :=
  fun w =>
    match fs w !! p with
    | Some _ => (Raise FileExistsError, w)
    | None => (Ok tt, World (<[p := Dir]> (fs w)) (ui w))
    end.

Definition os_remove (p : string) : M unit :=
  fun w =>
    match fs w !! p with
    | None => (Raise FileNotFoundError, w)
    | Some Dir => (Raise IsADirectoryError, w)
    | Some (File _) => (Ok tt, World (delete p (fs w)) (ui w))
    end.

(** [p[:p.rfind("/") + 1]], or nothing when [p] has no separator. *)
Fixpoint head_of (p : string) : option string :=
  match p with
  | EmptyString => None
  | String c p' =>
      match head_of p' with
      | Some h => Some (String c h)
      | None => if Ascii.eqb c "/" then Some (String c EmptyString) else None
      end
  end.

(** [s.rstrip("/")] *)
Fixpoint rstrip_sep (s : string) : string :=
  match s with
  | EmptyString => EmptyString
  | String c s' =>
      match rstrip_sep s' with
      | EmptyString => if Ascii.eqb c "/" then EmptyString else String c EmptyString
      | r => String c r
      end
  end.

(** [posixpath.dirname] *)
Definition os_path_dirname (p : string) : string :=
  match head_of p with
  | None => EmptyString
  | Some h =>
      match rstrip_sep h with
      | EmptyString => h
      | r => r
      end
  end.

(** A file can be created at [p] when the directory part of [p] is empty
    (the working directory), the root, or a directory of the file system. *)
Definition parent_check (p : string) (f : gmap string node) : option exn :=
  let d := os_path_dirname p in
  match rstrip_sep d with
  | EmptyString => None
  | _ =>
      match f !! d with
      | Some Dir => None
      | Some (File _) => Some NotADirectoryError
      | None => Some FileNotFoundError
      end
  end.

(** [open(p, "w", encoding="utf-8")]: the file is created or emptied. *)
Definition open_w (p : string) : M unit :=
  fun w =>
    match fs w !! p with
    | Some Dir => (Raise IsADirectoryError, w)
    | Some (File _) => (Ok tt, World (<[p := File EmptyString]> (fs w)) (ui w))
    | None =>
        match parent_check p (fs w) with
        | Some e => (Raise e, w)
        | None => (Ok tt, World (<[p := File EmptyString]> (fs w)) (ui w))
        end
    end.

(** [f.write(text)] on the handle opened on [p]: the encoded text is added
    at the end. *)
Definition f_write (p : string) (text : string) : M unit :=
  fun w =>
    if Utf8.valid text then
      match fs w !! p with
      | Some (File old) => (Ok tt, World (<[p := File (old +:+ text)]> (fs w)) (ui w))
      | _ => (Ok tt, World (<[p := File text]> (fs w)) (ui w))
      end
    else (Raise UnicodeEncodeError, w).

(** Text mode reads every line end, [\r\n] or [\r] or [\n], as [\n]. *)
Fixpoint universal_newlines (s : string) : string :=
  match s with
  | EmptyString => EmptyString
  | String c s' =>
      if Ascii.eqb c ch_cr then
        String ch_nl
          match s' with
          | String c2 s'' =>
              if Ascii.eqb c2 ch_nl then universal_newlines s''
              else universal_newlines s'
          | EmptyString => EmptyString
          end
      else String c (universal_newlines s')
  end.

(** [open(p, "r", encoding="utf-8")] and [f.read()]. *)
Definition read_text (p : string) : M string :=
  fun w =>
    match fs w !! p with
    | None => (Raise FileNotFoundError, w)
    | Some Dir => (Raise IsADirectoryError, w)
    | Some (File bytes) =>
        if Utf8.valid bytes then (Ok (universal_newlines bytes), w)
        else (Raise UnicodeDecodeError, w)
    end.

(** *** Python operations on loaded values *)

Fixpoint is_prefix (p s : string) : bool :=
  match p with
  | EmptyString => true
  | String a p' =>
      match s with
      | String b s' => Ascii.eqb a b && is_prefix p' s'
      | EmptyString => false
      end
  end.

(** [x in s] for two [str]. *)
Fixpoint is_substring (x s : string) : bool :=
  is_prefix x s
  || match s with
     | String _ s' => is_substring x s'
     | EmptyString => false
     end.

Definition is_str (x : string) (v : json) : bool :=
  match v with
  | JStr s => String.eqb x s
  | _ => false
  end.

(** [x in v] for a [str] [x]. *)
Definition py_contains (x : string) (v : json) : result bool :=
  match v with
  | JObj m => Ok (dict_mem x m)
  | JArr l => Ok (existsb (is_str x) l)
  | JStr s => Ok (is_substring x s)
  | _ => Raise TypeError
  end.

(** [del v[k]] for a [str] [k]. *)
Definition py_delitem (v : json) (k : string) : result json :=
  match v with
  | JObj m => if dict_mem k m then Ok (JObj (dict_del k m)) else Raise KeyError
  | _ => Raise TypeError
  end.

(** [v[k] = x] for a [str] [k]. *)
Definition py_setitem (v : json) (k : string) (x : json) : result json :=
  match v with
  | JObj m => Ok (JObj (dict_set k x m))
  | _ => Raise TypeError
  end.

(** [v[k]] for a [str] [k]. *)
Definition py_getitem (v : json) (k : string) : result json :=
  match v with
  | JObj m =>
      match dict_get k m with
      | Some x => Ok x
      | None => Raise KeyError
      end
  | _ => Raise TypeError
  end.

(** [v.items()] and [list(v.keys())]. *)
Definition py_items (v : json) : result (list (string * json)) :=
  match v with
  | JObj m => Ok m
  | _ => Raise AttributeError
  end.

Definition py_keys (v : json) : result (list string) :=
  match v with
  | JObj m => Ok (map fst m)
  | _ => Raise AttributeError
  end.

(** A value can be a dict key when it is hashable. *)
Definition hashable (v : json) : bool :=
  match v with
  | JArr _ | JObj _ => false
  | _ => true
  end.

(** [", ".join(v)]: the operand must be an iterable of [str]. *)
Definition py_join (sep : string) (v : json) : result string :=
  match v with
  | JArr l =>
      if forallb (fun x => match x with JStr _ => true | _ => false end) l
      then Ok (String.concat sep
                 (map (fun x => match x with JStr s => s | _ => EmptyString end) l))
      else Raise TypeError
  | JObj m => Ok (String.concat sep (map fst m))
  | JStr s => Ok (String.concat sep (map (fun c => String c EmptyString)
                                        (list_ascii_of_string s)))
  | _ => Raise TypeError
  end.

(** *** What the platform supplies

    Library behaviour the program relies on and the model does not fix: the
    [repr] of a list of strings inside an f-string, [str.strip], the truth
    value of a float, the text PyYAML produces, the order of [os.walk], and
    the text of an exception. *)

Record mkdocs_config := MkdocsConfig {
  site_name : string;
  theme : json;
  nav : list (json * string);
  docs_dir : string;
  plugins : json;
  markdown_extensions : json
}.

Record Platform := {
  py_repr_list : list string -> string;
  py_strip : string -> string;
  float_truth : string -> bool;
  yaml_dump : mkdocs_config -> string;
  os_walk : gmap string node -> string -> list (string * list string);
  exn_text : exn -> string
}.

(** The truth value of a loaded value ([if v:]). *)
Definition py_truth (P : Platform) (v : json) : bool :=
  match v with
  | JNull => false
  | JBool b => b
  | JInt z => negb (Z.eqb z 0)
  | JFloat lit => float_truth P lit
  | JStr s => negb (String.eqb s "")
  | JArr l => match l with [] => false | _ => true end
  | JObj m => match m with [] => false | _ => true end
  end.

(** [datetime.now()] *)
Record datetime := {
  year : nat; month : nat; day : nat;
  hour : nat; minute : nat; second : nat
}.

Definition two (n : nat) : string := Numeral.pad 2 (Numeral.str_of_nat n).

(** [strftime("%Y-%m-%d")] *)
Definition strftime_date (now : datetime) : string :=
  Numeral.pad 4 (Numeral.str_of_nat (year now)) +:+ "-" +:+ two (month now)
  +:+ "-" +:+ two (day now).

(** [strftime('%Y-%m-%d %H:%M:%S')] *)
Definition strftime_datetime (now : datetime) : string :=
  strftime_date now +:+ " " +:+ two (hour now) +:+ ":" +:+ two (minute now)
  +:+ ":" +:+ two (second now).

(** ** The program: [app.py] *)

Definition DOCS_DIR : string := "docs".
Definition METADATA_FILE : string := "metadata.json".
Definition TEMPLATES_FILE : string := "templates.json".
Definition PROMPTS_FILE : string := "prompts.json".
Definition KEYWORDS_FILE : string := "keywords.json".
Definition MKDOCS_CONFIG : string := "mkdocs.yml".

(** [json.load(f)] on the text read from the handle. *)
Definition json_load (p : string) : M json :=
  let* text := read_text p in
  match json_loads text with
  | Some v => ret v
  | None => raise JSONDecodeError
  end.

Definition is_JSONDecodeError (e : exn) : bool :=
  match e with
  | JSONDecodeError => true
  | _ => false
  end.

Definition load_json (file_path : string) : M json :=
  let* present := os_path_exists file_path in
  if present then
    try_except (json_load file_path) is_JSONDecodeError (fun _ => ret (JObj []))
  else ret (JObj []).

(** [json.dump(data, f, ensure_ascii=False, indent=4)]; the chunks the
    encoder hands to [f.write] are taken as one text. *)
Definition save_json (file_path : string) (data : json) : M unit :=
  open_w file_path >> f_write file_path (json_dumps data).

Definition nl : string := String ch_nl EmptyString.

Definition index_text : string :=
  "# Welcome to MY-NOTE" +:+ nl +:+ nl +:+ "This is your project's index page.".

(** The loop [for fname, meta in metadata.items()] of [mkdocs_setup]. *)
Fixpoint nav_documents (items : list (string * json)) (nav : list (json * string))
  : result (list (json * string)) :=
  match items with
  | [] => Ok nav
  | (fname, meta) :: rest =>
      match py_getitem meta "title" with
      | Ok title =>
          if hashable title then nav_documents rest (nav ++ [(title, fname)])
          else Raise TypeError
      | Raise e => Raise e
      end
  end.

Definition append_if (c : bool) (entry : json * string) (nav : list (json * string))
  : list (json * string) :=
  if c then nav ++ [entry] else nav.

(** The dict [mkdocs_config] as it stands when it is handed to [yaml.dump]
    (lines 48 to 74 of [mkdocs_setup]). *)
Definition build_config (P : Platform) (metadata templates prompts keywords : json)
  : result mkdocs_config :=
  let nav0 := [(JStr "Home", "index.md")] in
  match py_items metadata with
  | Raise e => Raise e
  | Ok items =>
      match nav_documents items nav0 with
      | Raise e => Raise e
      | Ok nav1 =>
          let nav2 := append_if (py_truth P templates)
                        (JStr "Templates", "templates.md") nav1 in
          let nav3 := append_if (py_truth P prompts)
                        (JStr "Prompts", "prompts.md") nav2 in
          let nav4 := append_if (py_truth P keywords)
                        (JStr "Keywords", "keywords.md") nav3 in
          Ok {| site_name := "MY-NOTE";
                theme := JObj [("name", JStr "material")];
                nav := nav4;
                docs_dir := DOCS_DIR;
                plugins := JArr [JStr "search"];
                markdown_extensions :=
                  JArr [JStr "admonition"; JStr "codehilite";
                        JObj [("toc", JObj [("permalink", JBool true)])];
                        JStr "footnotes"; JStr "meta"] |}
      end
  end.

Definition mkdocs_setup (P : Platform) : M unit :=
  let* metadata := load_json METADATA_FILE in
  let* templates := load_json TEMPLATES_FILE in
  let* prompts := load_json PROMPTS_FILE in
  let* keywords := load_json KEYWORDS_FILE in
  let* mkdocs_config := lift (build_config P metadata templates prompts keywords) in
  open_w MKDOCS_CONFIG >>
  f_write MKDOCS_CONFIG (yaml_dump P mkdocs_config) >>
  let* present := os_path_exists DOCS_DIR in
  (if negb present then os_makedirs DOCS_DIR else ret tt) >>
  let index_file_path := os_path_join DOCS_DIR "index.md" in
  let* present := os_path_exists index_file_path in
  if negb present then
    open_w index_file_path >> f_write index_file_path index_text
  else ret tt.

(** [f"{date_str}-#{counter}.md"] *)
Definition filename_of (date_str : string) (counter : nat) : string :=
  date_str +:+ "-#" +:+ Numeral.str_of_nat counter +:+ ".md".

(** The [while True] loop of [generate_filename], with an iteration budget. *)
Fixpoint generate_filename_loop (budget : nat) (date_str : string) (counter : nat)
  : M string :=
  match budget with
  | O => raise LoopBudget
  | S b =>
      let filename := filename_of date_str counter in
      let* present := os_path_exists (os_path_join DOCS_DIR filename) in
      if negb present then ret filename
      else generate_filename_loop b date_str (S counter)
  end.

Definition generate_filename (now : datetime) : M string :=
  let* present := os_path_exists DOCS_DIR in
  (if negb present then os_makedirs DOCS_DIR else ret tt) >>
  let date_str := strftime_date now in
  fun w => generate_filename_loop (S (size (fs w))) date_str 1 w.

Definition quoted (s : string) : string :=
  String dquote (s +:+ String dquote EmptyString).

Definition document_meta (title category : string) (tags : list string) : json :=
  JObj [("title", JStr title); ("category", JStr category);
        ("tags", JArr (map JStr tags))].

Definition create_document (P : Platform) (now : datetime)
    (title category : string) (tags : list string) (content : string) : M string :=
  let* metadata := load_json METADATA_FILE in
  let* file_name := generate_filename now in
  let front_matter :=
    ["---"; "title: " +:+ quoted title; "category: " +:+ quoted category;
     "tags: " +:+ py_repr_list P tags; "---" +:+ nl] in
  let file_path := os_path_join DOCS_DIR file_name in
  open_w file_path >>
  f_write file_path (String.concat nl front_matter) >>
  f_write file_path content >>
  let* metadata := lift (py_setitem metadata file_name (document_meta title category tags)) in
  save_json METADATA_FILE metadata >>
  ret file_name.

Definition load_markdown_file (file_name : string) : M string :=
  let file_path := os_path_join DOCS_DIR file_name in
  let* present := os_path_exists file_path in
  if present then read_text file_path else ret EmptyString.

Definition delete_document (file_name : string) : M unit :=
  let* metadata := load_json METADATA_FILE in
  let* listed := lift (py_contains file_name metadata) in
  (if listed then
     let* metadata := lift (py_delitem metadata file_name) in
     save_json METADATA_FILE metadata
   else ret tt) >>
  let file_path := os_path_join DOCS_DIR file_name in
  let* present := os_path_exists file_path in
  if present then os_remove file_path else ret tt.

(** [file.endswith('.md')] *)
Definition ends_with (suffix s : string) : bool :=
  is_prefix (string_of_list_ascii (rev (list_ascii_of_string suffix)))
            (string_of_list_ascii (rev (list_ascii_of_string s))).

(** The body of the two nested loops of [merge_md_files] for one file. *)
Definition merge_one (output_file root file : string) : M unit :=
  if ends_with ".md" file then
    let file_path := os_path_join root file in
    let* text := read_text file_path in
    f_write output_file ("## " +:+ file +:+ nl +:+ nl) >>
    f_write output_file (text +:+ nl +:+ nl) >>
    f_write output_file (string_of_list_ascii (repeat "-"%char 40) +:+ nl +:+ nl)
  else ret tt.

Fixpoint merge_files (output_file root : string) (files : list string) : M unit :=
  match files with
  | [] => ret tt
  | file :: rest => merge_one output_file root file >> merge_files output_file root rest
  end.

Fixpoint merge_walk (output_file : string) (dirs : list (string * list string))
  : M unit :=
  match dirs with
  | [] => ret tt
  | (root, files) :: rest =>
      merge_files output_file root files >> merge_walk output_file rest
  end.

Definition merge_md_files (P : Platform) (now : datetime)
    (folder_path output_file : string) : M string :=
  let* present := os_path_exists folder_path in
  if negb present then ret ("지정된 폴더가 존재하지 않습니다: " +:+ folder_path)
  else
    try_except
      (open_w output_file >>
       f_write output_file
         ("# MERGED Overview (" +:+ strftime_datetime now +:+ ")" +:+ nl +:+ nl) >>
       f_write output_file ("합쳐진 폴더: " +:+ folder_path +:+ nl +:+ nl) >>
       (fun w => merge_walk output_file (os_walk P (fs w) folder_path) w) >>
       ret ("Merged 파일이 성공적으로 생성되었습니다: " +:+ output_file))
      (fun _ => true)
      (fun e => ret ("파일 병합 중 오류 발생: " +:+ exn_text P e)).

(** ** The button handlers of [main]

    One function per branch of [main] that changes a store, run from the
    top of the script to the end of the [if st.button(...)] block with the
    button pressed; the arguments are the values of the input widgets. *)

(** [s.split(",")] *)
Fixpoint split_on (sep : ascii) (s : string) : list string :=
  match s with
  | EmptyString => [EmptyString]
  | String c s' =>
      if Ascii.eqb c sep then EmptyString :: split_on sep s'
      else
        match split_on sep s' with
        | h :: t => String c h :: t
        | [] => [String c EmptyString]
        end
  end.

(** [[tag.strip() for tag in s.split(",") if tag.strip()]] *)
Definition parse_tags (P : Platform) (s : string) : list string :=
  filter (fun t => t ≠ EmptyString) (map (py_strip P) (split_on "," s)).

(** Documents, "추가". *)
Definition main_doc_add (P : Platform) (now : datetime)
    (title category tags_input content : string) : M unit :=
  let* metadata := load_json METADATA_FILE in
  let tags := parse_tags P tags_input in
  if String.eqb title "" then st_show (StError "제목을 입력하세요.")
  else
    let* file_name := create_document P now title category tags content in
    st_show (StSuccess ("문서 '" +:+ file_name +:+ "'이 추가되었습니다.")).

(** Documents, "수정": [file_name] is the document chosen in the select box. *)
Definition main_doc_edit (P : Platform) (now : datetime)
    (file_name title category tags content : string) : M unit :=
  let* metadata := load_json METADATA_FILE in
  if py_truth P metadata then
    let* options := lift (py_keys metadata) in
    let* doc_meta := lift (py_getitem metadata file_name) in
    let* old_title := lift (py_getitem doc_meta "title") in
    let* old_category := lift (py_getitem doc_meta "category") in
    let* old_tags := lift (py_getitem doc_meta "tags") in
    let* shown_tags := lift (py_join ", " old_tags) in
    let* old_content := load_markdown_file file_name in
    let tags_list := parse_tags P tags in
    let* new_name := create_document P now title category tags_list content in
    st_show (StSuccess ("문서 '" +:+ file_name +:+ "'이 수정되었습니다."))
  else st_show (StInfo "수정할 문서가 없습니다.").

(** Documents, "삭제". *)
Definition main_doc_delete (P : Platform) (file_name : string) : M unit :=
  let* metadata := load_json METADATA_FILE in
  if py_truth P metadata then
    let* options := lift (py_keys metadata) in
    delete_document file_name >>
    st_show (StSuccess ("문서 '" +:+ file_name +:+ "'이 삭제되었습니다."))
  else st_show (StInfo "삭제할 문서가 없습니다.").

Definition template_record (name content : string) : json :=
  JObj [("template_name", JStr name); ("content", JStr content)].

(** Templates, "추가". *)
Definition main_template_add (new_id new_name new_content : string) : M unit :=
  let* templates := load_json TEMPLATES_FILE in
  let* taken := lift (py_contains new_id templates) in
  if taken then st_show (StError "이미 존재하는 템플릿 ID입니다.")
  else
    let* templates := lift (py_setitem templates new_id
                              (template_record new_name new_content)) in
    save_json TEMPLATES_FILE templates >>
    st_show (StSuccess ("템플릿 '" +:+ new_id +:+ "' 추가 완료!")).

(** Templates, "수정". *)
Definition main_template_edit (P : Platform)
    (tpl_id updated_name updated_content : string) : M unit :=
  let* templates := load_json TEMPLATES_FILE in
  if py_truth P templates then
    let* options := lift (py_keys templates) in
    let* tpl_data := lift (py_getitem templates tpl_id) in
    let* old_name := lift (py_getitem tpl_data "template_name") in
    let* old_content := lift (py_getitem tpl_data "content") in
    let* templates := lift (py_setitem templates tpl_id
                              (template_record updated_name updated_content)) in
    save_json TEMPLATES_FILE templates >>
    st_show (StSuccess ("템플릿 '" +:+ tpl_id +:+ "' 수정 완료!"))
  else st_show (StInfo "수정할 템플릿이 없습니다.").

(** Prompts, "추가". *)
Definition main_prompt_add (prompt_id prompt_text : string) : M unit :=
  let* prompts := load_json PROMPTS_FILE in
  let* taken := lift (py_contains prompt_id prompts) in
  if taken then st_show (StError "이미 존재하는 프롬프트 ID입니다.")
  else
    let* prompts := lift (py_setitem prompts prompt_id (JStr prompt_text)) in
    save_json PROMPTS_FILE prompts >>
    st_show (StSuccess ("프롬프트 '" +:+ prompt_id +:+ "' 추가 완료!")).

(** Keywords, "추가". *)
Definition main_keyword_add (keyword description : string) : M unit :=
  let* keywords := load_json KEYWORDS_FILE in
  let* taken := lift (py_contains keyword keywords) in
  if taken then st_show (StError "이미 존재하는 키워드입니다.")
  else
    let* keywords := lift (py_setitem keywords keyword (JStr description)) in
    save_json KEYWORDS_FILE keywords >>
    st_show (StSuccess ("키워드 '" +:+ keyword +:+ "' 추가 완료!")).

(** ** A platform and a clock to run the program on *)

Definition sample_platform : Platform :=
  {| py_repr_list := fun tags => "[" +:+ String.concat ", " (map (fun t => "'" +:+ t +:+ "'") tags) +:+ "]";
     py_strip := fun s => s;
     float_truth := fun _ => true;
     yaml_dump := fun c => "nav entries: " +:+ Numeral.str_of_nat (length (nav c));
     os_walk := fun _ _ => [];
     exn_text := fun _ => "error" |}.

Definition sample_now : datetime :=
  {| year := 2024; month := 1; day := 1; hour := 9; minute := 30; second := 0 |}.

Definition empty_world : world := World ∅ [].

(** ** Notions used in the statements *)

(** Each key once. *)
Fixpoint nodup_keys (ks : list string) : bool :=
  match ks with
  | [] => true
  | k :: rest => negb (existsb (String.eqb k) rest) && nodup_keys rest
  end.

(** The numerals [json.loads] reads as a float. *)
Definition float_literal (lit : string) : bool :=
  match scan_number lit with
  | Some (JFloat l, EmptyString) => String.eqb l lit
  | _ => false
  end.

(** The terms of [json] that stand for a Python value: a dict has each key
    once and a float is written as a float numeral. *)
Fixpoint json_ok (v : json) : bool :=
  match v with
  | JFloat lit => float_literal lit
  | JArr l => forallb json_ok l
  | JObj m => nodup_keys (map fst m) && forallb (fun kv => let '(_, x) := kv in json_ok x) m
  | _ => true
  end.

(** Every [str] inside a value can be encoded as UTF-8 (no lone surrogate). *)
Fixpoint json_text_ok (v : json) : bool :=
  match v with
  | JFloat lit => Utf8.valid lit
  | JStr s => Utf8.valid s
  | JArr l => forallb json_text_ok l
  | JObj m => forallb (fun kv => let '(k, x) := kv in Utf8.valid k && json_text_ok x) m
  | _ => true
  end.

(** Recursion budget that suffices to read back the encoding of a value. *)
Fixpoint need (v : json) : nat :=
  match v with
  | JArr l => S (fold_right (fun x n => S (need x + n)) 0 l)
  | JObj m => S (fold_right (fun kv n => let '(_, x) := kv in S (need x + n)) 0 m)
  | _ => 1
  end.

(** What can follow an encoded value: the end of the text, a comma or a
    line break. *)
Definition terminated (rest : string) : bool :=
  match rest with
  | EmptyString => true
  | String c _ => Ascii.eqb c "," || Ascii.eqb c ch_nl
  end.

(** Document operations, each create with the time it is made at. *)
Inductive op :=
| Create (now : datetime) (title category : string) (tags : list string)
         (content : string)
| Delete (file_name : string).

(** Runs the operations in order; the result lists the filenames the creates
    returned. *)
Fixpoint run_ops (P : Platform) (ops : list op) : M (list string) :=
  match ops with
  | [] => ret []
  | Create now title category tags content :: rest =>
      let* name := create_document P now title category tags content in
      let* names := run_ops P rest in
      ret (name :: names)
  | Delete file_name :: rest =>
      delete_document file_name >> run_ops P rest
  end.

Definition same_day (date_str : string) (o : op) : Prop :=
  match o with
  | Create now _ _ _ _ => strftime_date now = date_str
  | Delete _ => True
  end.

Definition is_create (o : op) : bool :=
  match o with
  | Create _ _ _ _ _ => true
  | Delete _ => false
  end.

(** Suffixes 1, 2, 3, ... in the order of creation. *)
Definition numbered_from (start : nat) (date_str : string) (names : list string)
  : Prop :=
  names = map (filename_of date_str) (seq start (length names)).

(** The path of a document file. *)
Definition doc_path (file_name : string) : string := os_path_join DOCS_DIR file_name.

(** Single-quoted JSON text, to write examples without escaping. *)
Definition sq (s : string) : string :=
  string_of_list_ascii
    (map (fun c => if Ascii.eqb c "'" then dquote else c) (list_ascii_of_string s)).

(** ** Examples and further notions of the statements *)

(** Whether a loaded value is a dict. *)
Definition is_dict (v : json) : bool :=
  match v with
  | JObj _ => true
  | _ => false
  end.

(** A byte that no UTF-8 text contains. *)
Definition byte_ff : string := String "255"%char EmptyString.

Definition sample_store : list (string * json) :=
  [("t1", JObj [("template_name", JStr "Daily"); ("content", JStr "# Log")]);
   ("n", JArr [JInt 1; JInt (-20); JNull; JBool true])].

(** The file system once [DOCS_DIR] has been made sure of. *)
Definition ensure_docs (f : gmap string node) : gmap string node :=
  match f !! DOCS_DIR with
  | None => <[DOCS_DIR := Dir]> f
  | Some _ => f
  end.

(** The front matter [create_document] writes before the body. *)
Definition front_text (P : Platform) (title category : string) (tags : list string)
  : string :=
  String.concat nl
    ["---"; "title: " +:+ quoted title; "category: " +:+ quoted category;
     "tags: " +:+ py_repr_list P tags; "---" +:+ nl].

(** The document of the day with suffix [k] has a file. *)
Definition occupied (f : gmap string node) (date_str : string) (k : nat) : Prop :=
  f !! doc_path (filename_of date_str k) <> None.

(** Three documents made on one day, the first deleted before the third. *)
Definition reuse_ops : list op :=
  [Create sample_now "A" "C" ["x"] "first";
   Create sample_now "B" "C" [] "second";
   Delete "2024-01-01-#1.md";
   Create sample_now "D" "C" [] "third"].

(** The world after one document has been added through the form. *)
Definition world_one_doc : world :=
  snd (main_doc_add sample_platform sample_now "A" "C" "x" "body" empty_world).

(** The world after that document has been edited through the form. *)
Definition world_after_edit : world :=
  snd (main_doc_edit sample_platform sample_now "2024-01-01-#1.md"
         "A2" "C" "x" "new body" world_one_doc).


(** The path of the landing page. *)
Definition index_path : string := os_path_join DOCS_DIR "index.md".

(** Every path of the file system sits in a directory of the file system. *)
Definition fs_consistent (f : gmap string node) : Prop :=
  forall p, is_Some (f !! p) -> parent_check p f = None.

(** The label a metadata entry gets in the navigation: its title, when it has
    one that can be a dict key. *)
Definition doc_label (meta : json) : option json :=
  match py_getitem meta "title" with
  | Ok title => if hashable title then Some title else None
  | Raise _ => None
  end.

Definition doc_entry (kv : string * json) : json * string :=
  (match doc_label (snd kv) with Some title => title | None => JNull end, fst kv).

Definition page_if (store : list (string * json)) (entry : json * string)
  : list (json * string) :=
  match store with
  | [] => []
  | _ => [entry]
  end.

(** The navigation the claim describes. *)
Definition expected_nav (metadata templates prompts keywords : list (string * json))
  : list (json * string) :=
  [(JStr "Home", "index.md")] ++ map doc_entry metadata
  ++ page_if templates (JStr "Templates", "templates.md")
  ++ page_if prompts (JStr "Prompts", "prompts.md")
  ++ page_if keywords (JStr "Keywords", "keywords.md").

Definition example_metadata : list (string * json) :=
  [("2024-01-01-#1.md",
    JObj [("title", JStr "A"); ("category", JStr "C"); ("tags", JArr [JStr "x"])])].

Definition example_metadata_text : string :=
  sq "{'2024-01-01-#1.md': {'title': 'A', 'category': 'C', 'tags': ['x']}}".

Definition example_world : world :=
  World {[ METADATA_FILE := File example_metadata_text ]} [].

(** A path is kept with what it holds, whatever the computation returns. *)
Definition keeps {A} (p : string) (m : M A) : Prop :=
  forall w r w' x, m w = (r, w') -> fs w !! p = Some x -> fs w' !! p = Some x.

(** The world after a first build, then with the landing page replaced by the
    user, then after a second build. *)
Definition world_built : world :=
  snd (mkdocs_setup sample_platform example_world).

Definition world_edited_index : world :=
  World (<[index_path := File "# Mine"]> (fs world_built)) [].

Definition world_rebuilt : world :=
  snd (mkdocs_setup sample_platform world_edited_index).

(** ** Notions used in the proofs *)

Import Numeral.

(** The text starts with a decimal digit. *)
Definition digit_head (s : string) : bool :=
  match s with
  | String c _ => is_digit c
  | EmptyString => false
  end.

Abbreviation str_uint := NilEmpty.string_of_uint.

(** The integer part of a number: [0], or digits that do not start with 0. *)
Definition int_shape (d : uint) : Prop :=
  d = D0 Nil \/
  exists c t, str_uint d = String c t /\ is_digit c = true /\ Ascii.eqb c "0" = false.

(** The optional fraction: a dot and at least one digit. *)
Definition frac_shape (frac : string) : Prop :=
  frac = EmptyString \/ exists d, d <> Nil /\ frac = String "." (str_uint d).

(** The optional exponent: e or E, an optional sign, at least one digit. *)
Definition exp_shape (ex : string) : Prop :=
  ex = EmptyString \/
  exists c sgn d,
    (c = "e" \/ c = "E")%char /\ (sgn = "" \/ sgn = "+" \/ sgn = "-")
    /\ d <> Nil /\ ex = String c (sgn +:+ str_uint d).

Definition sign_text (neg : bool) : string := if neg then "-" else "".

(** A numeral with a fraction or an exponent. *)
Definition float_shape (lit : string) : Prop :=
  exists (neg : bool) d frac ex,
    int_shape d /\ frac_shape frac /\ exp_shape ex
    /\ (frac <> EmptyString \/ ex <> EmptyString)
    /\ lit = sign_text neg +:+ str_uint d +:+ frac +:+ ex.

(** What [match_number] returns for the parts it matched. *)
Definition number_value (neg : bool) (d : uint) (frac ex : string) : json :=
  match frac, ex with
  | EmptyString, EmptyString =>
      JInt (if neg then Z.opp (Z.of_N (N.of_uint d)) else Z.of_N (N.of_uint d))
  | _, _ => JFloat (sign_text neg +:+ str_uint d +:+ frac +:+ ex)
  end.

(** The three constants the decoder accepts besides numerals. *)
Definition special_float (lit : string) : Prop :=
  lit = "NaN" \/ lit = "Infinity" \/ lit = "-Infinity".

(** The first character of a number. *)
Definition number_head (c : ascii) : bool :=
  is_digit c || Ascii.eqb c "-" || Ascii.eqb c "N" || Ascii.eqb c "I".

(** A first character after which [scan_once] reads a number. *)
Definition plain_head (c : ascii) : Prop :=
  is_ws c = false /\ Ascii.eqb c "]" = false /\ Ascii.eqb c dquote = false
  /\ Ascii.eqb c "{" = false /\ Ascii.eqb c "[" = false
  /\ Ascii.eqb "n" c = false /\ Ascii.eqb "t" c = false /\ Ascii.eqb "f" c = false.

(** The encoding of [v] at any indentation, followed by a terminated rest,
    is read back as [v] and the rest, given the budget [need v]. *)
Definition reads_back (v : json) : Prop :=
  forall lvl rest f, terminated rest = true -> need v <= f ->
    scan_once f (iterencode lvl v +:+ rest) = POk v rest.

Definition need_list (l : list json) : nat :=
  fold_right (fun x n => S (need x + n)) 0 l.

Definition need_members (m : list (string * json)) : nat :=
  fold_right (fun kv n => let '(_, x) := kv in S (need x + n)) 0 m.

(** One ["key": value] member of an encoded dict. *)
Definition member_text (lvl : nat) (kv : string * json) : string :=
  let '(k, x) := kv in py_encode_basestring k +:+ ": " +:+ iterencode lvl x.

Definition tail_of (s : string) : string :=
  match s with
  | String _ t => t
  | EmptyString => EmptyString
  end.

(** Every byte is below 128. *)
Fixpoint all_ascii (s : string) : bool :=
  match s with
  | EmptyString => true
  | String c s' => (code c <? 128)%N && all_ascii s'
  end.

(** An escape replaces an ASCII character by ASCII characters, and keeps
    every other character. *)
Definition escape_char_fits (c : ascii) : bool :=
  String.eqb (escape_char c) (String c EmptyString)
  || ((code c <? 128)%N && all_ascii (escape_char c)
      && negb (String.eqb (escape_char c) EmptyString)).

(** The text holds a carriage return. *)
Fixpoint has_cr (s : string) : bool :=
  match s with
  | EmptyString => false
  | String c s' => Ascii.eqb c ch_cr || has_cr s'
  end.

(** ** The other button handlers of [main] *)

(** Templates, "삭제". *)
Definition main_template_delete (P : Platform) (tpl_id : string) : M unit :=
  let* templates := load_json TEMPLATES_FILE in
  if py_truth P templates then
    let* options := lift (py_keys templates) in
    let* templates := lift (py_delitem templates tpl_id) in
    save_json TEMPLATES_FILE templates >>
    st_show (StSuccess ("템플릿 '" +:+ tpl_id +:+ "' 삭제 완료!"))
  else st_show (StInfo "삭제할 템플릿이 없습니다.").

(** Prompts, "수정". *)
Definition main_prompt_edit (P : Platform) (prompt_id updated_text : string) : M unit :=
  let* prompts := load_json PROMPTS_FILE in
  if py_truth P prompts then
    let* options := lift (py_keys prompts) in
    let* old_text := lift (py_getitem prompts prompt_id) in
    let* prompts := lift (py_setitem prompts prompt_id (JStr updated_text)) in
    save_json PROMPTS_FILE prompts >>
    st_show (StSuccess ("프롬프트 '" +:+ prompt_id +:+ "' 수정 완료!"))
  else st_show (StInfo "수정할 프롬프트가 없습니다.").

(** Prompts, "삭제". *)
Definition main_prompt_delete (P : Platform) (prompt_id : string) : M unit :=
  let* prompts := load_json PROMPTS_FILE in
  if py_truth P prompts then
    let* options := lift (py_keys prompts) in
    let* prompts := lift (py_delitem prompts prompt_id) in
    save_json PROMPTS_FILE prompts >>
    st_show (StSuccess ("프롬프트 '" +:+ prompt_id +:+ "' 삭제 완료!"))
  else st_show (StInfo "삭제할 프롬프트가 없습니다.").

(** Keywords, "수정". *)
Definition main_keyword_edit (P : Platform) (keyword updated_description : string)
  : M unit :=
  let* keywords := load_json KEYWORDS_FILE in
  if py_truth P keywords then
    let* options := lift (py_keys keywords) in
    let* old_description := lift (py_getitem keywords keyword) in
    let* keywords := lift (py_setitem keywords keyword (JStr updated_description)) in
    save_json KEYWORDS_FILE keywords >>
    st_show (StSuccess ("키워드 '" +:+ keyword +:+ "' 수정 완료!"))
  else st_show (StInfo "수정할 키워드가 없습니다.").

(** Keywords, "삭제". *)
Definition main_keyword_delete (P : Platform) (keyword : string) : M unit :=
  let* keywords := load_json KEYWORDS_FILE in
  if py_truth P keywords then
    let* options := lift (py_keys keywords) in
    let* keywords := lift (py_delitem keywords keyword) in
    save_json KEYWORDS_FILE keywords >>
    st_show (StSuccess ("키워드 '" +:+ keyword +:+ "' 삭제 완료!"))
  else st_show (StInfo "삭제할 키워드가 없습니다.").

(** The marker the merge page looks for in the message of [merge_md_files]. *)
Definition merge_marker : string := "성공적으로 생성".

(** "MERGED 파일 생성". *)
Definition main_merge (P : Platform) (now : datetime)
    (folder_path output_file : string) : M unit :=
  if String.eqb folder_path "" || String.eqb output_file "" then
    st_show (StError "폴더 경로와 저장 경로를 모두 입력하세요.")
  else
    let* result := merge_md_files P now folder_path output_file in
    if is_substring merge_marker result then st_show (StSuccess result)
    else st_show (StError result).

(** ** Further notions used in the statements *)

(** What an edit of one entry leaves in the store. *)
Definition edited (key : string) (x : json) (m m' : list (string * json)) : Prop :=
  map fst m' = map fst m
  /\ dict_get key m' = Some x
  /\ forall k, k <> key -> dict_get k m' = dict_get k m.

(** What the removal of one entry leaves in the store. *)
Definition removed (key : string) (m m' : list (string * json)) : Prop :=
  dict_mem key m' = false
  /\ S (length m') = length m
  /\ forall k, k <> key -> dict_get k m' = dict_get k m.

(** The two lines [merge_md_files] starts the output with. *)
Definition merge_header (now : datetime) (folder_path : string) : string :=
  ("# MERGED Overview (" +:+ strftime_datetime now +:+ ")" +:+ nl +:+ nl)
  +:+ ("합쳐진 폴더: " +:+ folder_path +:+ nl +:+ nl).

(** The section of one merged file: heading, text, rule. *)
Definition merge_section (file text : string) : string :=
  ("## " +:+ file +:+ nl +:+ nl)
  +:+ (text +:+ nl +:+ nl)
  +:+ (string_of_list_ascii (repeat "-"%char 40) +:+ nl +:+ nl).

(** A file of the walk that the merge reads can be read: it is not the
    output file, it is a regular file of well-formed UTF-8, and its name can
    be encoded. *)
Definition md_readable (f : gmap string node) (output_file root file : string) : Prop :=
  ends_with ".md" file = true ->
  os_path_join root file <> output_file
  /\ Utf8.valid file = true
  /\ exists bytes, f !! os_path_join root file = Some (File bytes)
                   /\ Utf8.valid bytes = true.

(** The sections of the [.md] files of one directory, in order. *)
Fixpoint sections_of (f : gmap string node) (root : string) (files : list string)
  : string :=
  match files with
  | [] => EmptyString
  | file :: rest =>
      (if ends_with ".md" file then
         match f !! os_path_join root file with
         | Some (File bytes) => merge_section file (universal_newlines bytes)
         | _ => EmptyString
         end
       else EmptyString) +:+ sections_of f root rest
  end.

Fixpoint walk_sections (f : gmap string node) (dirs : list (string * list string))
  : string :=
  match dirs with
  | [] => EmptyString
  | (root, files) :: rest => sections_of f root files +:+ walk_sections f rest
  end.

(** A platform whose walk of any folder finds one directory, [notes], with a
    Markdown file and a text file. *)
Definition notes_platform : Platform :=
  {| py_repr_list := py_repr_list sample_platform;
     py_strip := py_strip sample_platform;
     float_truth := float_truth sample_platform;
     yaml_dump := yaml_dump sample_platform;
     os_walk := fun _ _ => [("notes", ["a.md"; "todo.txt"])];
     exn_text := exn_text sample_platform |}.


(** ** Further notions used in the proofs *)

(** No path separator in the text. *)
Fixpoint no_sep (s : string) : bool :=
  match s with
  | EmptyString => true
  | String c s' => negb (Ascii.eqb c "/") && no_sep s'
  end.

(** The part of [create_document] after the document file has been written. *)
Definition create_document_register (metadata : json) (file_name : string)
    (title category : string) (tags : list string) : M string :=
  let* metadata := lift (py_setitem metadata file_name
                           (document_meta title category tags)) in
  save_json METADATA_FILE metadata >> ret file_name.

(** The state of a merge under way: the output file starts with the header,
    and nothing else has changed since the merge began in [w]. *)
Definition merged_so_far (w : world) (output_file header : string) (w0 : world) : Prop :=
  (exists rest, fs w0 !! output_file = Some (File (header +:+ rest)))
  /\ (forall p, p <> output_file -> fs w0 !! p = fs w !! p)
  /\ ui w0 = ui w.

(** A computation keeps a property of the world, however it ends. *)
Definition preserves {A} (I : world -> Prop) (m : M A) : Prop :=
  forall w0 r w1, I w0 -> m w0 = (r, w1) -> I w1.

(** * Facts *)

(** ** Strings *)

Lemma sapp_nil_l (s : string) : EmptyString +:+ s = s.
Proof. reflexivity. Qed.

Lemma sapp_cons (c : ascii) (s t : string) : String c s +:+ t = String c (s +:+ t).
Proof. reflexivity. Qed.

Lemma sapp_nil_r (s : string) : s +:+ EmptyString = s.
Proof. induction s as [|c s IH]; [reflexivity|]. rewrite sapp_cons, IH. reflexivity. Qed.

Lemma sapp_assoc (a b c : string) : (a +:+ b) +:+ c = a +:+ (b +:+ c).
Proof.
  induction a as [|x a IH]; [reflexivity|].
  rewrite !sapp_cons, IH. reflexivity.
Qed.

Lemma slength_app (a b : string) :
  String.length (a +:+ b) = String.length a + String.length b.
Proof.
  induction a as [|x a IH]; [reflexivity|].
  rewrite sapp_cons. simpl. rewrite IH. reflexivity.
Qed.

Lemma sapp_inj_r (a b s : string) : a +:+ s = b +:+ s -> a = b.
Proof.
  revert b. induction a as [|x a IH]; intros [|y b] H.
  - reflexivity.
  - apply (f_equal String.length) in H. rewrite sapp_nil_l, slength_app in H.
    simpl in H. lia.
  - apply (f_equal String.length) in H. rewrite sapp_nil_l, slength_app in H.
    simpl in H. lia.
  - rewrite !sapp_cons in H. injection H as -> H. f_equal. apply IH, H.
Qed.

(** ** Decimal numerals *)

Lemma scan_uint_cons (c : ascii) (s : string) :
  scan_uint (String c s) =
  if is_digit c then
    let '(d, r) := scan_uint s in
    (match uint_of_char c (Some d) with Some d' => d' | None => Nil end, r)
  else (Nil, String c s).
Proof. reflexivity. Qed.

Lemma scan_uint_stop (s : string) : digit_head s = false -> scan_uint s = (Nil, s).
Proof. destruct s as [|c s]; simpl; [reflexivity|]. intros ->. reflexivity. Qed.

Lemma scan_uint_print (d : uint) (rest : string) :
  digit_head rest = false ->
  scan_uint (NilEmpty.string_of_uint d +:+ rest) = (d, rest).
Proof.
  intros H. induction d; simpl NilEmpty.string_of_uint;
    rewrite ?sapp_nil_l, ?sapp_cons;
    [apply scan_uint_stop, H | simpl; rewrite IHd; reflexivity ..].
Qed.

Lemma is_digit_cons (c : ascii) (d : uint) :
  is_digit c = true -> exists d', uint_of_char c (Some d) = Some d'
    /\ NilEmpty.string_of_uint d' = String c (NilEmpty.string_of_uint d)
    /\ d' <> Nil.
Proof.
  unfold is_digit. destruct (uint_of_char c (Some Nil)) as [x|] eqn:E; [|discriminate].
  intros _. apply uint_of_char_spec in E.
  repeat (destruct E as [[-> _]|E]; [eexists; split; [reflexivity|split; [reflexivity|discriminate]]|]).
  destruct E as [-> _]. eexists; split; [reflexivity|split; [reflexivity|discriminate]].
Qed.

(** The scanner splits its input: the digits it read, then the rest, which
    does not start with a digit. *)
Lemma scan_uint_split (s : string) (d : uint) (r : string) :
  scan_uint s = (d, r) ->
  s = NilEmpty.string_of_uint d +:+ r /\ digit_head r = false
  /\ (digit_head s = true -> d <> Nil).
Proof.
  revert d r. induction s as [|c s IH]; intros d r.
  - intros [= <- <-]. auto.
  - rewrite scan_uint_cons. destruct (is_digit c) eqn:Hc.
    + destruct (scan_uint s) as [d0 r0].
      destruct (IH _ _ eq_refl) as (Hs & Hr & _).
      destruct (is_digit_cons c d0 Hc) as (d' & -> & Hp & Hn).
      intros [= <- <-]. rewrite Hp, sapp_cons, <- Hs. auto.
    + intros [= <- <-]. simpl. rewrite Hc. auto.
Qed.

Lemma digit_head_print (d : uint) (t : string) :
  d <> Nil -> digit_head (NilEmpty.string_of_uint d +:+ t) = true.
Proof. destruct d; intros H; try reflexivity. contradiction. Qed.

(** ** Number syntax *)

Lemma scan_int_part_shape (s : string) (d : uint) (r : string) :
  scan_int_part s = Some (d, r) -> int_shape d /\ s = str_uint d +:+ r.
Proof.
  destruct s as [|c s]; [discriminate|]. unfold scan_int_part.
  destruct (Ascii.eqb_spec c "0") as [->|Hc].
  - intros [= <- <-]. split; [left; reflexivity | reflexivity].
  - destruct (is_digit c) eqn:Hd; [|discriminate].
    destruct (scan_uint (String c s)) as [d0 r0] eqn:H. intros [= <- <-].
    destruct (scan_uint_split _ _ _ H) as (Hs & _ & Hn).
    split; [|exact Hs]. right.
    specialize (Hn Hd). destruct d0; try contradiction;
      simpl in Hs; rewrite sapp_cons in Hs; injection Hs as Hs' _; subst c;
      eexists _, _; (split; [reflexivity|]); split; auto;
      apply Ascii.eqb_neq; exact Hc.
Qed.

Lemma scan_int_part_print (d : uint) (t : string) :
  int_shape d -> digit_head t = false ->
  scan_int_part (str_uint d +:+ t) = Some (d, t).
Proof.
  intros [->|(c & u & Hs & Hd & H0)] Ht; [reflexivity|].
  pose proof (scan_uint_print d t Ht) as Hp.
  rewrite Hs, sapp_cons in *. unfold scan_int_part. rewrite H0, Hd, Hp. reflexivity.
Qed.

Lemma is_nil_false (d : uint) : d <> Nil -> is_nil d = false.
Proof. destruct d; try reflexivity. contradiction. Qed.

Lemma is_nil_spec (d : uint) : is_nil d = false -> d <> Nil.
Proof. destruct d; try discriminate; intros _; discriminate. Qed.

Lemma scan_frac_shape (s frac r : string) :
  scan_frac s = (frac, r) -> frac_shape frac /\ s = frac +:+ r.
Proof.
  destruct s as [|c s]; [intros [= <- <-]; split; [left|]; reflexivity|].
  unfold scan_frac. destruct (Ascii.eqb_spec c ".") as [->|Hc].
  - destruct (scan_uint s) as [d r0] eqn:E.
    destruct (scan_uint_split _ _ _ E) as (Hs & _ & _).
    destruct (is_nil d) eqn:Hn; intros [= <- <-].
    + split; [left|]; reflexivity.
    + split; [right; exists d; split; [apply is_nil_spec, Hn|reflexivity]|].
      rewrite sapp_cons, <- Hs. reflexivity.
  - intros [= <- <-]. split; [left|]; reflexivity.
Qed.

Lemma scan_frac_print (d : uint) (t : string) :
  d <> Nil -> digit_head t = false ->
  scan_frac (String "." (str_uint d) +:+ t) = (String "." (str_uint d), t).
Proof.
  intros Hd Ht. rewrite sapp_cons. unfold scan_frac. simpl Ascii.eqb. cbv iota.
  rewrite (scan_uint_print d t Ht), (is_nil_false d Hd). reflexivity.
Qed.

Lemma scan_exp_shape (s ex r : string) :
  scan_exp s = (ex, r) -> exp_shape ex /\ s = ex +:+ r.
Proof.
  destruct s as [|c s]; [intros [= <- <-]; split; [left|]; reflexivity|].
  unfold scan_exp.
  destruct (Ascii.eqb c "e" || Ascii.eqb c "E") eqn:Hc;
    [|intros [= <- <-]; split; [left|]; reflexivity].
  assert (Hce : (c = "e" \/ c = "E")%char).
  { apply orb_true_iff in Hc as [H|H]; apply Ascii.eqb_eq in H; auto. }
  assert (Hgen : forall sgn s1, (sgn = "" \/ sgn = "+" \/ sgn = "-") ->
     s = sgn +:+ s1 ->
     (let '(d, r) := scan_uint s1 in
      if is_nil d then (EmptyString, String c s)
      else (String c (sgn +:+ str_uint d), r)) = (ex, r) ->
     exp_shape ex /\ String c s = ex +:+ r).
  { intros sgn s1 Hsgn Hs. destruct (scan_uint s1) as [d r0] eqn:E.
    destruct (scan_uint_split _ _ _ E) as (Hs1 & _ & _).
    destruct (is_nil d) eqn:Hn; intros [= <- <-].
    - split; [left|]; reflexivity.
    - split; [right; exists c, sgn, d; repeat split; auto; apply is_nil_spec, Hn|].
      rewrite sapp_cons, sapp_assoc, <- Hs1, <- Hs. reflexivity. }
  destruct s as [|g t].
  - apply (Hgen "" ""); auto.
  - destruct (Ascii.eqb g "+" || Ascii.eqb g "-") eqn:Hg.
    + apply orb_true_iff in Hg as [H|H]; apply Ascii.eqb_eq in H; subst g.
      * apply (Hgen "+" t); auto.
      * apply (Hgen "-" t); auto.
    + apply (Hgen "" (String g t)); auto.
Qed.

Lemma scan_exp_print (c : ascii) (sgn : string) (d : uint) (t : string) :
  (c = "e" \/ c = "E")%char -> (sgn = "" \/ sgn = "+" \/ sgn = "-") ->
  d <> Nil -> digit_head t = false ->
  scan_exp (String c (sgn +:+ str_uint d) +:+ t) = (String c (sgn +:+ str_uint d), t).
Proof.
  intros Hc Hsgn Hd Ht. rewrite sapp_cons, sapp_assoc. unfold scan_exp.
  assert (Ascii.eqb c "e" || Ascii.eqb c "E" = true) as ->.
  { destruct Hc as [-> | ->]; reflexivity. }
  pose proof (scan_uint_print d t Ht) as Hp.
  destruct Hsgn as [-> | [-> | ->]]; rewrite ?sapp_cons, ?sapp_nil_l.
  - assert (exists g u, str_uint d +:+ t = String g u /\ is_digit g = true)
      as (g & u & Hu & Hg).
    { destruct d; try contradiction; cbn [NilEmpty.string_of_uint];
        rewrite sapp_cons; eexists _, _; split; reflexivity. }
    rewrite Hu in *.
    assert (Ascii.eqb g "+" || Ascii.eqb g "-" = false) as ->.
    { destruct (Ascii.eqb_spec g "+") as [->|]; [discriminate|].
      destruct (Ascii.eqb_spec g "-") as [->|]; [discriminate|]. reflexivity. }
    cbv beta iota zeta. rewrite Hp, (is_nil_false d Hd), sapp_nil_l. reflexivity.
  - cbn [Ascii.eqb Bool.eqb andb orb]. rewrite Hp, (is_nil_false d Hd). reflexivity.
  - cbn [Ascii.eqb Bool.eqb andb orb]. rewrite Hp, (is_nil_false d Hd). reflexivity.
Qed.

Lemma int_shape_head (d : uint) (t : string) :
  int_shape d -> exists c u, str_uint d +:+ t = String c u /\ is_digit c = true.
Proof.
  intros [->|(c & u & Hs & Hd & _)].
  - eexists _, _. split; reflexivity.
  - rewrite Hs, sapp_cons. eauto.
Qed.

Lemma is_digit_not_minus (c : ascii) : is_digit c = true -> Ascii.eqb c "-" = false.
Proof. destruct (Ascii.eqb_spec c "-") as [->|]; [discriminate|reflexivity]. Qed.

(** What [match_number] accepts, and how it reads it. *)
Lemma match_number_inv (s : string) (v : json) (r : string) :
  match_number s = Some (v, r) ->
  exists neg d frac ex,
    int_shape d /\ frac_shape frac /\ exp_shape ex
    /\ s = sign_text neg +:+ str_uint d +:+ frac +:+ ex +:+ r
    /\ v = number_value neg d frac ex.
Proof.
  unfold match_number.
  set (p := match s with
            | String c t => if Ascii.eqb c "-" then (true, t) else (false, s)
            | EmptyString => (false, s)
            end).
  assert (Hp : s = sign_text (fst p) +:+ snd p).
  { subst p. destruct s as [|c t]; [reflexivity|].
    destruct (Ascii.eqb_spec c "-") as [->|]; reflexivity. }
  destruct p as [neg s1]. simpl in Hp.
  destruct (scan_int_part s1) as [[d s2]|] eqn:E1; [|discriminate].
  destruct (scan_frac s2) as [frac s3] eqn:E2.
  destruct (scan_exp s3) as [ex s4] eqn:E3.
  apply scan_int_part_shape in E1 as (Hd & ->).
  apply scan_frac_shape in E2 as (Hf & ->).
  apply scan_exp_shape in E3 as (He & ->).
  intros H. exists neg, d, frac, ex.
  assert (Hv : v = number_value neg d frac ex /\ s4 = r).
  { unfold number_value, sign_text. destruct frac, ex; injection H as <- <-; rewrite ?sapp_assoc; auto. }
  destruct Hv as (-> & <-). repeat split; auto.
Qed.

Lemma terminated_stops (rest : string) :
  terminated rest = true ->
  digit_head rest = false /\ scan_frac rest = (EmptyString, rest)
  /\ scan_exp rest = (EmptyString, rest).
Proof.
  destruct rest as [|c rest]; [auto|]. unfold terminated.
  intros H. apply orb_true_iff in H as [H|H]; apply Ascii.eqb_eq in H; subst c; auto.
Qed.

Lemma match_number_print (neg : bool) (d : uint) (frac ex rest : string) :
  int_shape d -> frac_shape frac -> exp_shape ex -> terminated rest = true ->
  match_number (sign_text neg +:+ str_uint d +:+ frac +:+ ex +:+ rest)
  = Some (number_value neg d frac ex, rest).
Proof.
  intros Hd Hf He Hr.
  destruct (terminated_stops rest Hr) as (Hr1 & Hr2 & Hr3).
  assert (Hex : digit_head (ex +:+ rest) = false
                /\ scan_frac (ex +:+ rest) = (EmptyString, ex +:+ rest)
                /\ scan_exp (ex +:+ rest) = (ex, rest)).
  { destruct He as [->|(c & sgn & e & Hc & Hs & Hn & ->)]; [auto|].
    split; [|split].
    - rewrite sapp_cons. destruct Hc as [-> | ->]; reflexivity.
    - rewrite sapp_cons. destruct Hc as [-> | ->]; reflexivity.
    - apply scan_exp_print; auto. }
  destruct Hex as (Hx1 & Hx2 & Hx3).
  assert (Hfr : digit_head (frac +:+ ex +:+ rest) = false
                /\ scan_frac (frac +:+ ex +:+ rest) = (frac, ex +:+ rest)).
  { destruct Hf as [->|(f & Hn & ->)]; [auto|]. split.
    - reflexivity.
    - apply scan_frac_print; auto. }
  destruct Hfr as (Hf1 & Hf2).
  assert (Hbody : forall s1, s1 = str_uint d +:+ frac +:+ ex +:+ rest ->
    match scan_int_part s1 with
    | None => None
    | Some (dd, s2) =>
        let '(frac0, s3) := scan_frac s2 in
        let '(ex0, s4) := scan_exp s3 in
        let integer := (if neg then "-" else "") +:+ str_uint dd in
        match frac0, ex0 with
        | EmptyString, EmptyString =>
            Some (JInt (if neg then Z.opp (Z.of_N (N.of_uint dd))
                        else Z.of_N (N.of_uint dd)), s4)
        | _, _ => Some (JFloat (integer +:+ frac0 +:+ ex0), s4)
        end
    end = Some (number_value neg d frac ex, rest)).
  { intros s1 ->. rewrite (scan_int_part_print d _ Hd Hf1), Hf2, Hx3.
    unfold number_value, sign_text. rewrite !sapp_assoc. destruct frac, ex; reflexivity. }
  unfold match_number. destruct neg; unfold sign_text.
  - rewrite sapp_cons, sapp_nil_l. cbn [Ascii.eqb Bool.eqb andb]. apply Hbody. reflexivity.
  - rewrite sapp_nil_l.
    destruct (int_shape_head d (frac +:+ ex +:+ rest) Hd) as (c & u & Hs & Hc).
    rewrite Hs, (is_digit_not_minus c Hc), <- Hs. apply Hbody. reflexivity.
Qed.

Lemma int_shape_to_uint (n : N) : int_shape (N.to_uint n).
Proof.
  destruct n as [|p]; [left; reflexivity|]. right. simpl.
  pose proof (DecimalPos.Unsigned.to_uint_nonzero p) as Hz.
  pose proof (DecimalN.Unsigned.to_of (N.to_uint (Npos p))) as Hn.
  rewrite DecimalN.Unsigned.of_to in Hn. simpl in Hn.
  unfold unorm in Hn. pose proof (nzhead_nonzero (Pos.to_uint p)) as H0.
  destruct (nzhead (Pos.to_uint p)) eqn:E.
  - exfalso. apply Hz. rewrite Hn. reflexivity.
  - exfalso. eapply H0. reflexivity.
  - rewrite Hn. eexists _, _. repeat split; reflexivity.
  - rewrite Hn. eexists _, _. repeat split; reflexivity.
  - rewrite Hn. eexists _, _. repeat split; reflexivity.
  - rewrite Hn. eexists _, _. repeat split; reflexivity.
  - rewrite Hn. eexists _, _. repeat split; reflexivity.
  - rewrite Hn. eexists _, _. repeat split; reflexivity.
  - rewrite Hn. eexists _, _. repeat split; reflexivity.
  - rewrite Hn. eexists _, _. repeat split; reflexivity.
  - rewrite Hn. eexists _, _. repeat split; reflexivity.
Qed.

(** [int(str(z)) = z], in context. *)
Lemma match_number_int (z : Z) (rest : string) :
  terminated rest = true ->
  match_number (str_of_Z z +:+ rest) = Some (JInt z, rest).
Proof.
  intros Hr.
  assert (H : exists neg n, str_of_Z z = sign_text neg +:+ str_uint (N.to_uint n)
            /\ z = if neg then Z.opp (Z.of_N n) else Z.of_N n).
  { destruct z as [|p|p].
    - exists false, 0%N. split; reflexivity.
    - exists false, (Npos p). split; reflexivity.
    - exists true, (Npos p). split; reflexivity. }
  destruct H as (neg & n & -> & ->).
  pose proof (match_number_print neg (N.to_uint n) "" "" rest
                (int_shape_to_uint n) (or_introl eq_refl) (or_introl eq_refl) Hr) as H.
  rewrite !sapp_nil_l in H. rewrite sapp_assoc, H.
  unfold number_value. rewrite DecimalN.Unsigned.of_to. reflexivity.
Qed.

Lemma match_number_float (lit rest : string) :
  float_shape lit -> terminated rest = true ->
  match_number (lit +:+ rest) = Some (JFloat lit, rest).
Proof.
  intros (neg & d & frac & ex & Hd & Hf & He & Hne & ->) Hr.
  pose proof (match_number_print neg d frac ex rest Hd Hf He Hr) as H.
  rewrite !sapp_assoc. rewrite H. unfold number_value.
  destruct frac, ex; try reflexivity. destruct Hne; contradiction.
Qed.

Lemma match_number_float_inv (s lit r : string) :
  match_number s = Some (JFloat lit, r) -> float_shape lit.
Proof.
  intros H. apply match_number_inv in H as (neg & d & frac & ex & Hd & Hf & He & _ & Hv).
  exists neg, d, frac, ex. unfold number_value in Hv.
  destruct frac, ex; try discriminate; injection Hv as ->;
    repeat split; auto; (left; discriminate) || (right; discriminate).
Qed.

Lemma strip_prefix_inv (p s r : string) : strip_prefix p s = Some r -> s = p +:+ r.
Proof.
  revert s. induction p as [|a p IH]; intros s; simpl.
  - intros [= ->]. reflexivity.
  - destruct s as [|b s]; [discriminate|].
    destruct (Ascii.eqb_spec a b) as [->|]; [|discriminate].
    intros H. rewrite sapp_cons, (IH _ H). reflexivity.
Qed.

Lemma strip_prefix_print (p r : string) : strip_prefix p (p +:+ r) = Some r.
Proof.
  induction p as [|a p IH]; [reflexivity|].
  rewrite sapp_cons. simpl. rewrite Ascii.eqb_refl. exact IH.
Qed.

Lemma scan_number_float_inv (s lit r : string) :
  scan_number s = Some (JFloat lit, r) -> float_shape lit \/ special_float lit.
Proof.
  unfold scan_number. destruct (match_number s) as [[v r0]|] eqn:E.
  - intros [= -> ->]. left. eapply match_number_float_inv, E.
  - destruct (strip_prefix "NaN" s); [intros [= <- _]; right; left; reflexivity|].
    destruct (strip_prefix "Infinity" s);
      [intros [= <- _]; right; right; left; reflexivity|].
    destruct (strip_prefix "-Infinity" s); [|discriminate].
    intros [= <- _]. right; right; right; reflexivity.
Qed.

Lemma scan_number_float_print (lit rest : string) :
  float_shape lit \/ special_float lit -> terminated rest = true ->
  scan_number (lit +:+ rest) = Some (JFloat lit, rest).
Proof.
  intros [H|[-> | [-> | ->]]] Hr.
  - unfold scan_number. rewrite (match_number_float lit rest H Hr). reflexivity.
  - reflexivity.
  - reflexivity.
  - reflexivity.
Qed.

Lemma float_literal_iff (lit : string) :
  float_literal lit = true <-> float_shape lit \/ special_float lit.
Proof.
  unfold float_literal. split.
  - destruct (scan_number lit) as [[[] r]|] eqn:E; try discriminate.
    destruct r; [|discriminate]. intros H. apply String.eqb_eq in H as ->.
    eapply scan_number_float_inv, E.
  - intros H. pose proof (scan_number_float_print lit "" H eq_refl) as E.
    rewrite sapp_nil_r in E. rewrite E. apply String.eqb_refl.
Qed.

Lemma scan_number_int (z : Z) (rest : string) :
  terminated rest = true -> scan_number (str_of_Z z +:+ rest) = Some (JInt z, rest).
Proof. intros H. unfold scan_number. rewrite (match_number_int z rest H). reflexivity. Qed.

(** A number takes at least one character. *)
Lemma scan_number_length (s : string) (v : json) (r : string) :
  scan_number s = Some (v, r) -> String.length r < String.length s.
Proof.
  unfold scan_number. destruct (match_number s) as [[v0 r0]|] eqn:E.
  - intros [= <- <-].
    apply match_number_inv in E as (neg & d & frac & ex & Hd & _ & _ & -> & _).
    destruct (int_shape_head d "" Hd) as (c & u & Hs & _).
    rewrite !slength_app. apply (f_equal String.length) in Hs.
    rewrite sapp_nil_r in Hs. simpl in Hs. lia.
  - destruct (strip_prefix "NaN" s) eqn:E1;
      [intros [= _ <-]; apply strip_prefix_inv in E1 as ->; rewrite slength_app; simpl; lia|].
    destruct (strip_prefix "Infinity" s) eqn:E2;
      [intros [= _ <-]; apply strip_prefix_inv in E2 as ->; rewrite slength_app; simpl; lia|].
    destruct (strip_prefix "-Infinity" s) eqn:E3; [|discriminate].
    intros [= _ <-]. apply strip_prefix_inv in E3 as ->. rewrite slength_app; simpl; lia.
Qed.

(** ** String literals *)

Lemma code_inv (c : ascii) : ascii_of_N (code c) = c.
Proof. apply ascii_N_embedding. Qed.

Lemma scan_control (c : ascii) (rest : string) :
  (code c <? 32)%N = true ->
  py_scanstring (String backslash (String "u" (hex4 (code c) +:+ rest)))
  = prepend (String c EmptyString) (py_scanstring rest).
Proof.
  destruct c as [b0 b1 b2 b3 b4 b5 b6 b7].
  destruct b0, b1, b2, b3, b4, b5, b6, b7; intros H;
    try (vm_compute in H; discriminate H); reflexivity.
Qed.

Lemma py_scanstring_cons (c : ascii) (s : string) :
  Ascii.eqb c dquote = false -> Ascii.eqb c backslash = false ->
  (code c <? 32)%N = false ->
  py_scanstring (String c s) = prepend (String c EmptyString) (py_scanstring s).
Proof. intros H1 H2 H3. simpl. rewrite H1, H2, H3. reflexivity. Qed.

(** Reading back an escaped string. *)
Lemma py_scanstring_escape (s rest : string) :
  py_scanstring (escape s +:+ String dquote rest) = Some (s, rest).
Proof.
  induction s as [|c s IH]; [reflexivity|].
  cbn [escape]. rewrite sapp_assoc. unfold escape_char.
  destruct (Ascii.eqb_spec c dquote) as [->|H1].
  { rewrite !sapp_cons, sapp_nil_l. cbn. rewrite IH. reflexivity. }
  destruct (Ascii.eqb_spec c backslash) as [->|H2].
  { rewrite !sapp_cons, sapp_nil_l. cbn. rewrite IH. reflexivity. }
  destruct (Ascii.eqb_spec c ch_nl) as [->|H3].
  { rewrite !sapp_cons, sapp_nil_l. cbn. rewrite IH. reflexivity. }
  destruct (Ascii.eqb_spec c ch_cr) as [->|H4].
  { rewrite !sapp_cons, sapp_nil_l. cbn. rewrite IH. reflexivity. }
  destruct (Ascii.eqb_spec c ch_tab) as [->|H5].
  { rewrite !sapp_cons, sapp_nil_l. cbn. rewrite IH. reflexivity. }
  destruct (Ascii.eqb_spec c ch_bs) as [->|H6].
  { rewrite !sapp_cons, sapp_nil_l. cbn. rewrite IH. reflexivity. }
  destruct (Ascii.eqb_spec c ch_ff) as [->|H7].
  { rewrite !sapp_cons, sapp_nil_l. cbn. rewrite IH. reflexivity. }
  destruct (code c <? 32)%N eqn:H8.
  - do 2 rewrite sapp_cons. rewrite (scan_control c _ H8), IH. reflexivity.
  - rewrite sapp_cons, sapp_nil_l, py_scanstring_cons, IH; auto;
      apply Ascii.eqb_neq; assumption.
Qed.

Lemma prepend_inv (p : string) (x : option (string * string)) (s r : string) :
  prepend p x = Some (s, r) -> exists s', x = Some (s', r) /\ s = p +:+ s'.
Proof. destruct x as [[s' r']|]; [|discriminate]. intros [= <- <-]. eauto. Qed.

(** The scanner consumes the closing quote at least. *)
Lemma py_scanstring_length (s str r : string) :
  py_scanstring s = Some (str, r) -> String.length r < String.length s.
Proof.
  remember (String.length s) as n eqn:Hn. revert s str r Hn.
  induction n as [n IH] using lt_wf_ind. intros s str r -> H.
  assert (Hrec : forall p t str r, String.length t < String.length s ->
            prepend p (py_scanstring t) = Some (str, r) ->
            String.length r < String.length s).
  { intros p t str' r' Ht Hp. apply prepend_inv in Hp as (s' & Hp & _).
    specialize (IH _ Ht t s' r' eq_refl Hp). lia. }
  destruct s as [|c s]; [discriminate|]. cbn [py_scanstring] in H.
  destruct (Ascii.eqb c dquote); [injection H as _ <-; simpl; lia|].
  destruct (Ascii.eqb c backslash).
  - destruct s as [|e s]; [discriminate|].
    destruct (Ascii.eqb e "u").
    + destruct s as [|h1 [|h2 [|h3 [|h4 t]]]]; try discriminate.
      destruct (hex4_val h1 h2 h3 h4) as [uni|]; [|discriminate].
      destruct (is_high uni).
      * destruct t as [|b [|u r2]];
          try (eapply Hrec; [|exact H]; simpl; lia).
        destruct (Ascii.eqb b backslash && Ascii.eqb u "u");
          [|eapply Hrec; [|exact H]; simpl; lia].
        destruct r2 as [|k1 [|k2 [|k3 [|k4 r3]]]]; try discriminate.
        destruct (hex4_val k1 k2 k3 k4) as [uni2|]; [|discriminate].
        destruct (is_low uni2); (eapply Hrec; [|exact H]; simpl; lia).
      * eapply Hrec; [|exact H]; simpl; lia.
    + destruct (unescape e); [|discriminate]. eapply Hrec; [|exact H]; simpl; lia.
  - destruct (code c <? 32)%N; [discriminate|]. eapply Hrec; [|exact H]; simpl; lia.
Qed.

(** ** The scanner *)

Lemma json_ind' (P : json -> Prop) :
  P JNull -> (forall b, P (JBool b)) -> (forall z, P (JInt z)) ->
  (forall lit, P (JFloat lit)) -> (forall s, P (JStr s)) ->
  (forall l, Forall P l -> P (JArr l)) ->
  (forall m, Forall (fun kv => P (snd kv)) m -> P (JObj m)) ->
  forall v, P v.
Proof.
  intros Hnull Hbool Hint Hfloat Hstr Harr Hobj.
  fix IH 1. intros [ | b | z | lit | s | l | m].
  - exact Hnull.
  - apply Hbool.
  - apply Hint.
  - apply Hfloat.
  - apply Hstr.
  - apply Harr. induction l as [|x l IHl]; constructor; [apply IH | exact IHl].
  - apply Hobj. induction m as [|[k x] m IHm]; constructor; [apply IH | exact IHm].
Qed.

Lemma scan_once_S (f : nat) (c : ascii) (s' : string) :
  scan_once (S f) (String c s') =
  if Ascii.eqb c dquote then
    match py_scanstring s' with
    | Some (str, r) => POk (JStr str) r
    | None => PErr
    end
  else if Ascii.eqb c "{" then
    match skip_ws s' with
    | String c1 r1 =>
        if Ascii.eqb c1 "}" then POk (JObj []) r1
        else if Ascii.eqb c1 dquote then JSONObject f r1 []
        else PErr
    | EmptyString => PErr
    end
  else if Ascii.eqb c "[" then
    match skip_ws s' with
    | String c1 r1 =>
        if Ascii.eqb c1 "]" then POk (JArr []) r1
        else JSONArray f (String c1 r1) []
    | EmptyString => PErr
    end
  else
    match strip_prefix "null" (String c s') with
    | Some r => POk JNull r
    | None =>
        match strip_prefix "true" (String c s') with
        | Some r => POk (JBool true) r
        | None =>
            match strip_prefix "false" (String c s') with
            | Some r => POk (JBool false) r
            | None =>
                match scan_number (String c s') with
                | Some (v, r) => POk v r
                | None => PErr
                end
            end
        end
    end.
Proof. reflexivity. Qed.

Lemma JSONArray_S (f : nat) (s : string) (values : list json) :
  JSONArray (S f) s values =
  match scan_once f s with
  | POk v r =>
      match skip_ws r with
      | String c r' =>
          if Ascii.eqb c "]" then POk (JArr (values ++ [v])) r'
          else if Ascii.eqb c "," then JSONArray f (skip_ws r') (values ++ [v])
          else PErr
      | EmptyString => PErr
      end
  | PErr => PErr
  | PFuel => PFuel
  end.
Proof. reflexivity. Qed.

Lemma JSONObject_S (f : nat) (s : string) (pairs : list (string * json)) :
  JSONObject (S f) s pairs =
  match py_scanstring s with
  | None => PErr
  | Some (key, r) =>
      match skip_ws r with
      | String c r1 =>
          if Ascii.eqb c ":" then
            match scan_once f (skip_ws r1) with
            | POk v r2 =>
                match skip_ws r2 with
                | String c2 r3 =>
                    if Ascii.eqb c2 "}" then
                      POk (JObj (dict_of_pairs (pairs ++ [(key, v)]))) r3
                    else if Ascii.eqb c2 "," then
                      match skip_ws r3 with
                      | String c3 r4 =>
                          if Ascii.eqb c3 dquote
                          then JSONObject f r4 (pairs ++ [(key, v)])
                          else PErr
                      | EmptyString => PErr
                      end
                    else PErr
                | EmptyString => PErr
                end
            | PErr => PErr
            | PFuel => PFuel
            end
          else PErr
      | EmptyString => PErr
      end
  end.
Proof. reflexivity. Qed.

Lemma scan_once_0 (s : string) : scan_once 0 s = PFuel.
Proof. reflexivity. Qed.

Lemma scan_once_empty (f : nat) : scan_once (S f) EmptyString = PErr.
Proof. reflexivity. Qed.

Lemma JSONArray_0 (s : string) (values : list json) : JSONArray 0 s values = PFuel.
Proof. reflexivity. Qed.

Lemma JSONObject_0 (s : string) (pairs : list (string * json)) :
  JSONObject 0 s pairs = PFuel.
Proof. reflexivity. Qed.

#[global] Opaque scan_once JSONArray JSONObject.

Lemma skip_ws_head (c : ascii) (s : string) :
  is_ws c = false -> skip_ws (String c s) = String c s.
Proof. intros H. simpl. rewrite H. reflexivity. Qed.

Lemma skip_ws_spaces (n : nat) (s : string) : skip_ws (spaces n +:+ s) = skip_ws s.
Proof. induction n as [|n IH]; [reflexivity|]. exact IH. Qed.

Lemma skip_ws_newline_indent (lvl : nat) (s : string) :
  skip_ws (newline_indent lvl +:+ s) = skip_ws s.
Proof. unfold newline_indent. rewrite sapp_cons. simpl. apply skip_ws_spaces. Qed.

Lemma skip_ws_length (s : string) : String.length (skip_ws s) <= String.length s.
Proof. induction s as [|c s IH]; simpl; [lia|]. destruct (is_ws c); simpl; lia. Qed.

Lemma terminated_newline_indent (lvl : nat) (s : string) :
  terminated (newline_indent lvl +:+ s) = true.
Proof. reflexivity. Qed.

Lemma number_head_plain (c : ascii) : number_head c = true -> plain_head c.
Proof.
  unfold number_head. intros H.
  assert (Hc : (c = "0" \/ c = "1" \/ c = "2" \/ c = "3" \/ c = "4" \/ c = "5"
                \/ c = "6" \/ c = "7" \/ c = "8" \/ c = "9" \/ c = "-" \/ c = "N"
                \/ c = "I")%char).
  { destruct (is_digit c) eqn:Hd.
    - unfold is_digit in Hd.
      destruct (uint_of_char c (Some Nil)) as [x|] eqn:E; [|discriminate].
      apply uint_of_char_spec in E. intuition.
    - simpl in H. apply orb_true_iff in H as [H|H];
        [apply orb_true_iff in H as [H|H]|]; apply Ascii.eqb_eq in H; intuition. }
  repeat (destruct Hc as [-> | Hc]; [repeat split; reflexivity|]).
  subst c. repeat split; reflexivity.
Qed.

Lemma scan_once_number (f : nat) (c : ascii) (s : string) :
  number_head c = true ->
  scan_once (S f) (String c s) =
  match scan_number (String c s) with
  | Some (v, r) => POk v r
  | None => PErr
  end.
Proof.
  intros H. apply number_head_plain in H as (_ & _ & H1 & H2 & H3 & H4 & H5 & H6).
  rewrite scan_once_S, H1, H2, H3. cbn [strip_prefix]. rewrite H4, H5, H6. reflexivity.
Qed.

Lemma str_of_Z_head (z : Z) (t : string) :
  exists c u, str_of_Z z +:+ t = String c u /\ number_head c = true.
Proof.
  destruct z as [|p|p].
  - eexists _, _. split; reflexivity.
  - destruct (int_shape_head _ t (int_shape_to_uint (Npos p))) as (c & u & Hs & Hd).
    exists c, u. split; [exact Hs|]. unfold number_head. rewrite Hd. reflexivity.
  - eexists _, _. split; reflexivity.
Qed.

Lemma float_head (lit t : string) :
  float_shape lit \/ special_float lit ->
  exists c u, lit +:+ t = String c u /\ number_head c = true.
Proof.
  intros [(neg & d & frac & ex & Hd & _ & _ & _ & ->)|[-> | [-> | ->]]];
    try (eexists _, _; split; reflexivity).
  destruct neg; [eexists _, _; split; reflexivity|].
  unfold sign_text. rewrite sapp_nil_l, sapp_assoc.
  destruct (int_shape_head d ((frac +:+ ex) +:+ t) Hd) as (c & u & Hs & Hc).
  exists c, u. split; [exact Hs|]. unfold number_head. rewrite Hc. reflexivity.
Qed.

(** The first character of an encoded value: not white space, not a closing
    bracket. *)
Lemma iterencode_head (lvl : nat) (v : json) (t : string) :
  json_ok v = true ->
  exists c u, iterencode lvl v +:+ t = String c u
              /\ is_ws c = false /\ Ascii.eqb c "]" = false.
Proof.
  destruct v as [ | [] | z | lit | s | [|x l] | [|kv m]]; intros Hok;
    try (eexists _, _; repeat split; reflexivity).
  - destruct (str_of_Z_head z t) as (c & u & Hs & Hc).
    apply number_head_plain in Hc as (H1 & H2 & _). exists c, u. auto.
  - simpl in Hok. apply float_literal_iff in Hok.
    destruct (float_head lit t Hok) as (c & u & Hs & Hc).
    apply number_head_plain in Hc as (H1 & H2 & _). exists c, u. auto.
Qed.

(** ** Dicts *)

Lemma dict_set_fresh (k : string) (v : json) (m : list (string * json)) :
  dict_mem k m = false -> dict_set k v m = m ++ [(k, v)].
Proof.
  unfold dict_mem. induction m as [|[k' v'] m IH]; simpl; [reflexivity|].
  destruct (String.eqb k k'); [discriminate|]. intros H. rewrite IH; auto.
Qed.

Lemma dict_mem_app (k : string) (a b : list (string * json)) :
  dict_mem k (a ++ b) = dict_mem k a || dict_mem k b.
Proof.
  unfold dict_mem. induction a as [|[k' v'] a IH]; simpl; [reflexivity|].
  destruct (String.eqb k k'); [reflexivity|]. exact IH.
Qed.

Lemma dict_mem_existsb (k : string) (m : list (string * json)) :
  dict_mem k m = existsb (String.eqb k) (map fst m).
Proof.
  unfold dict_mem. induction m as [|[k' v'] m IH]; simpl; [reflexivity|].
  destruct (String.eqb k k'); [reflexivity|]. exact IH.
Qed.

Lemma existsb_eqb_sym (k : string) (ks : list string) :
  existsb (fun x => String.eqb x k) ks = existsb (String.eqb k) ks.
Proof.
  induction ks as [|x ks IH]; simpl; [reflexivity|].
  rewrite IH, String.eqb_sym. reflexivity.
Qed.

Lemma dict_of_pairs_from (m acc : list (string * json)) :
  nodup_keys (map fst m) = true ->
  (forall k, dict_mem k acc = true -> dict_mem k m = false) ->
  fold_left (fun d kv => dict_set (fst kv) (snd kv) d) m acc = acc ++ m.
Proof.
  revert acc. induction m as [|[k v] m IH]; intros acc Hnd Hdis; simpl.
  - rewrite app_nil_r. reflexivity.
  - simpl in Hnd. apply andb_true_iff in Hnd as (Hk & Hnd).
    apply negb_true_iff in Hk.
    assert (Hacc : dict_mem k acc = false).
    { destruct (dict_mem k acc) eqn:E; [|reflexivity].
      specialize (Hdis k E). unfold dict_mem in Hdis. simpl in Hdis.
      rewrite String.eqb_refl in Hdis. discriminate. }
    rewrite dict_set_fresh by exact Hacc.
    rewrite IH; [rewrite <- app_assoc; reflexivity | exact Hnd |].
    intros k' Hk'. rewrite dict_mem_app in Hk'. apply orb_true_iff in Hk' as [Hk'|Hk'].
    + specialize (Hdis k' Hk'). unfold dict_mem in *. simpl in Hdis.
      destruct (String.eqb k' k); [discriminate|exact Hdis].
    + unfold dict_mem in Hk'. simpl in Hk'.
      destruct (String.eqb_spec k' k) as [Heq|]; [|discriminate].
      subst k'. rewrite dict_mem_existsb. exact Hk.
Qed.

Lemma dict_of_pairs_nodup (m : list (string * json)) :
  nodup_keys (map fst m) = true -> dict_of_pairs m = m.
Proof.
  intros H. unfold dict_of_pairs.
  rewrite dict_of_pairs_from; [reflexivity | exact H | intros k Hk; discriminate].
Qed.

(** ** Reading back what the encoder writes *)

Lemma iterencode_arr (lvl : nat) (x : json) (l : list json) :
  iterencode lvl (JArr (x :: l)) =
  "[" +:+ newline_indent (S lvl)
  +:+ String.concat (item_separator (S lvl)) (map (iterencode (S lvl)) (x :: l))
  +:+ newline_indent lvl +:+ "]".
Proof. reflexivity. Qed.

Lemma iterencode_obj (lvl : nat) (kv : string * json) (m : list (string * json)) :
  iterencode lvl (JObj (kv :: m)) =
  "{" +:+ newline_indent (S lvl)
  +:+ String.concat (item_separator (S lvl)) (map (member_text (S lvl)) (kv :: m))
  +:+ newline_indent lvl +:+ "}".
Proof. reflexivity. Qed.

Lemma need_list_cons (x : json) (l : list json) :
  need_list (x :: l) = S (need x + need_list l).
Proof. reflexivity. Qed.

Lemma need_members_cons (k : string) (x : json) (m : list (string * json)) :
  need_members ((k, x) :: m) = S (need x + need_members m).
Proof. reflexivity. Qed.

Lemma concat_cons2 (sep a b : string) (l : list string) :
  String.concat sep (a :: b :: l) = a +:+ sep +:+ String.concat sep (b :: l).
Proof. reflexivity. Qed.

Lemma array_reads_back (lvl : nat) (l : list json) :
  l <> [] ->
  Forall (fun x => json_ok x = true /\ reads_back x) l ->
  forall values f rest,
    need_list l <= f ->
    JSONArray f
      (String.concat (item_separator (S lvl)) (map (iterencode (S lvl)) l)
       +:+ newline_indent lvl +:+ String "]" rest) values
    = POk (JArr (values ++ l)) rest.
Proof.
  induction l as [|x l IH]; [contradiction|]. intros _ Hall values f rest Hf.
  apply Forall_cons_iff in Hall as ((Hok & Hx) & Hall).
  rewrite need_list_cons in Hf. destruct f as [|f]; [lia|].
  rewrite JSONArray_S. destruct l as [|y l].
  - cbn [map String.concat].
    rewrite (Hx (S lvl) _ f (terminated_newline_indent lvl _)) by lia.
    rewrite skip_ws_newline_indent. rewrite skip_ws_head by reflexivity.
    reflexivity.
  - cbn [map]. rewrite concat_cons2, !sapp_assoc. unfold item_separator at 1.
    rewrite (Hx (S lvl) _ f) by (reflexivity || lia).
    rewrite sapp_cons, skip_ws_head by reflexivity.
    cbn [Ascii.eqb Bool.eqb andb]. rewrite skip_ws_newline_indent.
    specialize (IH ltac:(discriminate) Hall (values ++ [x]) f rest ltac:(lia)).
    cbn [map] in IH.
    assert (Hy : json_ok y = true) by (apply Forall_cons_iff in Hall as ((H & _) & _); exact H).
    assert (Hsk : forall t, skip_ws (String.concat (item_separator (S lvl))
                    (iterencode (S lvl) y :: map (iterencode (S lvl)) l) +:+ t)
                  = String.concat (item_separator (S lvl))
                    (iterencode (S lvl) y :: map (iterencode (S lvl)) l) +:+ t).
    { intros t. destruct (map (iterencode (S lvl)) l) as [|e es].
      - cbn [String.concat].
        destruct (iterencode_head (S lvl) y t Hy) as (c & u & -> & Hc & _).
        apply skip_ws_head, Hc.
      - rewrite concat_cons2, !sapp_assoc.
        destruct (iterencode_head (S lvl) y
                    (item_separator (S lvl) +:+ String.concat (item_separator (S lvl)) (e :: es) +:+ t) Hy)
          as (c & u & -> & Hc & _).
        apply skip_ws_head, Hc. }
    rewrite Hsk, IH, <- app_assoc. reflexivity.
Qed.

Lemma member_text_eq (lvl : nat) (k : string) (x : json) (t : string) :
  member_text lvl (k, x) +:+ t =
  String dquote (escape k +:+ String dquote
                   (String ":" (String " " (iterencode lvl x +:+ t)))).
Proof.
  unfold member_text, py_encode_basestring.
  rewrite !sapp_cons, !sapp_assoc, !sapp_cons, !sapp_nil_l. reflexivity.
Qed.

Lemma members_head (lvl : nat) (m : list (string * json)) (t : string) :
  m <> [] ->
  exists body,
    String.concat (item_separator lvl) (map (member_text lvl) m) +:+ t
    = String dquote body.
Proof.
  destruct m as [|[k x] [|kv m]]; [contradiction| |]; intros _.
  - cbn [map String.concat]. rewrite member_text_eq. eauto.
  - cbn [map]. rewrite concat_cons2, !sapp_assoc, member_text_eq. eauto.
Qed.

Lemma elements_head (lvl : nat) (y : json) (l : list json) (t : string) :
  json_ok y = true ->
  exists c u,
    String.concat (item_separator lvl) (map (iterencode lvl) (y :: l)) +:+ t
    = String c u /\ is_ws c = false /\ Ascii.eqb c "]" = false.
Proof.
  intros Hy. destruct l as [|e es].
  - cbn [map String.concat]. apply iterencode_head, Hy.
  - cbn [map]. rewrite concat_cons2, !sapp_assoc. apply iterencode_head, Hy.
Qed.

Lemma object_reads_back (lvl : nat) (m : list (string * json)) :
  m <> [] ->
  Forall (fun kv => json_ok (snd kv) = true /\ reads_back (snd kv)) m ->
  forall pairs f rest,
    need_members m <= f ->
    JSONObject f
      (tail_of (String.concat (item_separator (S lvl)) (map (member_text (S lvl)) m)
                +:+ newline_indent lvl +:+ String "}" rest)) pairs
    = POk (JObj (dict_of_pairs (pairs ++ m))) rest.
Proof.
  induction m as [|[k x] m IH]; [contradiction|]. intros _ Hall pairs f rest Hf.
  apply Forall_cons_iff in Hall as ((Hok & Hx) & Hall). simpl in Hok, Hx.
  rewrite need_members_cons in Hf. destruct f as [|f]; [lia|].
  rewrite JSONObject_S. destruct m as [|kv m].
  - cbn [map String.concat]. rewrite member_text_eq. cbn [tail_of].
    rewrite py_scanstring_escape.
    rewrite skip_ws_head by reflexivity. cbn [Ascii.eqb Bool.eqb andb].
    change (skip_ws (String " " ?t)) with (skip_ws t).
    destruct (iterencode_head (S lvl) x (newline_indent lvl +:+ String "}" rest) Hok)
      as (c & u & Hs & Hc & _).
    rewrite Hs, (skip_ws_head c u Hc), <- Hs.
    rewrite (Hx (S lvl) _ f (terminated_newline_indent lvl _)) by lia.
    rewrite skip_ws_newline_indent, skip_ws_head by reflexivity. reflexivity.
  - specialize (IH ltac:(discriminate) Hall (pairs ++ [(k, x)]) f rest ltac:(lia)).
    destruct (members_head (S lvl) (kv :: m) (newline_indent lvl +:+ String "}" rest)
                ltac:(discriminate)) as (body' & Hb').
    rewrite Hb' in IH. cbn [tail_of] in IH.
    change (map (member_text (S lvl)) ((k, x) :: kv :: m))
      with (member_text (S lvl) (k, x) :: map (member_text (S lvl)) (kv :: m)).
    remember (map (member_text (S lvl)) (kv :: m)) as texts eqn:Ht.
    assert (Hne : exists e es, texts = e :: es) by (subst texts; simpl; eauto).
    destruct Hne as (e & es & ->).
    rewrite concat_cons2, !sapp_assoc, member_text_eq. cbn [tail_of].
    rewrite py_scanstring_escape.
    rewrite skip_ws_head by reflexivity. cbn [Ascii.eqb Bool.eqb andb].
    change (skip_ws (String " " ?t)) with (skip_ws t).
    match goal with
    | |- context [iterencode (S lvl) x +:+ ?T0] => set (T := T0)
    end.
    destruct (iterencode_head (S lvl) x T Hok) as (c & u & Hs & Hc & _).
    rewrite Hs, (skip_ws_head c u Hc), <- Hs.
    rewrite (Hx (S lvl) T f) by (reflexivity || lia).
    subst T. unfold item_separator at 1. rewrite sapp_cons.
    rewrite skip_ws_head by reflexivity. cbn [Ascii.eqb Bool.eqb andb].
    rewrite skip_ws_newline_indent, Hb'. rewrite skip_ws_head by reflexivity.
    cbn [Ascii.eqb Bool.eqb andb dquote]. rewrite IH, <- app_assoc. reflexivity.
Qed.

Lemma forallb_Forall_true {A} (f : A -> bool) (l : list A) :
  forallb f l = true <-> Forall (fun x => f x = true) l.
Proof.
  induction l as [|x l IH]; simpl.
  - split; [constructor|reflexivity].
  - rewrite andb_true_iff, Forall_cons_iff, IH. reflexivity.
Qed.

Lemma json_ok_arr (l : list json) :
  json_ok (JArr l) = true <-> Forall (fun x => json_ok x = true) l.
Proof. apply forallb_Forall_true. Qed.

Lemma json_ok_obj (m : list (string * json)) :
  json_ok (JObj m) = true <->
  nodup_keys (map fst m) = true /\ Forall (fun kv => json_ok (snd kv) = true) m.
Proof.
  cbn [json_ok]. rewrite andb_true_iff, forallb_Forall_true.
  assert (H : Forall (fun kv : string * json => (let '(_, x) := kv in json_ok x) = true) m
              <-> Forall (fun kv => json_ok (snd kv) = true) m).
  { split; intros HF; (eapply Forall_impl; [exact HF|]); intros [k x]; auto. }
  rewrite H. reflexivity.
Qed.

(** Every well-formed value is read back from its encoding, whatever the
    indentation level and what follows. *)
Lemma iterencode_reads_back (v : json) : json_ok v = true -> reads_back v.
Proof.
  induction v as [ | b | z | lit | s | l IH | m IH] using json_ind';
    intros Hok lvl rest f Hr Hf;
    (destruct f as [|f]; [destruct l || destruct m || idtac; simpl in Hf; lia|]).
  - cbn [iterencode]. rewrite ?sapp_cons, ?sapp_nil_l, scan_once_S. reflexivity.
  - destruct b; cbn [iterencode]; rewrite ?sapp_cons, ?sapp_nil_l, scan_once_S;
      reflexivity.
  - cbn [iterencode]. destruct (str_of_Z_head z rest) as (c & u & Hs & Hc).
    rewrite Hs, (scan_once_number f c u Hc), <- Hs, (scan_number_int z rest Hr).
    reflexivity.
  - cbn [iterencode]. simpl in Hok. apply float_literal_iff in Hok.
    destruct (float_head lit rest Hok) as (c & u & Hs & Hc).
    rewrite Hs, (scan_once_number f c u Hc), <- Hs,
      (scan_number_float_print lit rest Hok Hr).
    reflexivity.
  - cbn [iterencode]. unfold py_encode_basestring.
    rewrite sapp_cons, sapp_assoc, sapp_cons, sapp_nil_l, scan_once_S.
    cbn [Ascii.eqb Bool.eqb andb dquote]. rewrite py_scanstring_escape. reflexivity.
  - destruct l as [|x l];
      [cbn [iterencode]; rewrite ?sapp_cons, ?sapp_nil_l, scan_once_S; reflexivity|].
    pose proof (proj1 (json_ok_arr _) Hok) as Hoks.
    assert (Hall : Forall (fun x => json_ok x = true /\ reads_back x) (x :: l)).
    { apply Forall_forall. intros y Hy. rewrite Forall_forall in IH, Hoks. auto. }
    rewrite iterencode_arr, !sapp_assoc, sapp_cons, sapp_nil_l, scan_once_S.
    cbn [Ascii.eqb Bool.eqb andb dquote]. rewrite skip_ws_newline_indent.
    destruct (elements_head (S lvl) x l (newline_indent lvl +:+ "]" +:+ rest))
      as (c & u & Hs & Hc & Hb);
      [apply Forall_cons_iff in Hoks as (H & _); exact H|].
    rewrite Hs, (skip_ws_head c u Hc), Hb, <- Hs.
    change (need (JArr (x :: l))) with (S (need_list (x :: l))) in Hf.
    apply (array_reads_back lvl (x :: l) ltac:(discriminate) Hall [] f rest). lia.
  - destruct m as [|kv m];
      [cbn [iterencode]; rewrite ?sapp_cons, ?sapp_nil_l, scan_once_S; reflexivity|].
    destruct (proj1 (json_ok_obj _) Hok) as (Hnd & Hoks).
    assert (Hall : Forall (fun kv => json_ok (snd kv) = true /\ reads_back (snd kv))
                     (kv :: m)).
    { apply Forall_forall. intros y Hy. rewrite Forall_forall in IH, Hoks. auto. }
    rewrite iterencode_obj, !sapp_assoc, sapp_cons, sapp_nil_l, scan_once_S.
    cbn [Ascii.eqb Bool.eqb andb dquote]. rewrite skip_ws_newline_indent.
    destruct (members_head (S lvl) (kv :: m) (newline_indent lvl +:+ String "}" rest)
                ltac:(discriminate)) as (body & Hb).
    change ("}" +:+ rest) with (String "}" rest).
    rewrite Hb, skip_ws_head by reflexivity. cbn [Ascii.eqb Bool.eqb andb dquote].
    change (need (JObj (kv :: m))) with (S (need_members (kv :: m))) in Hf.
    pose proof (object_reads_back lvl (kv :: m) ltac:(discriminate) Hall [] f rest
                  ltac:(lia)) as Hrb.
    rewrite Hb in Hrb. cbn [tail_of] in Hrb.
    rewrite Hrb, app_nil_l, (dict_of_pairs_nodup _ Hnd). reflexivity.
Qed.

(** ** The recursion budget *)

(** More budget does not change a result. *)
Lemma budget_step (f : nat) :
  (forall s, scan_once f s <> PFuel -> scan_once (S f) s = scan_once f s)
  /\ (forall s values, JSONArray f s values <> PFuel ->
        JSONArray (S f) s values = JSONArray f s values)
  /\ (forall s pairs, JSONObject f s pairs <> PFuel ->
        JSONObject (S f) s pairs = JSONObject f s pairs).
Proof.
  induction f as [|f (IH1 & IH2 & IH3)].
  - repeat split; intros; exfalso;
      rewrite ?scan_once_0, ?JSONArray_0, ?JSONObject_0 in *; congruence.
  - repeat split.
    + intros [|c s']; [intros _; rewrite !scan_once_empty; reflexivity|].
      rewrite (scan_once_S (S f)), (scan_once_S f).
      destruct (Ascii.eqb c dquote); [reflexivity|].
      destruct (Ascii.eqb c "{").
      { destruct (skip_ws s') as [|c1 r1]; [reflexivity|].
        destruct (Ascii.eqb c1 "}"); [reflexivity|].
        destruct (Ascii.eqb c1 dquote); [|reflexivity]. apply IH3. }
      destruct (Ascii.eqb c "[").
      { destruct (skip_ws s') as [|c1 r1]; [reflexivity|].
        destruct (Ascii.eqb c1 "]"); [reflexivity|]. apply IH2. }
      reflexivity.
    + intros s values. rewrite (JSONArray_S (S f)), (JSONArray_S f).
      destruct (scan_once f s) as [v r| |] eqn:E.
      * rewrite IH1, E by congruence.
        destruct (skip_ws r) as [|c r']; [reflexivity|].
        destruct (Ascii.eqb c "]"); [reflexivity|].
        destruct (Ascii.eqb c ","); [|reflexivity]. apply IH2.
      * rewrite IH1, E by congruence. reflexivity.
      * congruence.
    + intros s pairs. rewrite (JSONObject_S (S f)), (JSONObject_S f).
      destruct (py_scanstring s) as [[key r]|]; [|reflexivity].
      destruct (skip_ws r) as [|c r1]; [reflexivity|].
      destruct (Ascii.eqb c ":"); [|reflexivity].
      destruct (scan_once f (skip_ws r1)) as [v r2| |] eqn:E.
      * rewrite IH1, E by congruence.
        destruct (skip_ws r2) as [|c2 r3]; [reflexivity|].
        destruct (Ascii.eqb c2 "}"); [reflexivity|].
        destruct (Ascii.eqb c2 ","); [|reflexivity].
        destruct (skip_ws r3) as [|c3 r4]; [reflexivity|].
        destruct (Ascii.eqb c3 dquote); [|reflexivity]. apply IH3.
      * rewrite IH1, E by congruence. reflexivity.
      * congruence.
Qed.

Lemma budget_mono (f f' : nat) (s : string) :
  f <= f' -> scan_once f s <> PFuel -> scan_once f' s = scan_once f s.
Proof.
  induction 1 as [|f' Hle IH]; [reflexivity|]. intros H.
  rewrite <- (IH H). apply budget_step. rewrite (IH H). exact H.
Qed.

Lemma skip_ws_cons_length (s : string) (c : ascii) (r : string) :
  skip_ws s = String c r -> String.length r < String.length s.
Proof.
  intros H. pose proof (skip_ws_length s) as Hl. rewrite H in Hl. simpl in Hl. lia.
Qed.

(** Whatever is read takes at least one character. *)
Lemma scan_progress (f : nat) :
  (forall s v r, scan_once f s = POk v r -> String.length r < String.length s)
  /\ (forall s values v r, JSONArray f s values = POk v r ->
        String.length r < String.length s)
  /\ (forall s pairs v r, JSONObject f s pairs = POk v r ->
        String.length r < String.length s).
Proof.
  induction f as [|f (IH1 & IH2 & IH3)].
  - repeat split; intros *; rewrite ?scan_once_0, ?JSONArray_0, ?JSONObject_0;
      discriminate.
  - repeat split.
    + intros [|c s'] v r; [rewrite scan_once_empty; discriminate|].
      rewrite scan_once_S. cbn [String.length].
      destruct (Ascii.eqb c dquote).
      { destruct (py_scanstring s') as [[str r0]|] eqn:E; [|discriminate].
        intros [= _ <-]. apply py_scanstring_length in E. lia. }
      destruct (Ascii.eqb c "{").
      { destruct (skip_ws s') as [|c1 r1] eqn:E; [discriminate|].
        apply skip_ws_cons_length in E.
        destruct (Ascii.eqb c1 "}"); [intros [= _ <-]; lia|].
        destruct (Ascii.eqb c1 dquote); [|discriminate].
        intros H. apply IH3 in H. lia. }
      destruct (Ascii.eqb c "[").
      { destruct (skip_ws s') as [|c1 r1] eqn:E; [discriminate|].
        pose proof (skip_ws_length s') as Hl. rewrite E in Hl.
        destruct (Ascii.eqb c1 "]"); [intros [= _ <-]; simpl in Hl; lia|].
        intros H. apply IH2 in H. lia. }
      destruct (strip_prefix "null" (String c s')) eqn:E1.
      { intros [= _ <-]. apply strip_prefix_inv in E1.
        apply (f_equal String.length) in E1. rewrite slength_app in E1. simpl in E1. lia. }
      destruct (strip_prefix "true" (String c s')) eqn:E2.
      { intros [= _ <-]. apply strip_prefix_inv in E2.
        apply (f_equal String.length) in E2. rewrite slength_app in E2. simpl in E2. lia. }
      destruct (strip_prefix "false" (String c s')) eqn:E3.
      { intros [= _ <-]. apply strip_prefix_inv in E3.
        apply (f_equal String.length) in E3. rewrite slength_app in E3. simpl in E3. lia. }
      destruct (scan_number (String c s')) as [[v0 r0]|] eqn:E4; [|discriminate].
      intros [= _ <-]. apply scan_number_length in E4. simpl in E4. lia.
    + intros s values v r. rewrite JSONArray_S.
      destruct (scan_once f s) as [v0 r0| |] eqn:E; try discriminate.
      apply IH1 in E.
      destruct (skip_ws r0) as [|c r'] eqn:E2; [discriminate|].
      apply skip_ws_cons_length in E2.
      destruct (Ascii.eqb c "]"); [intros [= _ <-]; lia|].
      destruct (Ascii.eqb c ","); [|discriminate].
      intros Hrec. apply IH2 in Hrec. pose proof (skip_ws_length r'). lia.
    + intros s pairs v r. rewrite JSONObject_S.
      destruct (py_scanstring s) as [[key r0]|] eqn:E; [|discriminate].
      apply py_scanstring_length in E.
      destruct (skip_ws r0) as [|c r1] eqn:E1; [discriminate|].
      apply skip_ws_cons_length in E1.
      destruct (Ascii.eqb c ":"); [|discriminate].
      destruct (scan_once f (skip_ws r1)) as [v0 r2| |] eqn:E2; try discriminate.
      apply IH1 in E2. pose proof (skip_ws_length r1).
      destruct (skip_ws r2) as [|c2 r3] eqn:E3; [discriminate|].
      apply skip_ws_cons_length in E3.
      destruct (Ascii.eqb c2 "}"); [intros [= _ <-]; lia|].
      destruct (Ascii.eqb c2 ","); [|discriminate].
      destruct (skip_ws r3) as [|c3 r4] eqn:E4; [discriminate|].
      apply skip_ws_cons_length in E4.
      destruct (Ascii.eqb c3 dquote); [|discriminate].
      intros Hrec. apply IH3 in Hrec. lia.
Qed.

(** Two steps per character are enough: the budget is never used up. *)
Lemma budget_enough (f : nat) :
  (forall s, 2 * String.length s < f -> scan_once f s <> PFuel)
  /\ (forall s values, 2 * String.length s + 2 <= f -> JSONArray f s values <> PFuel)
  /\ (forall s pairs, 2 * String.length s + 2 <= f -> JSONObject f s pairs <> PFuel).
Proof.
  induction f as [|f (IH1 & IH2 & IH3)]; [repeat split; intros; lia|].
  destruct (scan_progress f) as (P1 & P2 & P3).
  repeat split.
  - intros [|c s'] Hf; [rewrite scan_once_empty; discriminate|].
    rewrite scan_once_S. cbn [String.length] in Hf.
    destruct (Ascii.eqb c dquote).
    { destruct (py_scanstring s') as [[str r0]|]; discriminate. }
    destruct (Ascii.eqb c "{").
    { destruct (skip_ws s') as [|c1 r1] eqn:E; [discriminate|].
      apply skip_ws_cons_length in E.
      destruct (Ascii.eqb c1 "}"); [discriminate|].
      destruct (Ascii.eqb c1 dquote); [|discriminate]. apply IH3. lia. }
    destruct (Ascii.eqb c "[").
    { destruct (skip_ws s') as [|c1 r1] eqn:E; [discriminate|].
      pose proof (skip_ws_length s') as Hl. rewrite E in Hl.
      destruct (Ascii.eqb c1 "]"); [discriminate|]. apply IH2. lia. }
    destruct (strip_prefix "null" (String c s')); [discriminate|].
    destruct (strip_prefix "true" (String c s')); [discriminate|].
    destruct (strip_prefix "false" (String c s')); [discriminate|].
    destruct (scan_number (String c s')) as [[v0 r0]|]; discriminate.
  - intros s values Hf. rewrite JSONArray_S.
    destruct (scan_once f s) as [v0 r0| |] eqn:E.
    + apply P1 in E.
      destruct (skip_ws r0) as [|c r'] eqn:E2; [discriminate|].
      apply skip_ws_cons_length in E2.
      destruct (Ascii.eqb c "]"); [discriminate|].
      destruct (Ascii.eqb c ","); [|discriminate].
      apply IH2. pose proof (skip_ws_length r'). lia.
    + discriminate.
    + exfalso. revert E. apply IH1. lia.
  - intros s pairs Hf. rewrite JSONObject_S.
    destruct (py_scanstring s) as [[key r0]|] eqn:E; [|discriminate].
    apply py_scanstring_length in E.
    destruct (skip_ws r0) as [|c r1] eqn:E1; [discriminate|].
    apply skip_ws_cons_length in E1.
    destruct (Ascii.eqb c ":"); [|discriminate].
    pose proof (skip_ws_length r1).
    destruct (scan_once f (skip_ws r1)) as [v0 r2| |] eqn:E2.
    + apply P1 in E2.
      destruct (skip_ws r2) as [|c2 r3] eqn:E3; [discriminate|].
      apply skip_ws_cons_length in E3.
      destruct (Ascii.eqb c2 "}"); [discriminate|].
      destruct (Ascii.eqb c2 ","); [|discriminate].
      destruct (skip_ws r3) as [|c3 r4] eqn:E4; [discriminate|].
      apply skip_ws_cons_length in E4.
      destruct (Ascii.eqb c3 dquote); [|discriminate]. apply IH3. lia.
    + discriminate.
    + exfalso. revert E2. apply IH1. lia.
Qed.

Lemma scan_once_budget (s : string) : scan_once (budget s) s <> PFuel.
Proof. apply budget_enough. unfold budget. lia. Qed.

(** *** [json.loads(json.dumps(v)) == v] *)
Lemma json_loads_dumps (v : json) :
  json_ok v = true -> json_loads (json_dumps v) = Some v.
Proof.
  intros Hok. unfold json_loads, json_dumps.
  destruct (iterencode_head 0 v "" Hok) as (c & u & Hs & Hc & _).
  rewrite sapp_nil_r in Hs. rewrite Hs, (skip_ws_head c u Hc), <- Hs.
  pose proof (iterencode_reads_back v Hok 0 "" (need v) eq_refl (le_n _)) as Hrb.
  rewrite sapp_nil_r in Hrb.
  assert (E : scan_once (budget (iterencode 0 v)) (iterencode 0 v) = POk v "").
  { pose proof (scan_once_budget (iterencode 0 v)) as Hb.
    destruct (Nat.le_ge_cases (need v) (budget (iterencode 0 v))) as [Hle|Hle].
    - rewrite (budget_mono _ _ _ Hle); rewrite Hrb; [reflexivity|discriminate].
    - rewrite <- (budget_mono _ _ _ Hle Hb). exact Hrb. }
  rewrite E. reflexivity.
Qed.

(** ** What the decoder returns is well formed *)

Lemma nodup_keys_iff (ks : list string) : nodup_keys ks = true <-> NoDup ks.
Proof.
  induction ks as [|k ks IH]; simpl.
  - split; [constructor|reflexivity].
  - rewrite andb_true_iff, negb_true_iff, NoDup_cons, IH.
    assert (H : existsb (String.eqb k) ks = false <-> k ∉ ks).
    { rewrite <- not_true_iff_false, existsb_exists. split.
      - intros Hn Hin. apply Hn. exists k. split; [apply list_elem_of_In, Hin|apply String.eqb_refl].
      - intros Hn (x & Hx & Heq). apply String.eqb_eq in Heq as <-.
        apply Hn, list_elem_of_In, Hx. }
    rewrite H. reflexivity.
Qed.

Lemma dict_mem_elem (k : string) (m : list (string * json)) :
  dict_mem k m = true <-> k ∈ map fst m.
Proof.
  unfold dict_mem. induction m as [|[k' v'] m IH]; simpl.
  - split; [discriminate|]. intros H. inversion H.
  - rewrite elem_of_cons. destruct (String.eqb_spec k k') as [->|Hne].
    + split; auto.
    + rewrite IH. split; [auto|]. intros [H|H]; [contradiction|exact H].
Qed.

Lemma dict_set_keys (k : string) (v : json) (m : list (string * json)) :
  map fst (dict_set k v m) = if dict_mem k m then map fst m else map fst m ++ [k].
Proof.
  unfold dict_mem. induction m as [|[k' v'] m IH]; simpl; [reflexivity|].
  destruct (String.eqb k k'); [reflexivity|]. simpl. rewrite IH.
  destruct (dict_get k m); reflexivity.
Qed.

Lemma dict_set_values (P : json -> Prop) (k : string) (v : json)
    (m : list (string * json)) :
  P v -> Forall (fun kv => P (snd kv)) m ->
  Forall (fun kv => P (snd kv)) (dict_set k v m).
Proof.
  intros Hv. induction m as [|[k' v'] m IH]; simpl; intros Hm.
  - constructor; [exact Hv|constructor].
  - apply Forall_cons_iff in Hm as (H1 & H2).
    destruct (String.eqb k k'); constructor; auto.
Qed.

Lemma dict_set_nodup (k : string) (v : json) (m : list (string * json)) :
  NoDup (map fst m) -> NoDup (map fst (dict_set k v m)).
Proof.
  intros H. rewrite dict_set_keys. destruct (dict_mem k m) eqn:E; [exact H|].
  apply NoDup_app. split; [exact H|]. split; [|apply NoDup_singleton].
  intros x Hx Hx'. apply list_elem_of_singleton in Hx' as ->.
  apply dict_mem_elem in Hx. congruence.
Qed.

Lemma dict_of_pairs_ok (pairs : list (string * json)) :
  Forall (fun kv => json_ok (snd kv) = true) pairs ->
  json_ok (JObj (dict_of_pairs pairs)) = true.
Proof.
  intros H. apply json_ok_obj. rewrite nodup_keys_iff. unfold dict_of_pairs.
  assert (Hgen : forall acc,
    NoDup (map fst acc) /\ Forall (fun kv => json_ok (snd kv) = true) acc ->
    NoDup (map fst (fold_left (fun d kv => dict_set (fst kv) (snd kv) d) pairs acc))
    /\ Forall (fun kv => json_ok (snd kv) = true)
         (fold_left (fun d kv => dict_set (fst kv) (snd kv) d) pairs acc)).
  { induction H as [|[k v] ps Hv Hps IH]; intros acc (Hn & Ha); simpl; [auto|].
    apply IH. split; [apply dict_set_nodup, Hn|].
    apply (dict_set_values (fun x => json_ok x = true)); auto. }
  apply Hgen. split; constructor.
Qed.

Lemma scan_number_kind (s : string) (v : json) (r : string) :
  scan_number s = Some (v, r) -> (exists z, v = JInt z) \/ (exists lit, v = JFloat lit).
Proof.
  unfold scan_number. destruct (match_number s) as [[v0 r0]|] eqn:E.
  - intros [= -> ->].
    apply match_number_inv in E as (neg & d & frac & ex & _ & _ & _ & _ & ->).
    unfold number_value. destruct frac, ex; eauto.
  - destruct (strip_prefix "NaN" s); [intros [= <- _]; eauto|].
    destruct (strip_prefix "Infinity" s); [intros [= <- _]; eauto|].
    destruct (strip_prefix "-Infinity" s); [intros [= <- _]; eauto|discriminate].
Qed.

Lemma scan_number_ok (s : string) (v : json) (r : string) :
  scan_number s = Some (v, r) -> json_ok v = true.
Proof.
  intros H. destruct (scan_number_kind _ _ _ H) as [(z & ->)|(lit & ->)];
    [reflexivity|].
  simpl. apply float_literal_iff. eapply scan_number_float_inv, H.
Qed.

Lemma scan_ok (f : nat) :
  (forall s v r, scan_once f s = POk v r -> json_ok v = true)
  /\ (forall s values v r, Forall (fun x => json_ok x = true) values ->
        JSONArray f s values = POk v r -> json_ok v = true)
  /\ (forall s pairs v r, Forall (fun kv => json_ok (snd kv) = true) pairs ->
        JSONObject f s pairs = POk v r -> json_ok v = true).
Proof.
  induction f as [|f (IH1 & IH2 & IH3)].
  - repeat split; intros *; rewrite ?scan_once_0, ?JSONArray_0, ?JSONObject_0;
      try discriminate; intros _; discriminate.
  - repeat split.
    + intros [|c s'] v r; [rewrite scan_once_empty; discriminate|].
      rewrite scan_once_S.
      destruct (Ascii.eqb c dquote).
      { destruct (py_scanstring s') as [[str r0]|]; [|discriminate].
        intros [= <- _]. reflexivity. }
      destruct (Ascii.eqb c "{").
      { destruct (skip_ws s') as [|c1 r1]; [discriminate|].
        destruct (Ascii.eqb c1 "}"); [intros [= <- _]; reflexivity|].
        destruct (Ascii.eqb c1 dquote); [|discriminate].
        apply IH3. constructor. }
      destruct (Ascii.eqb c "[").
      { destruct (skip_ws s') as [|c1 r1]; [discriminate|].
        destruct (Ascii.eqb c1 "]"); [intros [= <- _]; reflexivity|].
        apply IH2. constructor. }
      destruct (strip_prefix "null" (String c s')); [intros [= <- _]; reflexivity|].
      destruct (strip_prefix "true" (String c s')); [intros [= <- _]; reflexivity|].
      destruct (strip_prefix "false" (String c s')); [intros [= <- _]; reflexivity|].
      destruct (scan_number (String c s')) as [[v0 r0]|] eqn:E; [|discriminate].
      intros [= <- _]. eapply scan_number_ok, E.
    + intros s values v r Hvals. rewrite JSONArray_S.
      destruct (scan_once f s) as [v0 r0| |] eqn:E; try discriminate.
      apply IH1 in E.
      assert (Hall : Forall (fun x => json_ok x = true) (values ++ [v0])).
      { apply Forall_app. split; [exact Hvals|]. constructor; [exact E|constructor]. }
      destruct (skip_ws r0) as [|c r']; [discriminate|].
      destruct (Ascii.eqb c "]"); [intros [= <- _]; apply json_ok_arr, Hall|].
      destruct (Ascii.eqb c ","); [|discriminate]. apply IH2, Hall.
    + intros s pairs v r Hps. rewrite JSONObject_S.
      destruct (py_scanstring s) as [[key r0]|]; [|discriminate].
      destruct (skip_ws r0) as [|c r1]; [discriminate|].
      destruct (Ascii.eqb c ":"); [|discriminate].
      destruct (scan_once f (skip_ws r1)) as [v0 r2| |] eqn:E; try discriminate.
      apply IH1 in E.
      assert (Hall : Forall (fun kv => json_ok (snd kv) = true) (pairs ++ [(key, v0)])).
      { apply Forall_app. split; [exact Hps|]. constructor; [exact E|constructor]. }
      destruct (skip_ws r2) as [|c2 r3]; [discriminate|].
      destruct (Ascii.eqb c2 "}"); [intros [= <- _]; apply dict_of_pairs_ok, Hall|].
      destruct (Ascii.eqb c2 ","); [|discriminate].
      destruct (skip_ws r3) as [|c3 r4]; [discriminate|].
      destruct (Ascii.eqb c3 dquote); [|discriminate]. apply IH3, Hall.
Qed.

Lemma json_loads_ok (s : string) (v : json) :
  json_loads s = Some v -> json_ok v = true.
Proof.
  unfold json_loads.
  destruct (scan_once (budget (skip_ws s)) (skip_ws s)) as [v0 r| |] eqn:E;
    try discriminate.
  destruct (skip_ws r); [|discriminate]. intros [= <-].
  eapply (proj1 (scan_ok _)), E.
Qed.

(** ** Computations *)

Lemma bind_inv {A B} (m : M A) (k : A -> M B) (w w' : world) (b : B) :
  bind m k w = (Ok b, w') ->
  exists a w1, m w = (Ok a, w1) /\ k a w1 = (Ok b, w').
Proof.
  unfold bind. destruct (m w) as [[a|e] w1]; [eauto|discriminate].
Qed.

Lemma bind_ok {A B} (m : M A) (k : A -> M B) (w w1 : world) (a : A) :
  m w = (Ok a, w1) -> bind m k w = k a w1.
Proof. unfold bind. intros ->. reflexivity. Qed.

Lemma bind_raise {A B} (m : M A) (k : A -> M B) (w w1 : world) (e : exn) :
  m w = (Raise e, w1) -> bind m k w = (Raise e, w1).
Proof. unfold bind. intros ->. reflexivity. Qed.

Lemma lift_inv {A} (r : result A) (w w' : world) (a : A) :
  lift r w = (Ok a, w') -> r = Ok a /\ w' = w.
Proof. unfold lift. intros [= -> ->]. auto. Qed.

Lemma world_eta (w : world) : World (fs w) (ui w) = w.
Proof. destruct w; reflexivity. Qed.

(** ** The JSON stores *)

Lemma os_path_exists_eq (p : string) (w : world) :
  os_path_exists p w = (Ok (match fs w !! p with Some _ => true | None => false end), w).
Proof. reflexivity. Qed.

(** What [load_json] does, by what is at the path. *)
Lemma load_json_absent (p : string) (w : world) :
  fs w !! p = None -> load_json p w = (Ok (JObj []), w).
Proof. intros H. unfold load_json, bind, os_path_exists. rewrite H. reflexivity. Qed.

Lemma load_json_file (p : string) (w : world) (bytes : string) :
  fs w !! p = Some (File bytes) -> Utf8.valid bytes = true ->
  load_json p w =
  (Ok (match json_loads (universal_newlines bytes) with
       | Some v => v
       | None => JObj []
       end), w).
Proof.
  intros H Hv.
  unfold load_json, bind, os_path_exists. rewrite H. cbv beta iota.
  unfold try_except, json_load, bind, read_text. rewrite ?H, Hv.
  destruct (json_loads (universal_newlines bytes)); reflexivity.
Qed.

Lemma load_json_undecodable (p : string) (w : world) (bytes : string) :
  fs w !! p = Some (File bytes) -> Utf8.valid bytes = false ->
  load_json p w = (Raise UnicodeDecodeError, w).
Proof.
  intros H Hv.
  unfold load_json, bind, os_path_exists. rewrite H. cbv beta iota.
  unfold try_except, json_load, bind, read_text. rewrite ?H, Hv. reflexivity.
Qed.

Lemma load_json_dir (p : string) (w : world) :
  fs w !! p = Some Dir -> load_json p w = (Raise IsADirectoryError, w).
Proof.
  intros H.
  unfold load_json, bind, os_path_exists. rewrite H. cbv beta iota.
  unfold try_except, json_load, bind, read_text. rewrite ?H. reflexivity.
Qed.

(** [load_json] only reads. *)
Lemma load_json_world {p : string} {w w' : world} {r : result json} :
  load_json p w = (r, w') -> w' = w.
Proof.
  destruct (fs w !! p) as [[bytes|]|] eqn:E.
  - destruct (Utf8.valid bytes) eqn:Hv.
    + rewrite (load_json_file p w bytes E Hv). intros [= _ <-]. reflexivity.
    + rewrite (load_json_undecodable p w bytes E Hv). intros [= _ <-]. reflexivity.
  - rewrite (load_json_dir p w E). intros [= _ <-]. reflexivity.
  - rewrite (load_json_absent p w E). intros [= _ <-]. reflexivity.
Qed.

(** It depends on the file system only. *)
Lemma load_json_fs (p : string) (w1 w2 : world) :
  fs w1 !! p = fs w2 !! p -> fst (load_json p w1) = fst (load_json p w2).
Proof.
  intros H. destruct (fs w2 !! p) as [[bytes|]|] eqn:E.
  - destruct (Utf8.valid bytes) eqn:Hv.
    + rewrite (load_json_file p w1 bytes H Hv), (load_json_file p w2 bytes E Hv).
      reflexivity.
    + rewrite (load_json_undecodable p w1 bytes H Hv),
        (load_json_undecodable p w2 bytes E Hv). reflexivity.
  - rewrite (load_json_dir p w1 H), (load_json_dir p w2 E). reflexivity.
  - rewrite (load_json_absent p w1 H), (load_json_absent p w2 E). reflexivity.
Qed.

Lemma load_json_ok (p : string) (w w' : world) (v : json) :
  load_json p w = (Ok v, w') -> json_ok v = true.
Proof.
  destruct (fs w !! p) as [[bytes|]|] eqn:E.
  - destruct (Utf8.valid bytes) eqn:Hv.
    + rewrite (load_json_file p w bytes E Hv).
      destruct (json_loads (universal_newlines bytes)) as [v0|] eqn:El; intros [= <- _];
        [eapply json_loads_ok, El | reflexivity].
    + rewrite (load_json_undecodable p w bytes E Hv). discriminate.
  - rewrite (load_json_dir p w E). discriminate.
  - rewrite (load_json_absent p w E). intros [= <- _]. reflexivity.
Qed.

Lemma open_w_inv (p : string) (w w' : world) :
  open_w p w = (Ok tt, w') ->
  w' = World (<[p := File EmptyString]> (fs w)) (ui w) /\ fs w !! p <> Some Dir
  /\ (fs w !! p = None -> parent_check p (fs w) = None).
Proof.
  unfold open_w. destruct (fs w !! p) as [[bytes|]|] eqn:E.
  - intros [= <-]. split; [reflexivity|]. split; [discriminate|]. intros; discriminate.
  - discriminate.
  - destruct (parent_check p (fs w)) eqn:Ep; [discriminate|]. intros [= <-].
    split; [reflexivity|]. split; [discriminate|]. intros _; reflexivity.
Qed.

Lemma f_write_inv (p text : string) (w w' : world) :
  f_write p text w = (Ok tt, w') ->
  Utf8.valid text = true
  /\ w' = World (<[p := File (match fs w !! p with
                             | Some (File old) => old +:+ text
                             | _ => text
                             end)]> (fs w)) (ui w).
Proof.
  unfold f_write. destruct (Utf8.valid text); [|discriminate].
  destruct (fs w !! p) as [[old|]|]; intros [= <-]; auto.
Qed.

(** A successful [save_json] leaves exactly the encoded text at the path. *)
Lemma save_json_inv (p : string) (v : json) (w w' : world) :
  save_json p v w = (Ok tt, w') ->
  Utf8.valid (json_dumps v) = true
  /\ w' = World (<[p := File (json_dumps v)]> (fs w)) (ui w).
Proof.
  unfold save_json. intros H. apply bind_inv in H as ([] & w1 & Ho & Hw).
  apply open_w_inv in Ho as (-> & _). apply f_write_inv in Hw as (Hv & ->).
  split; [exact Hv|]. simpl. rewrite lookup_insert_eq, insert_insert_eq.
  reflexivity.
Qed.

(** Writing a whole file in one go. *)
Lemma write_file_succeeds (p text : string) (w : world) :
  fs w !! p <> Some Dir -> parent_check p (fs w) = None ->
  Utf8.valid text = true ->
  (open_w p >> f_write p text) w = (Ok tt, World (<[p := File text]> (fs w)) (ui w)).
Proof.
  intros Hd Hp Hv. unfold bind, open_w, f_write.
  destruct (fs w !! p) as [[bytes|]|] eqn:E; [|contradiction|rewrite Hp];
    cbn [fs ui]; rewrite Hv, lookup_insert_eq, insert_insert_eq; reflexivity.
Qed.

(** When it succeeds. *)
Lemma save_json_succeeds (p : string) (v : json) (w : world) :
  fs w !! p <> Some Dir -> parent_check p (fs w) = None ->
  Utf8.valid (json_dumps v) = true ->
  save_json p v w = (Ok tt, World (<[p := File (json_dumps v)]> (fs w)) (ui w)).
Proof. apply write_file_succeeds. Qed.

(** ** The encoded text can be written: UTF-8 well-formedness *)

Lemma run_cons (st : Utf8.state) (c : ascii) (s : string) :
  Utf8.run st (String c s) =
  match Utf8.step st c with
  | Some st' => Utf8.run st' s
  | None => None
  end.
Proof. reflexivity. Qed.

Lemma run_app (st : Utf8.state) (a b : string) :
  Utf8.run st (a +:+ b) =
  match Utf8.run st a with
  | Some st' => Utf8.run st' b
  | None => None
  end.
Proof.
  revert st. induction a as [|c a IH]; intros st; [reflexivity|].
  rewrite sapp_cons, !run_cons. destruct (Utf8.step st c); [apply IH|reflexivity].
Qed.

Lemma valid_iff (s : string) : Utf8.valid s = true <-> Utf8.run Utf8.Start s = Some Utf8.Start.
Proof.
  unfold Utf8.valid. destruct (Utf8.run Utf8.Start s) as [[]|]; split;
    congruence.
Qed.

Lemma valid_app (a b : string) :
  Utf8.valid a = true -> Utf8.valid b = true -> Utf8.valid (a +:+ b) = true.
Proof. rewrite !valid_iff, run_app. intros -> ->. reflexivity. Qed.

Lemma step_ascii (st : Utf8.state) (c : ascii) :
  (code c <? 128)%N = true ->
  Utf8.step st c = match st with Utf8.Start => Some Utf8.Start | _ => None end.
Proof.
  intros H. apply N.ltb_lt in H. unfold Utf8.step, Utf8.between.
  destruct st.
  - destruct (N.ltb_spec (code c) 128); [reflexivity|lia].
  - destruct (N.leb_spec 128 (code c)); [lia|reflexivity].
  - destruct (N.leb_spec 128 (code c)); [lia|reflexivity].
  - destruct (N.leb_spec 128 (code c)); [lia|reflexivity].
  - destruct (N.leb_spec 160 (code c)); [lia|reflexivity].
  - destruct (N.leb_spec 128 (code c)); [lia|reflexivity].
  - destruct (N.leb_spec 144 (code c)); [lia|reflexivity].
  - destruct (N.leb_spec 128 (code c)); [lia|reflexivity].
Qed.

Lemma run_ascii (st : Utf8.state) (a t : string) :
  all_ascii a = true -> a <> EmptyString ->
  Utf8.run st (a +:+ t) =
  match st with Utf8.Start => Utf8.run Utf8.Start t | _ => None end.
Proof.
  intros Ha Hne. destruct a as [|c a]; [contradiction|]. clear Hne.
  simpl in Ha. apply andb_true_iff in Ha as (Hc & Ha).
  rewrite sapp_cons, run_cons, (step_ascii st c Hc).
  destruct st; try reflexivity.
  clear c Hc. induction a as [|c a IH]; [reflexivity|].
  simpl in Ha. apply andb_true_iff in Ha as (Hc & Ha).
  rewrite sapp_cons, run_cons, (step_ascii _ c Hc). apply IH, Ha.
Qed.

Lemma valid_ascii (a : string) : all_ascii a = true -> Utf8.valid a = true.
Proof.
  intros Ha. destruct a as [|c a]; [reflexivity|].
  apply valid_iff. rewrite <- (sapp_nil_r (String c a)).
  rewrite run_ascii; [reflexivity|exact Ha|discriminate].
Qed.

Lemma escape_char_fits_all (c : ascii) : escape_char_fits c = true.
Proof.
  destruct c as [b0 b1 b2 b3 b4 b5 b6 b7].
  destruct b0, b1, b2, b3, b4, b5, b6, b7; vm_compute; reflexivity.
Qed.

Lemma run_escape (st : Utf8.state) (s : string) :
  Utf8.run st (escape s) = Utf8.run st s.
Proof.
  revert st. induction s as [|c s IH]; intros st; [reflexivity|].
  cbn [escape]. pose proof (escape_char_fits_all c) as H. unfold escape_char_fits in H.
  apply orb_true_iff in H as [H|H].
  - apply String.eqb_eq in H. rewrite H, sapp_cons, sapp_nil_l, !run_cons.
    destruct (Utf8.step st c); [apply IH|reflexivity].
  - apply andb_true_iff in H as (H & Hne). apply andb_true_iff in H as (Hc & Ha).
    apply negb_true_iff, String.eqb_neq in Hne.
    rewrite (run_ascii st _ _ Ha Hne), run_cons, (step_ascii st c Hc).
    destruct st; try reflexivity. apply IH.
Qed.

Lemma valid_basestring (s : string) :
  Utf8.valid s = true -> Utf8.valid (py_encode_basestring s) = true.
Proof.
  intros H. unfold py_encode_basestring.
  change (String dquote (escape s +:+ String dquote EmptyString))
    with (String dquote EmptyString +:+ (escape s +:+ String dquote EmptyString)).
  apply valid_app; [reflexivity|]. apply valid_app; [|reflexivity].
  apply valid_iff. rewrite run_escape. apply valid_iff, H.
Qed.

Lemma all_ascii_uint (d : uint) : all_ascii (str_uint d) = true.
Proof. induction d; simpl; auto. Qed.

Lemma valid_str_of_Z (z : Z) : Utf8.valid (str_of_Z z) = true.
Proof.
  apply valid_ascii. destruct z; simpl; first [reflexivity | apply all_ascii_uint].
Qed.

Lemma all_ascii_spaces (n : nat) : all_ascii (spaces n) = true.
Proof. induction n as [|n IH]; [reflexivity|exact IH]. Qed.

Lemma valid_newline_indent (lvl : nat) : Utf8.valid (newline_indent lvl) = true.
Proof. apply valid_ascii. unfold newline_indent. simpl. apply all_ascii_spaces. Qed.

Lemma valid_item_separator (lvl : nat) : Utf8.valid (item_separator lvl) = true.
Proof. apply valid_ascii. unfold item_separator, newline_indent. simpl. apply all_ascii_spaces. Qed.

Lemma valid_concat (sep : string) (l : list string) :
  Utf8.valid sep = true -> Forall (fun s => Utf8.valid s = true) l ->
  Utf8.valid (String.concat sep l) = true.
Proof.
  intros Hs Hl. induction Hl as [|x l Hx Hl IH]; [reflexivity|].
  destruct l as [|y l]; [exact Hx|].
  rewrite concat_cons2. repeat apply valid_app; auto.
Qed.

Lemma valid_iterencode (v : json) (lvl : nat) :
  json_text_ok v = true -> Utf8.valid (iterencode lvl v) = true.
Proof.
  revert lvl.
  induction v as [ | b | z | lit | s | l IH | m IH] using json_ind'; intros lvl Hok.
  - reflexivity.
  - destruct b; reflexivity.
  - apply valid_str_of_Z.
  - exact Hok.
  - apply valid_basestring, Hok.
  - destruct l as [|x l]; [reflexivity|]. rewrite iterencode_arr.
    cbn [json_text_ok] in Hok. apply forallb_Forall_true in Hok.
    repeat apply valid_app; try reflexivity; try apply valid_newline_indent.
    apply valid_concat; [apply valid_item_separator|].
    apply Forall_fmap. rewrite Forall_forall in *. intros y Hy. apply IH; auto.
  - destruct m as [|kv m]; [reflexivity|]. rewrite iterencode_obj.
    cbn [json_text_ok] in Hok. apply forallb_Forall_true in Hok.
    repeat apply valid_app; try reflexivity; try apply valid_newline_indent.
    apply valid_concat; [apply valid_item_separator|].
    apply Forall_fmap. rewrite Forall_forall in *. intros [k y] Hy.
    specialize (Hok _ Hy). apply andb_true_iff in Hok as (Hk & Hy').
    unfold member_text. apply valid_app; [apply valid_basestring, Hk|].
    apply valid_app; [reflexivity|]. apply (IH _ Hy), Hy'.
Qed.

Lemma valid_json_dumps (v : json) :
  json_text_ok v = true -> Utf8.valid (json_dumps v) = true.
Proof. apply valid_iterencode. Qed.

(** ** The encoded text is read as written: no carriage return *)

Lemma universal_newlines_id (s : string) : has_cr s = false -> universal_newlines s = s.
Proof.
  induction s as [|c s IH]; [reflexivity|]. cbn [has_cr universal_newlines].
  intros H. apply orb_false_iff in H as (Hc & Hs). rewrite Hc, (IH Hs). reflexivity.
Qed.

Lemma has_cr_app (a b : string) : has_cr (a +:+ b) = has_cr a || has_cr b.
Proof.
  induction a as [|c a IH]; [reflexivity|].
  rewrite sapp_cons. cbn [has_cr]. rewrite IH, orb_assoc. reflexivity.
Qed.

Lemma has_cr_escape_char (c : ascii) : has_cr (escape_char c) = false.
Proof.
  destruct c as [b0 b1 b2 b3 b4 b5 b6 b7].
  destruct b0, b1, b2, b3, b4, b5, b6, b7; vm_compute; reflexivity.
Qed.

Lemma has_cr_escape (s : string) : has_cr (escape s) = false.
Proof.
  induction s as [|c s IH]; [reflexivity|].
  cbn [escape]. rewrite has_cr_app, has_cr_escape_char, IH. reflexivity.
Qed.

Lemma has_cr_basestring (s : string) : has_cr (py_encode_basestring s) = false.
Proof.
  unfold py_encode_basestring. cbn [has_cr]. rewrite has_cr_app, has_cr_escape.
  reflexivity.
Qed.

Lemma has_cr_uint (d : uint) : has_cr (str_uint d) = false.
Proof. induction d; simpl; auto. Qed.

Lemma has_cr_str_of_Z (z : Z) : has_cr (str_of_Z z) = false.
Proof. destruct z; simpl; first [reflexivity | apply has_cr_uint]. Qed.

Lemma has_cr_spaces (n : nat) : has_cr (spaces n) = false.
Proof. induction n as [|n IH]; [reflexivity|exact IH]. Qed.

Lemma has_cr_newline_indent (lvl : nat) : has_cr (newline_indent lvl) = false.
Proof. unfold newline_indent. simpl. apply has_cr_spaces. Qed.

Lemma has_cr_item_separator (lvl : nat) : has_cr (item_separator lvl) = false.
Proof. unfold item_separator, newline_indent. simpl. apply has_cr_spaces. Qed.

Lemma has_cr_float (lit : string) :
  float_shape lit \/ special_float lit -> has_cr lit = false.
Proof.
  intros [(neg & d & frac & ex & _ & Hf & He & _ & ->)|[-> | [-> | ->]]];
    try reflexivity.
  rewrite !has_cr_app, has_cr_uint.
  assert (has_cr (sign_text neg) = false) as -> by (destruct neg; reflexivity).
  assert (has_cr frac = false) as ->.
  { destruct Hf as [->|(f & _ & ->)]; [reflexivity|]. simpl. apply has_cr_uint. }
  assert (has_cr ex = false) as ->.
  { destruct He as [->|(c & sgn & e & Hc & Hs & _ & ->)]; [reflexivity|].
    cbn [has_cr]. rewrite has_cr_app, has_cr_uint.
    destruct Hc as [-> | ->], Hs as [-> | [-> | ->]]; reflexivity. }
  reflexivity.
Qed.

Lemma has_cr_concat (sep : string) (l : list string) :
  has_cr sep = false -> Forall (fun s => has_cr s = false) l ->
  has_cr (String.concat sep l) = false.
Proof.
  intros Hs Hl. induction Hl as [|x l Hx Hl IH]; [reflexivity|].
  destruct l as [|y l]; [exact Hx|].
  rewrite concat_cons2, !has_cr_app, Hx, Hs, IH. reflexivity.
Qed.

Lemma has_cr_iterencode (v : json) (lvl : nat) :
  json_ok v = true -> has_cr (iterencode lvl v) = false.
Proof.
  revert lvl.
  induction v as [ | b | z | lit | s | l IH | m IH] using json_ind'; intros lvl Hok.
  - reflexivity.
  - destruct b; reflexivity.
  - apply has_cr_str_of_Z.
  - apply has_cr_float, float_literal_iff, Hok.
  - apply has_cr_basestring.
  - destruct l as [|x l]; [reflexivity|]. rewrite iterencode_arr.
    apply json_ok_arr in Hok.
    rewrite !has_cr_app, !has_cr_newline_indent, has_cr_concat;
      [reflexivity|apply has_cr_item_separator|].
    apply Forall_fmap. rewrite Forall_forall in *. intros y Hy. apply IH; auto.
  - destruct m as [|kv m]; [reflexivity|]. rewrite iterencode_obj.
    apply json_ok_obj in Hok as (_ & Hok).
    rewrite !has_cr_app, !has_cr_newline_indent, has_cr_concat;
      [reflexivity|apply has_cr_item_separator|].
    apply Forall_fmap. rewrite Forall_forall in *. intros [k y] Hy.
    unfold member_text. cbn [compose]. simpl.
    rewrite !has_cr_app, has_cr_escape. simpl. apply (IH _ Hy), (Hok _ Hy).
Qed.

Lemma json_dumps_newlines (v : json) :
  json_ok v = true -> universal_newlines (json_dumps v) = json_dumps v.
Proof. intros H. apply universal_newlines_id, has_cr_iterencode, H. Qed.

(** ** The key-value store *)

(** C4. [save_json] followed by [load_json] on the same path returns the
    mapping that was saved: whenever the save returns, the load returns an
    equal mapping; and the save does return when the path can be opened for
    writing and the text of the mapping can be encoded. *)
Theorem C4_save_then_load (file_path : string) (data : list (string * json))
    (w : world) :
  json_ok (JObj data) = true ->
  (forall w', save_json file_path (JObj data) w = (Ok tt, w') ->
     load_json file_path w' = (Ok (JObj data), w'))
  /\ (json_text_ok (JObj data) = true -> fs w !! file_path <> Some Dir ->
      parent_check file_path (fs w) = None ->
      exists w', save_json file_path (JObj data) w = (Ok tt, w')).
Proof.
  intros Hok. split.
  - intros w' H. apply save_json_inv in H as (Hv & ->).
    rewrite (load_json_file file_path _ (json_dumps (JObj data)));
      [|apply lookup_insert_eq|exact Hv].
    rewrite (json_dumps_newlines _ Hok), (json_loads_dumps _ Hok). reflexivity.
  - intros Ht Hd Hp. eexists. apply save_json_succeeds; auto.
    apply valid_json_dumps, Ht.
Qed.

Lemma C4_save_then_load_witness :
  exists w', save_json "templates.json" (JObj sample_store) empty_world = (Ok tt, w')
             /\ load_json "templates.json" w' = (Ok (JObj sample_store), w').
Proof.
  destruct (C4_save_then_load "templates.json" sample_store empty_world eq_refl)
    as (Hload & Hsave).
  destruct Hsave as (w' & Hw');
    [reflexivity | vm_compute; discriminate | reflexivity |].
  exists w'. split; [exact Hw' | apply Hload, Hw'].
Defined.




(** C10. There are files holding valid JSON that is not an object, a
    top-level array and a top-level string, for which [load_json] returns
    that value as it is: the result need not be a mapping. *)
Theorem C10_load_json_returns_non_mapping :
  let w := World {[ "keywords.json" := File "[1, 2]";
                    "prompts.json" := File (sq "'note'") ]} [] in
  load_json "keywords.json" w = (Ok (JArr [JInt 1; JInt 2]), w)
  /\ is_dict (JArr [JInt 1; JInt 2]) = false
  /\ load_json "prompts.json" w = (Ok (JStr "note"), w)
  /\ is_dict (JStr "note") = false.
Proof. repeat split; reflexivity. Qed.

(** ** The merge utility *)

(** C8. For a source directory that does not exist, [merge_md_files] returns
    the message naming the directory and leaves the world as it was: the
    output path is neither opened nor written. *)
Theorem C8_merge_missing_directory (P : Platform) (now : datetime)
    (folder_path output_file : string) (w : world) :
  fs w !! folder_path = None ->
  merge_md_files P now folder_path output_file w
  = (Ok ("지정된 폴더가 존재하지 않습니다: " +:+ folder_path), w).
Proof.
  intros H. unfold merge_md_files, bind, os_path_exists. rewrite H. reflexivity.
Qed.

Lemma C8_merge_missing_directory_witness :
  merge_md_files sample_platform sample_now "/no/such/dir" "merged_overview.md"
    empty_world
  = (Ok "지정된 폴더가 존재하지 않습니다: /no/such/dir", empty_world)
  /\ fs empty_world !! "merged_overview.md" = None.
Proof.
  split; [|reflexivity].
  apply (C8_merge_missing_directory sample_platform sample_now "/no/such/dir"
           "merged_overview.md" empty_world).
  reflexivity.
Defined.

(** ** Duplicate keys *)

Lemma add_rejected (file msg key : string) (x : json) (success : string)
    (m : list (string * json)) (w : world) :
  load_json file w = (Ok (JObj m), w) -> dict_mem key m = true ->
  (let* store := load_json file in
   let* taken := lift (py_contains key store) in
   if taken then st_show (StError msg)
   else
     let* store := lift (py_setitem store key x) in
     save_json file store >> st_show (StSuccess success)) w
  = (Ok tt, World (fs w) (ui w ++ [StError msg])).
Proof.
  intros Hl Hm. unfold bind at 1. rewrite Hl. unfold bind, lift. simpl.
  rewrite Hm. reflexivity.
Qed.

(** C6. Adding a template whose ID is already in the store shows the
    duplicate-ID error and changes nothing in the file system: the store
    file is not written and the existing record reads back as before. The
    same holds for a duplicate prompt ID and a duplicate keyword. *)
Theorem C6_duplicate_rejected (key a b : string) (m : list (string * json))
    (w : world) :
  dict_mem key m = true ->
  (load_json TEMPLATES_FILE w = (Ok (JObj m), w) ->
   exists w', main_template_add key a b w = (Ok tt, w')
     /\ fs w' = fs w /\ ui w' = ui w ++ [StError "이미 존재하는 템플릿 ID입니다."]
     /\ load_json TEMPLATES_FILE w' = (Ok (JObj m), w'))
  /\ (load_json PROMPTS_FILE w = (Ok (JObj m), w) ->
      exists w', main_prompt_add key a w = (Ok tt, w')
        /\ fs w' = fs w /\ ui w' = ui w ++ [StError "이미 존재하는 프롬프트 ID입니다."]
        /\ load_json PROMPTS_FILE w' = (Ok (JObj m), w'))
  /\ (load_json KEYWORDS_FILE w = (Ok (JObj m), w) ->
      exists w', main_keyword_add key a w = (Ok tt, w')
        /\ fs w' = fs w /\ ui w' = ui w ++ [StError "이미 존재하는 키워드입니다."]
        /\ load_json KEYWORDS_FILE w' = (Ok (JObj m), w')).
Proof.
  intros Hm.
  assert (Hsame : forall file msg, load_json file w = (Ok (JObj m), w) ->
    load_json file (World (fs w) (ui w ++ [StError msg]))
    = (Ok (JObj m), World (fs w) (ui w ++ [StError msg]))).
  { intros file msg Hl.
    pose proof (load_json_fs file (World (fs w) (ui w ++ [StError msg])) w eq_refl) as Hf.
    rewrite Hl in Hf. simpl in Hf.
    destruct (load_json file (World (fs w) (ui w ++ [StError msg]))) as [r w2] eqn:E.
    rewrite (load_json_world E). simpl in Hf. subst r. reflexivity. }
  repeat split; intros Hl; eexists;
    (split; [eapply add_rejected; eauto|]);
    (split; [reflexivity|]); (split; [reflexivity|]); apply Hsame, Hl.
Qed.

Lemma C6_duplicate_rejected_witness :
  let w := World {[ TEMPLATES_FILE := File (json_dumps (JObj sample_store)) ]} [] in
  exists w', main_template_add "t1" "Weekly" "# Week" w = (Ok tt, w')
    /\ fs w' = fs w /\ ui w' = [StError "이미 존재하는 템플릿 ID입니다."]
    /\ load_json TEMPLATES_FILE w' = (Ok (JObj sample_store), w').
Proof.
  intros w.
  destruct (C6_duplicate_rejected "t1" "Weekly" "# Week" sample_store w eq_refl)
    as (Ht & _).
  apply Ht. reflexivity.
Defined.

(** ** Document paths and names *)

Lemma doc_path_cases (b : string) :
  (starts_with_sep b = true /\ doc_path b = b)
  \/ (starts_with_sep b = false /\ doc_path b = "docs/" +:+ b).
Proof.
  unfold doc_path, os_path_join. destruct (starts_with_sep b); [left|right]; auto.
Qed.

Lemma doc_path_not_metadata (b : string) : doc_path b <> METADATA_FILE.
Proof.
  destruct (doc_path_cases b) as [(Hs & ->)|(_ & ->)].
  - intros ->. discriminate.
  - discriminate.
Qed.

Lemma doc_path_not_docs (b : string) : doc_path b <> DOCS_DIR.
Proof.
  destruct (doc_path_cases b) as [(Hs & ->)|(_ & ->)].
  - intros ->. discriminate.
  - intros H. apply (f_equal String.length) in H. simpl in H. lia.
Qed.

Lemma doc_path_inj (b1 b2 : string) : doc_path b1 = doc_path b2 -> b1 = b2.
Proof.
  destruct (doc_path_cases b1) as [(H1 & ->)|(H1 & ->)],
           (doc_path_cases b2) as [(H2 & ->)|(H2 & ->)]; intros H.
  - exact H.
  - subst b1. discriminate.
  - subst b2. discriminate.
  - apply String.app_inj in H. exact H.
Qed.

Lemma str_of_nat_inj (a b : nat) : str_of_nat a = str_of_nat b -> a = b.
Proof.
  unfold str_of_nat. intros H.
  apply DecimalNat.Unsigned.to_uint_inj.
  pose proof (NilEmpty.usu (Nat.to_uint a)) as Ha.
  pose proof (NilEmpty.usu (Nat.to_uint b)) as Hb.
  rewrite H in Ha. congruence.
Qed.

Lemma filename_of_inj (date_str : string) (a b : nat) :
  filename_of date_str a = filename_of date_str b -> a = b.
Proof.
  unfold filename_of. intros H. do 2 apply String.app_inj in H.
  apply sapp_inj_r in H. apply str_of_nat_inj, H.
Qed.

Lemma doc_name_inj (date_str : string) :
  Inj (=) (=) (fun k => doc_path (filename_of date_str k)).
Proof. intros a b H. apply doc_path_inj, filename_of_inj in H. exact H. Qed.

#[local] Existing Instance doc_name_inj.

(** ** [generate_filename] *)

(** Among the first [size + 1] names one is free. *)
Lemma free_or_all (f : gmap string node) (date_str : string) (b c : nat) :
  (forall n, c <= n < c + b -> occupied f date_str n)
  \/ (exists n, c <= n < c + b /\ f !! doc_path (filename_of date_str n) = None).
Proof.
  induction b as [|b IH]; [left; intros; lia|].
  destruct IH as [IH|(n & Hn & Hf)]; [|right; exists n; split; [lia|exact Hf]].
  destruct (f !! doc_path (filename_of date_str (c + b))) as [x|] eqn:E.
  - left. intros n Hn. destruct (decide (n = c + b)) as [->|Hne].
    + unfold occupied. rewrite E. discriminate.
    + apply IH. lia.
  - right. exists (c + b). split; [lia|exact E].
Qed.

Lemma some_name_free (f : gmap string node) (date_str : string) :
  exists n, 1 <= n < 1 + S (size f)
            /\ f !! doc_path (filename_of date_str n) = None.
Proof.
  destruct (free_or_all f date_str (S (size f)) 1) as [Hall|H]; [exfalso|exact H].
  set (names := (fun k => doc_path (filename_of date_str k)) <$> seq 1 (S (size f))).
  assert (Hnd : NoDup names).
  { apply (NoDup_fmap_2 _), NoDup_seq. }
  assert (Hsub : (list_to_set names : gset string) ⊆ dom f).
  { intros p Hp. apply elem_of_list_to_set, list_elem_of_fmap in Hp as (k & -> & Hk).
    apply elem_of_seq in Hk. apply elem_of_dom.
    specialize (Hall k ltac:(lia)). unfold occupied in Hall.
    destruct (f !! doc_path (filename_of date_str k)); [eauto|contradiction]. }
  apply subseteq_size in Hsub.
  rewrite size_list_to_set, size_dom in Hsub by exact Hnd.
  unfold names in Hsub. rewrite length_fmap, length_seq in Hsub. lia.
Qed.

Lemma generate_filename_loop_spec (date_str : string) (w : world) (b c : nat) :
  (exists n, c <= n < c + b /\ fs w !! doc_path (filename_of date_str n) = None) ->
  exists n, c <= n
    /\ generate_filename_loop b date_str c w = (Ok (filename_of date_str n), w)
    /\ fs w !! doc_path (filename_of date_str n) = None
    /\ forall k, c <= k < n -> occupied (fs w) date_str k.
Proof.
  revert c. induction b as [|b IH]; intros c (n & Hn & Hf); [lia|].
  cbn [generate_filename_loop]. unfold bind at 1. rewrite os_path_exists_eq.
  fold (doc_path (filename_of date_str c)).
  destruct (fs w !! doc_path (filename_of date_str c)) as [x|] eqn:E.
  - destruct (IH (S c)) as (n' & Hn' & Hl & Hf' & Hocc).
    { exists n. split; [|exact Hf]. destruct (decide (n = c)) as [->|]; [congruence|lia]. }
    exists n'. split; [lia|]. split; [exact Hl|]. split; [exact Hf'|].
    intros k Hk. destruct (decide (k = c)) as [->|].
    + unfold occupied. rewrite E. discriminate.
    + apply Hocc. lia.
  - exists c. split; [lia|]. split; [reflexivity|]. split; [exact E|]. intros; lia.
Qed.

Lemma ensure_docs_lookup (f : gmap string node) (p : string) :
  p <> DOCS_DIR -> ensure_docs f !! p = f !! p.
Proof.
  intros H. unfold ensure_docs. destruct (f !! DOCS_DIR); [reflexivity|].
  apply lookup_insert_ne. congruence.
Qed.

Lemma ensure_docs_keeps (f : gmap string node) (p : string) (x : node) :
  f !! p = Some x -> ensure_docs f !! p = Some x.
Proof.
  intros H. unfold ensure_docs. destruct (f !! DOCS_DIR) as [y|] eqn:E; [exact H|].
  rewrite lookup_insert_ne; [exact H|]. intros <-. congruence.
Qed.

(** [generate_filename] always returns: the name with the least suffix,
    from 1, whose file does not exist; it makes [DOCS_DIR] if need be. *)
Lemma generate_filename_spec (now : datetime) (w : world) :
  exists n, 1 <= n
    /\ generate_filename now w
       = (Ok (filename_of (strftime_date now) n), World (ensure_docs (fs w)) (ui w))
    /\ fs w !! doc_path (filename_of (strftime_date now) n) = None
    /\ forall k, 1 <= k < n -> occupied (fs w) (strftime_date now) k.
Proof.
  set (w1 := World (ensure_docs (fs w)) (ui w)).
  destruct (generate_filename_loop_spec (strftime_date now) w1 (S (size (fs w1))) 1
              (some_name_free (fs w1) (strftime_date now)))
    as (n & Hn & Hl & Hf & Hocc).
  exists n. split; [exact Hn|].
  assert (Hlook : forall k, fs w1 !! doc_path (filename_of (strftime_date now) k)
                            = fs w !! doc_path (filename_of (strftime_date now) k)).
  { intros k. apply ensure_docs_lookup, doc_path_not_docs. }
  split; [|split].
  - unfold generate_filename, bind. rewrite os_path_exists_eq.
    unfold w1, ensure_docs in *.
    destruct (fs w !! DOCS_DIR) as [x|] eqn:E; cbn [negb].
    + unfold ret. rewrite !world_eta in *. exact Hl.
    + unfold os_makedirs. rewrite E. exact Hl.
  - rewrite <- Hlook. exact Hf.
  - intros k Hk. unfold occupied. rewrite <- Hlook. apply Hocc, Hk.
Qed.

(** ** [create_document] *)

(** A successful create, spelled out. *)
Lemma create_document_inv (P : Platform) (now : datetime)
    (title category : string) (tags : list string) (content : string)
    (w w' : world) (name : string) :
  create_document P now title category tags content w = (Ok name, w') ->
  exists m n,
    load_json METADATA_FILE w = (Ok (JObj m), w)
    /\ 1 <= n /\ name = filename_of (strftime_date now) n
    /\ fs w !! doc_path name = None
    /\ (forall k, 1 <= k < n -> occupied (fs w) (strftime_date now) k)
    /\ w' = World
         (<[METADATA_FILE :=
              File (json_dumps (JObj (dict_set name
                                        (document_meta title category tags) m)))]>
            (<[doc_path name := File (front_text P title category tags +:+ content)]>
               (ensure_docs (fs w))))
         (ui w).
Proof.
  unfold create_document. intros H.
  apply bind_inv in H as (metadata & w1 & Hload & H).
  pose proof (load_json_world Hload) as ->.
  apply bind_inv in H as (file_name & w2 & Hgen & H).
  destruct (generate_filename_spec now w) as (n & Hn & Hg & Hfree & Hocc).
  rewrite Hg in Hgen. injection Hgen as <- <-.
  fold (doc_path (filename_of (strftime_date now) n)) in H.
  fold (front_text P title category tags) in H.
  apply bind_inv in H as ([] & w3 & Hopen & H). apply open_w_inv in Hopen as (-> & _ & _).
  apply bind_inv in H as ([] & w4 & Hw1 & H). apply f_write_inv in Hw1 as (_ & ->).
  apply bind_inv in H as ([] & w5 & Hw2 & H). apply f_write_inv in Hw2 as (_ & ->).
  apply bind_inv in H as (metadata' & w6 & Hset & H). apply lift_inv in Hset as (Hset & ->).
  apply bind_inv in H as ([] & w7 & Hsave & H). apply save_json_inv in Hsave as (_ & ->).
  injection H as <- <-.
  destruct metadata as [ | | | | | | m]; try discriminate Hset. injection Hset as <-.
  exists m, n. repeat (split; [assumption || reflexivity|]).
  cbn [fs ui]. rewrite !lookup_insert_eq, !insert_insert_eq, sapp_nil_l. reflexivity.
Qed.

(** What a create leaves in place. *)
Lemma create_document_frame (P : Platform) (now : datetime)
    (title category : string) (tags : list string) (content : string)
    (w w' : world) (name : string) :
  create_document P now title category tags content w = (Ok name, w') ->
  (exists body, fs w' !! doc_path name = Some (File body))
  /\ (forall p x, fs w !! p = Some x -> p <> METADATA_FILE -> fs w' !! p = Some x)
  /\ (forall p, p <> doc_path name -> p <> METADATA_FILE -> p <> DOCS_DIR ->
        fs w' !! p = fs w !! p).
Proof.
  intros H. apply create_document_inv in H as (m & n & _ & _ & _ & Hfree & _ & ->).
  cbn [fs]. split; [|split].
  - eexists. rewrite lookup_insert_ne by (apply not_eq_sym, doc_path_not_metadata).
    apply lookup_insert_eq.
  - intros p x Hp Hne. rewrite lookup_insert_ne by congruence.
    rewrite lookup_insert_ne by congruence. apply ensure_docs_keeps, Hp.
  - intros p H1 H2 H3. rewrite !lookup_insert_ne by congruence.
    apply ensure_docs_lookup, H3.
Qed.

Lemma run_creates_numbered (P : Platform) (date_str : string) (ops : list op) :
  Forall (same_day date_str) ops -> forallb is_create ops = true ->
  forall start w names w',
    1 <= start ->
    (forall k, 1 <= k < start -> occupied (fs w) date_str k) ->
    (forall k, start <= k -> ~ occupied (fs w) date_str k) ->
    run_ops P ops w = (Ok names, w') ->
    numbered_from start date_str names.
Proof.
  induction 1 as [|o ops Ho Hops IH]; intros Hc start w names w' Hs Hbelow Habove Hrun.
  - injection Hrun as <- <-. reflexivity.
  - destruct o as [now title category tags content|file_name]; [|discriminate].
    cbn [forallb is_create andb] in Hc. cbn [run_ops] in Hrun. simpl in Ho.
    apply bind_inv in Hrun as (name & w1 & Hcreate & Hrun).
    apply bind_inv in Hrun as (names' & w2 & Hrest & Hrun).
    injection Hrun as <- <-.
    pose proof (create_document_frame _ _ _ _ _ _ _ _ _ Hcreate) as ((body & Hbody) & Hkeep & Hframe).
    apply create_document_inv in Hcreate as (m & n & _ & Hn & -> & Hfree & Hocc & _).
    rewrite Ho in *.
    assert (n = start) as ->.
    { destruct (Nat.lt_trichotomy n start) as [Hlt|[->|Hgt]]; [|reflexivity|].
      - exfalso. apply (Hbelow n); [lia|exact Hfree].
      - exfalso. apply (Habove start); [lia|]. apply Hocc. lia. }
    specialize (IH Hc (S start) w1 names' w2 ltac:(lia)).
    unfold numbered_from in *. cbn [length seq map]. f_equal. apply IH.
    + intros k Hk. unfold occupied. destruct (decide (k = start)) as [->|Hne].
      * rewrite Hbody. discriminate.
      * specialize (Hbelow k ltac:(lia)). unfold occupied in Hbelow.
        destruct (fs w !! doc_path (filename_of date_str k)) as [x|] eqn:E;
          [|contradiction].
        rewrite (Hkeep _ _ E); [discriminate|apply doc_path_not_metadata].
    + intros k Hk. unfold occupied. rewrite Hframe.
      * apply Habove. lia.
      * intros Heq. apply doc_path_inj, filename_of_inj in Heq. lia.
      * apply doc_path_not_metadata.
      * apply doc_path_not_docs.
    + exact Hrest.
Qed.

(** C1, as the code has it. Every create returns the name
    [YYYY-MM-DD-#n.md] with the least suffix [n], from 1, whose file does not
    exist at that moment; it therefore never takes the name of an existing
    document, and it leaves every other existing file as it is, whatever
    deletes came before. [generate_filename] always returns. In a run of
    creates on one day with no delete in between, starting with no document
    of that day, the suffixes are 1, 2, 3, ... in order. *)
Theorem C1_first_free_suffix (P : Platform) :
  (forall now title category tags content w name w',
     create_document P now title category tags content w = (Ok name, w') ->
     exists n, 1 <= n /\ name = filename_of (strftime_date now) n
       /\ fs w !! doc_path name = None
       /\ (forall k, 1 <= k < n -> occupied (fs w) (strftime_date now) k)
       /\ (exists body, fs w' !! doc_path name = Some (File body))
       /\ (forall p x, fs w !! p = Some x -> p <> METADATA_FILE ->
             fs w' !! p = Some x))
  /\ (forall now w, exists name w', generate_filename now w = (Ok name, w'))
  /\ (forall date_str ops w names w',
        Forall (same_day date_str) ops -> forallb is_create ops = true ->
        (forall k, 1 <= k -> ~ occupied (fs w) date_str k) ->
        run_ops P ops w = (Ok names, w') ->
        numbered_from 1 date_str names).
Proof.
  split; [|split].
  - intros now title category tags content w name w' H.
    pose proof (create_document_frame _ _ _ _ _ _ _ _ _ H) as (Hbody & Hkeep & _).
    apply create_document_inv in H as (m & n & _ & Hn & -> & Hfree & Hocc & _).
    exists n. auto 10.
  - intros now w. destruct (generate_filename_spec now w) as (n & _ & H & _). eauto.
  - intros date_str ops w names w' Hday Hc Hnone Hrun.
    apply (run_creates_numbered P date_str ops Hday Hc 1 w names w'); auto.
    intros k Hk. lia.
Qed.

Lemma C1_first_free_suffix_witness :
  exists names w',
    run_ops sample_platform
      [Create sample_now "A" "C" ["x"] "first"; Create sample_now "B" "C" [] "second"]
      empty_world = (Ok names, w')
    /\ numbered_from 1 "2024-01-01" names.
Proof.
  destruct (C1_first_free_suffix sample_platform) as (_ & _ & Hrun).
  eexists _, _. split; [vm_compute; reflexivity|].
  eapply (Hrun "2024-01-01"
            [Create sample_now "A" "C" ["x"] "first";
             Create sample_now "B" "C" [] "second"] empty_world).
  - repeat constructor.
  - reflexivity.
  - intros k _ H. apply H. apply lookup_empty.
  - vm_compute. reflexivity.
Defined.

(** C1 as stated fails: after a delete the freed suffix is handed out again,
    so the suffixes of three creates on one day are 1, 2, 1. *)
Lemma C1_counterexample :
  Forall (same_day "2024-01-01") reuse_ops
  /\ fst (run_ops sample_platform reuse_ops empty_world)
     = Ok ["2024-01-01-#1.md"; "2024-01-01-#2.md"; "2024-01-01-#1.md"]
  /\ ~ numbered_from 1 "2024-01-01"
         ["2024-01-01-#1.md"; "2024-01-01-#2.md"; "2024-01-01-#1.md"].
Proof.
  split; [repeat constructor|]. split; [vm_compute; reflexivity|].
  unfold numbered_from. vm_compute. intros H. discriminate H.
Qed.

(** ** Editing a document *)

(** An edit through the form keeps the original file and makes a new one
    under a fresh name. *)
Lemma main_doc_edit_keeps_original (P : Platform) (now : datetime)
    (file_name title category tags content : string) (w w' : world) (x : node)
    (metadata : json) :
  load_json METADATA_FILE w = (Ok metadata, w) -> py_truth P metadata = true ->
  main_doc_edit P now file_name title category tags content w = (Ok tt, w') ->
  fs w !! doc_path file_name = Some x ->
  fs w' !! doc_path file_name = Some x
  /\ exists new_name, new_name <> file_name
       /\ fs w !! doc_path new_name = None
       /\ exists body, fs w' !! doc_path new_name = Some (File body).
Proof.
  unfold main_doc_edit. intros Hload Htruth H Hx.
  rewrite (bind_ok _ _ _ _ _ Hload), Htruth in H.
  apply bind_inv in H as (options & w1 & H1 & H). apply lift_inv in H1 as (_ & ->).
  apply bind_inv in H as (doc_meta & w1 & H1 & H). apply lift_inv in H1 as (_ & ->).
  apply bind_inv in H as (t0 & w1 & H1 & H). apply lift_inv in H1 as (_ & ->).
  apply bind_inv in H as (c0 & w1 & H1 & H). apply lift_inv in H1 as (_ & ->).
  apply bind_inv in H as (g0 & w1 & H1 & H). apply lift_inv in H1 as (_ & ->).
  apply bind_inv in H as (s0 & w1 & H1 & H). apply lift_inv in H1 as (_ & ->).
  apply bind_inv in H as (old & w1 & Hold & H).
  assert (w1 = w) as ->.
  { unfold load_markdown_file, bind in Hold. rewrite os_path_exists_eq in Hold.
    fold (doc_path file_name) in Hold. rewrite Hx in Hold.
    unfold read_text in Hold. rewrite Hx in Hold.
    destruct x as [bytes|]; [|discriminate].
    destruct (Utf8.valid bytes); [|discriminate]. injection Hold as _ <-. reflexivity. }
  apply bind_inv in H as (new_name & w2 & Hcreate & H).
  unfold st_show in H. injection H as <-.
  pose proof (create_document_frame _ _ _ _ _ _ _ _ _ Hcreate) as (Hbody & Hkeep & _).
  apply create_document_inv in Hcreate as (m & n & _ & _ & -> & Hfree & _ & ->).
  cbn [fs ui] in *. split.
  - apply Hkeep; [exact Hx|apply doc_path_not_metadata].
  - exists (filename_of (strftime_date now) n). split; [|split; [exact Hfree|]].
    + intros Heq. rewrite Heq in Hfree. congruence.
    + exact Hbody.
Qed.

(** C2. The claim is that an edit writes to the original document's filename.
    The code does otherwise: the "수정" branch calls [create_document], so
    editing the one document of the store leaves its file and its metadata
    entry as they were and adds a second file and a second entry, while the
    message names the original as modified. *)
Theorem C2_edit_adds_a_second_document :
  fst (main_doc_edit sample_platform sample_now "2024-01-01-#1.md"
         "A2" "C" "x" "new body" world_one_doc) = Ok tt
  /\ fs world_after_edit !! doc_path "2024-01-01-#1.md"
     = fs world_one_doc !! doc_path "2024-01-01-#1.md"
  /\ fs world_one_doc !! doc_path "2024-01-01-#2.md" = None
  /\ fs world_after_edit !! doc_path "2024-01-01-#2.md"
     = Some (File (front_text sample_platform "A2" "C" ["x"] +:+ "new body"))
  /\ fst (load_json METADATA_FILE world_one_doc)
     = Ok (JObj [("2024-01-01-#1.md", document_meta "A" "C" ["x"])])
  /\ fst (load_json METADATA_FILE world_after_edit)
     = Ok (JObj [("2024-01-01-#1.md", document_meta "A" "C" ["x"]);
                 ("2024-01-01-#2.md", document_meta "A2" "C" ["x"])])
  /\ ui world_after_edit
     = [StSuccess "문서 '2024-01-01-#1.md'이 추가되었습니다.";
        StSuccess "문서 '2024-01-01-#1.md'이 수정되었습니다."].
Proof. repeat split; vm_compute; reflexivity. Qed.

(** ** [delete_document] *)

Lemma dict_del_keys (k : string) (m : list (string * json)) :
  NoDup (map fst m) ->
  NoDup (map fst (dict_del k m)) /\ k ∉ map fst (dict_del k m).
Proof.
  induction m as [|[k' v'] m IH]; simpl; intros Hnd.
  - split; [constructor|]. intros H. inversion H.
  - apply NoDup_cons in Hnd as (Hk' & Hnd).
    destruct (String.eqb_spec k k') as [->|Hne]; [auto|].
    destruct (IH Hnd) as (IH1 & IH2). simpl. split.
    + apply NoDup_cons. split; [|exact IH1]. intros Hin. apply Hk'.
      clear -Hin. induction m as [|[k2 v2] m IHm]; simpl in *; [exact Hin|].
      destruct (String.eqb k k2); [right; exact Hin|].
      simpl in Hin. apply elem_of_cons in Hin as [->|Hin]; [left|right; auto].
    + intros Hin. apply elem_of_cons in Hin as [Heq|Hin]; [congruence|auto].
Qed.

Lemma dict_del_values (P : json -> Prop) (k : string) (m : list (string * json)) :
  Forall (fun kv => P (snd kv)) m -> Forall (fun kv => P (snd kv)) (dict_del k m).
Proof.
  induction 1 as [|[k' v'] m Hv Hm IH]; simpl; [constructor|].
  destruct (String.eqb k k'); [exact Hm|]. constructor; auto.
Qed.

Lemma dict_del_ok (k : string) (m : list (string * json)) :
  json_ok (JObj m) = true ->
  json_ok (JObj (dict_del k m)) = true /\ dict_mem k (dict_del k m) = false.
Proof.
  intros H. apply json_ok_obj in H as (Hnd & Hv). apply nodup_keys_iff in Hnd.
  destruct (dict_del_keys k m Hnd) as (H1 & H2). split.
  - apply json_ok_obj. split; [apply nodup_keys_iff, H1|].
    apply (dict_del_values (fun x => json_ok x = true)), Hv.
  - destruct (dict_mem k (dict_del k m)) eqn:E; [|reflexivity].
    apply dict_mem_elem in E. contradiction.
Qed.

(** A successful delete, spelled out: the metadata file is rewritten without
    the entry when the name is listed, and the document file is gone. *)
Lemma delete_document_inv (file_name : string) (w w' : world) :
  delete_document file_name w = (Ok tt, w') ->
  exists metadata store,
    load_json METADATA_FILE w = (Ok metadata, w)
    /\ ((exists m, metadata = JObj m /\ dict_mem file_name m = true
           /\ Utf8.valid (json_dumps (JObj (dict_del file_name m))) = true
           /\ store = <[METADATA_FILE :=
                          File (json_dumps (JObj (dict_del file_name m)))]> (fs w))
        \/ (py_contains file_name metadata = Ok false /\ store = fs w))
    /\ w' = World (delete (doc_path file_name) store) (ui w).
Proof.
  unfold delete_document. intros H.
  apply bind_inv in H as (metadata & w1 & Hload & H).
  pose proof (load_json_world Hload) as ->.
  apply bind_inv in H as (listed & w1 & Hin & H). apply lift_inv in Hin as (Hin & ->).
  apply bind_inv in H as ([] & w1 & Hmeta & H).
  fold (doc_path file_name) in H.
  assert (Hfile : forall w0 : world,
    (let* present := os_path_exists (doc_path file_name) in
     if present then os_remove (doc_path file_name) else ret tt) w0 = (Ok tt, w') ->
    w' = World (delete (doc_path file_name) (fs w0)) (ui w0)).
  { intros w0. unfold bind. rewrite os_path_exists_eq. unfold os_remove.
    destruct (fs w0 !! doc_path file_name) as [[bytes|]|] eqn:E.
    - rewrite E. intros [= <-]. reflexivity.
    - rewrite E. discriminate.
    - intros [= <-]. rewrite delete_id by exact E. symmetry. apply world_eta. }
  exists metadata. destruct listed.
  - apply bind_inv in Hmeta as (metadata' & w2 & Hdel & Hsave).
    apply lift_inv in Hdel as (Hdel & ->).
    destruct metadata as [ | | | | | | m]; try discriminate Hdel.
    unfold py_delitem in Hdel. destruct (dict_mem file_name m) eqn:Em; [|discriminate].
    injection Hdel as <-. apply save_json_inv in Hsave as (Hv & ->).
    eexists. split; [exact Hload|]. split; [left; exists m; auto|].
    apply Hfile in H. exact H.
  - injection Hmeta as <-. exists (fs w). split; [exact Hload|].
    split; [right; auto|]. apply Hfile, H.
Qed.



(** ** The site configuration builder *)

Lemma nav_documents_spec (items : list (string * json)) (nav0 : list (json * string)) :
  Forall (fun kv => is_Some (doc_label (snd kv))) items ->
  nav_documents items nav0 = Ok (nav0 ++ map doc_entry items).
Proof.
  intros H. revert nav0. induction H as [|[fname meta] items Hm Hi IH]; intros nav0.
  - simpl. rewrite app_nil_r. reflexivity.
  - cbn [nav_documents map]. unfold doc_entry at 1. simpl in Hm |- *.
    destruct Hm as (title & Ht). rewrite Ht. unfold doc_label in Ht.
    destruct (py_getitem meta "title") as [t|e]; [|discriminate].
    destruct (hashable t); [|discriminate]. injection Ht as ->.
    rewrite IH, <- app_assoc. reflexivity.
Qed.

Lemma build_config_nav (P : Platform)
    (metadata templates prompts keywords : list (string * json)) :
  Forall (fun kv => is_Some (doc_label (snd kv))) metadata ->
  exists cfg,
    build_config P (JObj metadata) (JObj templates) (JObj prompts) (JObj keywords)
    = Ok cfg
    /\ nav cfg = expected_nav metadata templates prompts keywords.
Proof.
  intros H. unfold build_config. cbn [py_items].
  rewrite (nav_documents_spec _ _ H). eexists. split; [reflexivity|].
  cbn [nav]. unfold expected_nav, append_if, page_if.
  destruct templates, prompts, keywords; cbn [py_truth];
    rewrite <- ?app_assoc, ?app_nil_r; reflexivity.
Qed.

(** A successful run of the builder, spelled out. *)
Lemma mkdocs_setup_inv (P : Platform) (w w' : world) :
  mkdocs_setup P w = (Ok tt, w') ->
  exists metadata templates prompts keywords cfg,
    load_json METADATA_FILE w = (Ok metadata, w)
    /\ load_json TEMPLATES_FILE w = (Ok templates, w)
    /\ load_json PROMPTS_FILE w = (Ok prompts, w)
    /\ load_json KEYWORDS_FILE w = (Ok keywords, w)
    /\ build_config P metadata templates prompts keywords = Ok cfg
    /\ let f1 := ensure_docs (<[MKDOCS_CONFIG := File (yaml_dump P cfg)]> (fs w)) in
       match f1 !! index_path with
       | Some _ => w' = World f1 (ui w)
       | None => f1 !! DOCS_DIR = Some Dir
                 /\ w' = World (<[index_path := File index_text]> f1) (ui w)
       end.
Proof.
  unfold mkdocs_setup. intros H.
  apply bind_inv in H as (metadata & w1 & H1 & H). pose proof (load_json_world H1) as ->.
  apply bind_inv in H as (templates & w1 & H2 & H). pose proof (load_json_world H2) as ->.
  apply bind_inv in H as (prompts & w1 & H3 & H). pose proof (load_json_world H3) as ->.
  apply bind_inv in H as (keywords & w1 & H4 & H). pose proof (load_json_world H4) as ->.
  apply bind_inv in H as (cfg & w1 & H5 & H). apply lift_inv in H5 as (H5 & ->).
  apply bind_inv in H as ([] & w1 & Ho & H). apply open_w_inv in Ho as (-> & _ & _).
  apply bind_inv in H as ([] & w2 & Hw & H). apply f_write_inv in Hw as (_ & ->).
  cbn [fs ui] in H. rewrite lookup_insert_eq, insert_insert_eq, sapp_nil_l in H.
  exists metadata, templates, prompts, keywords, cfg.
  repeat (split; [assumption|]).
  set (f0 := <[MKDOCS_CONFIG := File (yaml_dump P cfg)]> (fs w)) in *.
  apply bind_inv in H as (present & w3 & He & H).
  rewrite os_path_exists_eq in He. injection He as <- <-.
  apply bind_inv in H as ([] & w3 & Hd & H).
  assert (w3 = World (ensure_docs f0) (ui w)) as ->.
  { unfold ensure_docs. cbn [fs] in Hd. destruct (f0 !! DOCS_DIR) as [x|] eqn:E.
    - injection Hd as <-. reflexivity.
    - cbn [negb] in Hd. unfold os_makedirs in Hd. cbn [fs ui] in Hd.
      rewrite E in Hd. injection Hd as <-. reflexivity. }
  fold index_path in H. cbv zeta.
  apply bind_inv in H as (present & w3 & He & H).
  rewrite os_path_exists_eq in He. injection He as <- <-. cbn [fs] in H.
  destruct (ensure_docs f0 !! index_path) as [x|] eqn:E.
  - injection H as <-. reflexivity.
  - cbn [negb] in H. apply bind_inv in H as ([] & w3 & Ho & H).
    apply open_w_inv in Ho as (-> & _ & Hp). apply f_write_inv in H as (_ & ->).
    cbn [fs ui] in *. specialize (Hp E).
    rewrite lookup_insert_eq, insert_insert_eq, sapp_nil_l. split; [|reflexivity].
    unfold parent_check in Hp. change (os_path_dirname index_path) with DOCS_DIR in Hp.
    change (rstrip_sep DOCS_DIR) with DOCS_DIR in Hp. cbv iota in Hp. unfold DOCS_DIR at 1 in Hp.
    destruct (ensure_docs f0 !! DOCS_DIR) as [[bytes|]|]; try discriminate Hp. reflexivity.
Qed.

Lemma index_path_facts :
  index_path <> MKDOCS_CONFIG /\ index_path <> DOCS_DIR /\ DOCS_DIR <> MKDOCS_CONFIG.
Proof. repeat split; discriminate. Qed.

(** C3. The configuration the builder hands to [yaml.dump] has the
    navigation: Home for [index.md], then one entry per document in the order
    of the metadata store, labelled with the title and pointing to the
    filename, then Templates, Prompts and Keywords, each exactly when its
    store is not empty; a successful run writes that configuration to
    [mkdocs.yml]. For the metadata of the example and empty other stores the
    navigation is Home followed by the entry of "A". *)
Theorem C3_navigation (P : Platform) :
  (forall metadata templates prompts keywords,
     Forall (fun kv => is_Some (doc_label (snd kv))) metadata ->
     exists cfg,
       build_config P (JObj metadata) (JObj templates) (JObj prompts) (JObj keywords)
       = Ok cfg
       /\ nav cfg = expected_nav metadata templates prompts keywords)
  /\ (forall w w' metadata templates prompts keywords cfg,
        load_json METADATA_FILE w = (Ok metadata, w) ->
        load_json TEMPLATES_FILE w = (Ok templates, w) ->
        load_json PROMPTS_FILE w = (Ok prompts, w) ->
        load_json KEYWORDS_FILE w = (Ok keywords, w) ->
        build_config P metadata templates prompts keywords = Ok cfg ->
        mkdocs_setup P w = (Ok tt, w') ->
        fs w' !! MKDOCS_CONFIG = Some (File (yaml_dump P cfg)))
  /\ (load_json METADATA_FILE example_world = (Ok (JObj example_metadata), example_world)
      /\ exists cfg,
           build_config P (JObj example_metadata) (JObj []) (JObj []) (JObj []) = Ok cfg
           /\ nav cfg = [(JStr "Home", "index.md"); (JStr "A", "2024-01-01-#1.md")]).
Proof.
  split; [apply build_config_nav|]. split.
  - intros w w' metadata templates prompts keywords cfg H1 H2 H3 H4 H5 H.
    apply mkdocs_setup_inv in H
      as (metadata' & templates' & prompts' & keywords' & cfg' & E1 & E2 & E3 & E4 & E5 & Hw).
    rewrite H1 in E1. rewrite H2 in E2. rewrite H3 in E3. rewrite H4 in E4.
    injection E1 as <-. injection E2 as <-. injection E3 as <-. injection E4 as <-.
    rewrite H5 in E5. injection E5 as <-. cbv zeta in Hw.
    destruct index_path_facts as (F1 & F2 & F3).
    destruct (ensure_docs (<[MKDOCS_CONFIG:=File (yaml_dump P cfg)]> (fs w)) !! index_path);
      [|destruct Hw as (_ & Hw)]; subst w'; cbn [fs];
      rewrite ?(lookup_insert_ne _ index_path) by exact F1;
      rewrite ensure_docs_lookup by congruence; apply lookup_insert_eq.
  - split; [vm_compute; reflexivity|]. eexists. split; reflexivity.
Qed.

Lemma C3_navigation_witness :
  exists cfg w',
    build_config sample_platform (JObj example_metadata)
      (JObj sample_store) (JObj []) (JObj [("k", JStr "d")]) = Ok cfg
    /\ nav cfg = [(JStr "Home", "index.md"); (JStr "A", "2024-01-01-#1.md");
                  (JStr "Templates", "templates.md"); (JStr "Keywords", "keywords.md")]
    /\ mkdocs_setup sample_platform example_world = (Ok tt, w')
    /\ fs w' !! MKDOCS_CONFIG = Some (File "nav entries: 2").
Proof.
  destruct (C3_navigation sample_platform) as (Hnav & Hfile & _).
  destruct (Hnav example_metadata sample_store [] [("k", JStr "d")]) as (cfg & Hc & Hn).
  { repeat constructor; eexists; reflexivity. }
  exists cfg. eexists. split; [exact Hc|]. split; [exact Hn|].
  assert (Hrun : mkdocs_setup sample_platform example_world
                 = (Ok tt, snd (mkdocs_setup sample_platform example_world)))
    by (vm_compute; reflexivity).
  split; [exact Hrun|].
  rewrite (Hfile example_world _ (JObj example_metadata) (JObj []) (JObj []) (JObj [])
             _ ltac:(vm_compute; reflexivity) ltac:(reflexivity) ltac:(reflexivity)
             ltac:(reflexivity) ltac:(reflexivity) Hrun).
  reflexivity.
Defined.

(** ** What the builder leaves in place *)

Lemma keeps_ret {A} (p : string) (a : A) : keeps p (ret a).
Proof. intros w r w' x [= <- <-]. auto. Qed.

Lemma keeps_lift {A} (p : string) (r0 : result A) : keeps p (lift r0).
Proof. intros w r w' x [= <- <-]. auto. Qed.

Lemma keeps_bind {A B} (p : string) (m : M A) (k : A -> M B) :
  keeps p m -> (forall a, keeps p (k a)) -> keeps p (bind m k).
Proof.
  intros Hm Hk w r w' x H Hx. unfold bind in H.
  destruct (m w) as [[a|e] w1] eqn:E.
  - eapply Hk; [exact H|]. eapply Hm; eauto.
  - injection H as <- <-. eapply Hm; eauto.
Qed.

Lemma keeps_load_json (p file : string) : keeps p (load_json file).
Proof. intros w r w' x H Hx. rewrite (load_json_world H). exact Hx. Qed.

Lemma keeps_exists (p q : string) : keeps p (os_path_exists q).
Proof. intros w r w' x [= <- <-]. auto. Qed.

Lemma keeps_open_w (p q : string) : q <> p -> keeps p (open_w q).
Proof.
  intros Hne w r w' x H Hx. unfold open_w in H.
  destruct (fs w !! q) as [[bytes|]|].
  - injection H as <- <-. cbn [fs]. rewrite lookup_insert_ne by exact Hne. exact Hx.
  - injection H as <- <-. exact Hx.
  - destruct (parent_check q (fs w)); injection H as <- <-; [exact Hx|].
    cbn [fs]. rewrite lookup_insert_ne by exact Hne. exact Hx.
Qed.

Lemma keeps_f_write (p q text : string) : q <> p -> keeps p (f_write q text).
Proof.
  intros Hne w r w' x H Hx. unfold f_write in H.
  destruct (Utf8.valid text); [|injection H as <- <-; exact Hx].
  destruct (fs w !! q) as [[bytes|]|]; injection H as <- <-; cbn [fs];
    rewrite lookup_insert_ne by exact Hne; exact Hx.
Qed.

Lemma keeps_makedirs (p q : string) : keeps p (os_makedirs q).
Proof.
  intros w r w' x H Hx. unfold os_makedirs in H.
  destruct (fs w !! q) as [y|] eqn:E; injection H as <- <-; [exact Hx|].
  cbn [fs]. rewrite lookup_insert_ne; [exact Hx|]. intros <-. congruence.
Qed.

(** Creating a file only when nothing is there keeps what is there. *)
Lemma keeps_create_if_absent (p text : string) :
  keeps p (let* present := os_path_exists p in
           if negb present then open_w p >> f_write p text else ret tt).
Proof.
  intros w r w' x H Hx. unfold bind at 1 in H. rewrite os_path_exists_eq, Hx in H.
  injection H as <- <-. exact Hx.
Qed.

Lemma mkdocs_setup_keeps_index (P : Platform) : keeps index_path (mkdocs_setup P).
Proof.
  destruct index_path_facts as (F1 & F2 & F3). unfold mkdocs_setup.
  do 4 (apply keeps_bind; [apply keeps_load_json|intros ?]).
  apply keeps_bind; [apply keeps_lift|intros cfg].
  apply keeps_bind; [apply keeps_open_w; congruence|intros ?].
  apply keeps_bind; [apply keeps_f_write; congruence|intros ?].
  apply keeps_bind; [apply keeps_exists|intros present].
  apply keeps_bind; [destruct present; [apply keeps_ret|apply keeps_makedirs]|intros ?].
  apply keeps_create_if_absent.
Qed.

Lemma consistent_index (f : gmap string node) :
  fs_consistent f -> is_Some (f !! index_path) -> f !! DOCS_DIR = Some Dir.
Proof.
  intros Hc Hi. specialize (Hc index_path Hi). unfold parent_check in Hc.
  change (os_path_dirname index_path) with DOCS_DIR in Hc.
  change (rstrip_sep DOCS_DIR) with DOCS_DIR in Hc. cbv iota in Hc.
  unfold DOCS_DIR at 1 in Hc.
  destruct (f !! DOCS_DIR) as [[bytes|]|]; try discriminate Hc. reflexivity.
Qed.

Lemma parent_check_index (f : gmap string node) :
  f !! DOCS_DIR = Some Dir -> parent_check index_path f = None.
Proof.
  intros H. unfold parent_check.
  change (os_path_dirname index_path) with DOCS_DIR.
  change (rstrip_sep DOCS_DIR) with DOCS_DIR. cbv iota. unfold DOCS_DIR at 1.
  rewrite H. reflexivity.
Qed.

(** The builder returns on stores it can read and a file system it can
    write to. *)
Lemma mkdocs_setup_returns (P : Platform) (w : world)
    (metadata templates prompts keywords : json) (cfg : mkdocs_config) :
  load_json METADATA_FILE w = (Ok metadata, w) ->
  load_json TEMPLATES_FILE w = (Ok templates, w) ->
  load_json PROMPTS_FILE w = (Ok prompts, w) ->
  load_json KEYWORDS_FILE w = (Ok keywords, w) ->
  build_config P metadata templates prompts keywords = Ok cfg ->
  Utf8.valid (yaml_dump P cfg) = true ->
  fs w !! MKDOCS_CONFIG <> Some Dir ->
  (forall bytes, fs w !! DOCS_DIR <> Some (File bytes)) ->
  exists w', mkdocs_setup P w = (Ok tt, w').
Proof.
  intros H1 H2 H3 H4 H5 Hv Hm Hd. destruct index_path_facts as (F1 & F2 & F3).
  unfold mkdocs_setup.
  rewrite (bind_ok _ _ _ _ _ H1), (bind_ok _ _ _ _ _ H2), (bind_ok _ _ _ _ _ H3),
    (bind_ok _ _ _ _ _ H4).
  unfold bind at 1, lift at 1. rewrite H5.
  pose proof (write_file_succeeds MKDOCS_CONFIG (yaml_dump P cfg) w Hm eq_refl Hv) as Hw.
  unfold bind at 1 in Hw.
  destruct (open_w MKDOCS_CONFIG w) as [[[]|e] w1] eqn:Eo; [|discriminate Hw].
  unfold bind at 1. rewrite Eo. unfold bind at 1. rewrite Hw.
  set (f0 := <[MKDOCS_CONFIG := File (yaml_dump P cfg)]> (fs w)).
  assert (Hdocs : f0 !! DOCS_DIR = fs w !! DOCS_DIR).
  { apply lookup_insert_ne. congruence. }
  unfold bind at 1. rewrite os_path_exists_eq. cbn [fs].
  assert (Hstep : exists f1,
    f1 !! DOCS_DIR = Some Dir
    /\ (if negb (match f0 !! DOCS_DIR with Some _ => true | None => false end)
        then os_makedirs DOCS_DIR else ret tt) (World f0 (ui w))
       = (Ok tt, World f1 (ui w))).
  { destruct (f0 !! DOCS_DIR) as [[bytes|]|] eqn:E.
    - exfalso. apply (Hd bytes). symmetry. exact Hdocs.
    - exists f0. split; [exact E|reflexivity].
    - exists (<[DOCS_DIR := Dir]> f0). split; [apply lookup_insert_eq|].
      cbn [negb]. unfold os_makedirs. cbn [fs ui]. rewrite E. reflexivity. }
  destruct Hstep as (f1 & Hdir & Hmk).
  unfold bind at 1. rewrite Hmk. fold index_path.
  unfold bind at 1. rewrite os_path_exists_eq. cbn [fs].
  destruct (f1 !! index_path) as [x|] eqn:Ei; cbn [negb].
  - eexists. reflexivity.
  - eexists. apply write_file_succeeds; cbn [fs].
    + rewrite Ei. discriminate.
    + apply parent_check_index, Hdir.
    + reflexivity.
Qed.

(** C9. Whenever the builder returns, the docs directory exists (as a
    directory, in a file system whose paths sit in directories) and the
    landing file [docs/index.md] exists; the landing file is written, with
    the default text, only when nothing was there; whatever already is at
    [docs/index.md] is still there after any run of the builder, whether the
    run returns or raises; and the builder does return on stores it can read
    and a file system it can write to. *)
Theorem C9_docs_and_landing_file (P : Platform) (w : world) :
  (forall r w' x, mkdocs_setup P w = (r, w') ->
     fs w !! index_path = Some x -> fs w' !! index_path = Some x)
  /\ (forall w', mkdocs_setup P w = (Ok tt, w') ->
        is_Some (fs w' !! DOCS_DIR)
        /\ is_Some (fs w' !! index_path)
        /\ (fs w !! index_path = None ->
            fs w' !! index_path = Some (File index_text)
            /\ fs w' !! DOCS_DIR = Some Dir)
        /\ (fs_consistent (fs w) -> fs w' !! DOCS_DIR = Some Dir))
  /\ (forall metadata templates prompts keywords cfg,
        load_json METADATA_FILE w = (Ok metadata, w) ->
        load_json TEMPLATES_FILE w = (Ok templates, w) ->
        load_json PROMPTS_FILE w = (Ok prompts, w) ->
        load_json KEYWORDS_FILE w = (Ok keywords, w) ->
        build_config P metadata templates prompts keywords = Ok cfg ->
        Utf8.valid (yaml_dump P cfg) = true ->
        fs w !! MKDOCS_CONFIG <> Some Dir ->
        (forall bytes, fs w !! DOCS_DIR <> Some (File bytes)) ->
        exists w', mkdocs_setup P w = (Ok tt, w')).
Proof.
  split; [|split; [|apply mkdocs_setup_returns]].
  - intros r w' x H Hx. eapply mkdocs_setup_keeps_index; eauto.
  - intros w' H.
    apply mkdocs_setup_inv in H
      as (metadata & templates & prompts & keywords & cfg & _ & _ & _ & _ & _ & Hw).
    cbv zeta in Hw. destruct index_path_facts as (F1 & F2 & F3).
    set (f0 := <[MKDOCS_CONFIG := File (yaml_dump P cfg)]> (fs w)) in *.
    assert (Hdocs : is_Some (ensure_docs f0 !! DOCS_DIR)).
    { unfold ensure_docs. destruct (f0 !! DOCS_DIR) as [x|] eqn:E; [rewrite E; eauto|].
      rewrite lookup_insert_eq. eauto. }
    assert (Hidx : ensure_docs f0 !! index_path = fs w !! index_path).
    { rewrite ensure_docs_lookup by exact F2. apply lookup_insert_ne. congruence. }
    assert (Hd0 : fs w !! DOCS_DIR = Some Dir -> ensure_docs f0 !! DOCS_DIR = Some Dir).
    { intros Hd. apply ensure_docs_keeps. unfold f0.
      rewrite lookup_insert_ne by congruence. exact Hd. }
    destruct (ensure_docs f0 !! index_path) as [x|] eqn:E.
    + subst w'. cbn [fs]. split; [exact Hdocs|]. split; [rewrite E; eauto|].
      split; [intros Hn; congruence|].
      intros Hc. apply Hd0, (consistent_index _ Hc). rewrite <- Hidx. eauto.
    + destruct Hw as (Hd & ->). cbn [fs].
      rewrite lookup_insert_eq, lookup_insert_ne by exact F2.
      split; [rewrite Hd; eauto|]. split; [eauto|]. split; [auto|]. intros _. exact Hd.
Qed.

Lemma C9_docs_and_landing_file_witness :
  mkdocs_setup sample_platform example_world = (Ok tt, world_built)
  /\ fs world_built !! DOCS_DIR = Some Dir
  /\ fs world_built !! index_path = Some (File index_text)
  /\ fs world_rebuilt !! index_path = Some (File "# Mine").
Proof.
  assert (H1 : mkdocs_setup sample_platform example_world = (Ok tt, world_built))
    by (vm_compute; reflexivity).
  destruct (proj1 (proj2 (C9_docs_and_landing_file sample_platform example_world)) _ H1)
    as (_ & _ & Hnew & _).
  destruct (Hnew ltac:(reflexivity)) as (Hi & Hd).
  split; [exact H1|]. split; [exact Hd|]. split; [exact Hi|].
  eapply (proj1 (C9_docs_and_landing_file sample_platform world_edited_index)).
  - unfold world_rebuilt. apply surjective_pairing.
  - vm_compute. reflexivity.
Defined.

(** * Further properties of [app.py] *)

(** ** Stores: reading and writing *)

Lemma load_json_not_dir (p : string) (w w' : world) (v : json) :
  load_json p w = (Ok v, w') -> fs w !! p <> Some Dir.
Proof. intros H Hd. rewrite (load_json_dir _ _ Hd) in H. discriminate. Qed.

(** Two worlds that hold the same at a path load the same from it. *)
Lemma load_json_same (file : string) (w w' : world) (v : json) :
  load_json file w = (Ok v, w) -> fs w' !! file = fs w !! file ->
  load_json file w' = (Ok v, w').
Proof.
  intros H Hf. pose proof (load_json_fs file w' w Hf) as Hr. rewrite H in Hr.
  destruct (load_json file w') as [r w2] eqn:E. rewrite (load_json_world E).
  cbn [fst] in Hr. rewrite Hr. reflexivity.
Qed.

(** Saving a well-formed, encodable value and loading it again. *)
Lemma store_saved (file : string) (v : json) (w : world) :
  json_ok v = true -> json_text_ok v = true ->
  fs w !! file <> Some Dir -> parent_check file (fs w) = None ->
  save_json file v w = (Ok tt, World (<[file := File (json_dumps v)]> (fs w)) (ui w))
  /\ load_json file (World (<[file := File (json_dumps v)]> (fs w)) (ui w))
     = (Ok v, World (<[file := File (json_dumps v)]> (fs w)) (ui w)).
Proof.
  intros Hok Ht Hd Hp. pose proof (valid_json_dumps v Ht) as Hv. split.
  - apply save_json_succeeds; assumption.
  - rewrite (load_json_file file _ (json_dumps v)); [|apply lookup_insert_eq|exact Hv].
    rewrite (json_dumps_newlines _ Hok), (json_loads_dumps _ Hok). reflexivity.
Qed.

(** X1. [load_json] only reads: whatever it returns or raises, the world is
    as before, and the outcome depends on nothing but what the file system
    holds at the path. *)
Theorem load_json_reads_only (file_path : string) (w : world) :
  snd (load_json file_path w) = w
  /\ forall w2, fs w2 !! file_path = fs w !! file_path ->
       fst (load_json file_path w2) = fst (load_json file_path w).
Proof.
  split.
  - destruct (load_json file_path w) as [r w'] eqn:E. apply (load_json_world E).
  - intros w2 H. apply load_json_fs, H.
Qed.

Lemma load_json_reads_only_witness :
  let w := World {[ "keywords.json" := File "[1, 2]" ]} [] in
  snd (load_json "keywords.json" w) = w
  /\ fst (load_json "keywords.json" (World (fs w) [StInfo "shown"]))
     = Ok (JArr [JInt 1; JInt 2]).
Proof.
  intros w. destruct (load_json_reads_only "keywords.json" w) as (Hw & Hfs).
  split; [exact Hw|]. rewrite (Hfs (World (fs w) [StInfo "shown"])) by reflexivity.
  vm_compute. reflexivity.
Defined.

(** An exception of [load_json] on the metadata store comes out of every
    operation that starts by loading it, with the world as it was. *)
Lemma metadata_error_propagates (P : Platform) (now : datetime)
    (title category : string) (tags : list string) (content file_name : string)
    (e : exn) (w : world) :
  load_json METADATA_FILE w = (Raise e, w) ->
  create_document P now title category tags content w = (Raise e, w)
  /\ delete_document file_name w = (Raise e, w)
  /\ mkdocs_setup P w = (Raise e, w).
Proof.
  intros H. unfold create_document, delete_document, mkdocs_setup.
  rewrite !(bind_raise _ _ _ _ _ H). auto.
Qed.

(** X2. A path that is a directory passes the existence test of [load_json]
    and makes the open fail: [IsADirectoryError] is raised, not the empty
    mapping returned. Nothing catches what [load_json] raises: when
    [metadata.json] is a directory, or holds bytes that are not UTF-8,
    [create_document], [delete_document] and [mkdocs_setup] raise the same
    exception before they write anything. *)
Theorem load_json_errors_propagate (P : Platform) (now : datetime)
    (title category : string) (tags : list string) (content file_name : string)
    (w : world) :
  (forall file_path, fs w !! file_path = Some Dir ->
     load_json file_path w = (Raise IsADirectoryError, w))
  /\ (forall e,
        fs w !! METADATA_FILE = Some Dir /\ e = IsADirectoryError
        \/ (exists bytes, fs w !! METADATA_FILE = Some (File bytes)
                          /\ Utf8.valid bytes = false) /\ e = UnicodeDecodeError ->
        create_document P now title category tags content w = (Raise e, w)
        /\ delete_document file_name w = (Raise e, w)
        /\ mkdocs_setup P w = (Raise e, w)).
Proof.
  split; [intros file_path; apply load_json_dir|].
  intros e H. apply metadata_error_propagates.
  destruct H as [(Hd & ->)|((bytes & Hf & Hv) & ->)].
  - apply load_json_dir, Hd.
  - apply (load_json_undecodable _ _ _ Hf Hv).
Qed.

Lemma load_json_errors_propagate_witness :
  let w := World {[ METADATA_FILE := File byte_ff ]} [] in
  load_json "docs" (World {[ "docs" := Dir ]} [])
  = (Raise IsADirectoryError, World {[ "docs" := Dir ]} [])
  /\ create_document sample_platform sample_now "A" "C" [] "body" w
     = (Raise UnicodeDecodeError, w)
  /\ delete_document "2024-01-01-#1.md" w = (Raise UnicodeDecodeError, w)
  /\ mkdocs_setup sample_platform w = (Raise UnicodeDecodeError, w).
Proof.
  intros w. split.
  - apply (proj1 (load_json_errors_propagate sample_platform sample_now "A" "C" []
                    "body" "2024-01-01-#1.md" (World {[ "docs" := Dir ]} []))).
    reflexivity.
  - apply (proj2 (load_json_errors_propagate sample_platform sample_now "A" "C" []
                    "body" "2024-01-01-#1.md" w)).
    right. split; [|reflexivity]. exists byte_ff. split; reflexivity.
Defined.

(** X3. What [load_json] returns is a well-formed value (every dict in it has
    each key once), and it survives being saved: whenever [save_json] of a
    loaded value returns, at any path, [load_json] there returns the value
    again. *)
Theorem load_save_load (file_path : string) (w w1 : world) (v : json) :
  load_json file_path w = (Ok v, w1) ->
  json_ok v = true
  /\ forall target w2 w3, save_json target v w2 = (Ok tt, w3) ->
       load_json target w3 = (Ok v, w3).
Proof.
  intros H. pose proof (load_json_ok _ _ _ _ H) as Hok. split; [exact Hok|].
  intros target w2 w3 Hs. apply save_json_inv in Hs as (Hv & ->).
  rewrite (load_json_file target _ (json_dumps v)); [|apply lookup_insert_eq|exact Hv].
  rewrite (json_dumps_newlines _ Hok), (json_loads_dumps _ Hok). reflexivity.
Qed.

Lemma load_save_load_witness :
  let w := World {[ "prompts.json" :=
                      File (sq "{'a': 1, 'b': [true, null], 'a': 'last'}") ]} [] in
  let v := JObj [("a", JStr "last"); ("b", JArr [JBool true; JNull])] in
  let w3 := snd (save_json "copy.json" v w) in
  load_json "prompts.json" w = (Ok v, w)
  /\ save_json "copy.json" v w = (Ok tt, w3)
  /\ load_json "copy.json" w3 = (Ok v, w3).
Proof.
  intros w v w3.
  assert (H : load_json "prompts.json" w = (Ok v, w)) by (vm_compute; reflexivity).
  assert (Hs : save_json "copy.json" v w = (Ok tt, w3)) by (vm_compute; reflexivity).
  split; [exact H|]. split; [exact Hs|].
  apply (proj2 (load_save_load _ _ _ _ H) "copy.json" w w3 Hs).
Defined.

(** X4. A successful [save_json] replaces what the path held by the encoded
    value and touches no other path, so what any other store loads as is
    unchanged. *)
Theorem save_json_other_paths (file_path : string) (data : json) (w w' : world) :
  save_json file_path data w = (Ok tt, w') ->
  fs w' !! file_path = Some (File (json_dumps data))
  /\ (forall p, p <> file_path -> fs w' !! p = fs w !! p)
  /\ (forall other, other <> file_path ->
        fst (load_json other w') = fst (load_json other w))
  /\ ui w' = ui w.
Proof.
  intros H. apply save_json_inv in H as (_ & ->). cbn [fs ui].
  split; [apply lookup_insert_eq|].
  assert (Hframe : forall p, p <> file_path ->
            <[file_path := File (json_dumps data)]> (fs w) !! p = fs w !! p).
  { intros p Hp. apply lookup_insert_ne. congruence. }
  split; [exact Hframe|]. split; [|reflexivity].
  intros other Ho. apply load_json_fs. cbn [fs]. apply Hframe, Ho.
Qed.

Lemma save_json_other_paths_witness :
  let w := World {[ "prompts.json" := File (sq "{'p': 'text'}") ]} [] in
  let w' := snd (save_json "templates.json" (JObj sample_store) w) in
  save_json "templates.json" (JObj sample_store) w = (Ok tt, w')
  /\ fst (load_json "prompts.json" w') = Ok (JObj [("p", JStr "text")]).
Proof.
  intros w w'.
  assert (H : save_json "templates.json" (JObj sample_store) w = (Ok tt, w'))
    by (vm_compute; reflexivity).
  split; [exact H|].
  destruct (save_json_other_paths _ _ _ _ H) as (_ & _ & Hother & _).
  rewrite (Hother "prompts.json") by discriminate. vm_compute. reflexivity.
Defined.

(** X5. [save_json] creates no directory: at a path that does not exist and
    whose directory part is not a directory of the file system the open
    fails ([FileNotFoundError] when the directory is missing,
    [NotADirectoryError] when it is a regular file), a path that is a
    directory gives [IsADirectoryError], and in each case nothing is
    written. *)
Theorem save_json_cannot_open (file_path : string) (data : json) (w : world) :
  (forall e, fs w !! file_path = None -> parent_check file_path (fs w) = Some e ->
     save_json file_path data w = (Raise e, w))
  /\ (fs w !! file_path = None -> fs w !! os_path_dirname file_path = None ->
      rstrip_sep (os_path_dirname file_path) <> EmptyString ->
      save_json file_path data w = (Raise FileNotFoundError, w))
  /\ (fs w !! file_path = Some Dir ->
      save_json file_path data w = (Raise IsADirectoryError, w)).
Proof.
  assert (Hopen : forall e, fs w !! file_path = None ->
            parent_check file_path (fs w) = Some e ->
            save_json file_path data w = (Raise e, w)).
  { intros e Hn Hp. unfold save_json, bind, open_w. rewrite Hn, Hp. reflexivity. }
  split; [exact Hopen|]. split.
  - intros Hn Hd Hr. apply Hopen; [exact Hn|]. unfold parent_check. rewrite Hd.
    destruct (rstrip_sep (os_path_dirname file_path)); [contradiction|reflexivity].
  - intros Hd. unfold save_json, bind, open_w. rewrite Hd. reflexivity.
Qed.

Lemma save_json_cannot_open_witness :
  save_json "backup/metadata.json" (JObj []) empty_world
  = (Raise FileNotFoundError, empty_world)
  /\ save_json "docs" (JObj []) (World {[ "docs" := Dir ]} [])
     = (Raise IsADirectoryError, World {[ "docs" := Dir ]} []).
Proof.
  split.
  - apply (proj1 (proj2 (save_json_cannot_open "backup/metadata.json" (JObj []) empty_world)));
      [reflexivity|reflexivity|vm_compute; discriminate].
  - apply (proj2 (proj2 (save_json_cannot_open "docs" (JObj []) (World {[ "docs" := Dir ]} []))));
      reflexivity.
Defined.

(** ** Names of documents are plain file names *)

Lemma no_sep_app (a b : string) : no_sep (a +:+ b) = no_sep a && no_sep b.
Proof.
  induction a as [|c a IH]; [reflexivity|].
  rewrite sapp_cons. cbn [no_sep]. rewrite IH, andb_assoc. reflexivity.
Qed.

Lemma all_ascii_app (a b : string) : all_ascii (a +:+ b) = all_ascii a && all_ascii b.
Proof.
  induction a as [|c a IH]; [reflexivity|].
  rewrite sapp_cons. cbn [all_ascii]. rewrite IH, andb_assoc. reflexivity.
Qed.

Lemma no_sep_uint (d : uint) : no_sep (str_uint d) = true.
Proof. induction d; simpl; auto. Qed.

Lemma plain_zeros (k : nat) :
  no_sep (string_of_list_ascii (repeat "0"%char k)) = true
  /\ all_ascii (string_of_list_ascii (repeat "0"%char k)) = true.
Proof. induction k as [|k [IH1 IH2]]; [split; reflexivity|]. split; simpl; assumption. Qed.

Lemma plain_pad (n : nat) (s : string) :
  no_sep s = true -> all_ascii s = true ->
  no_sep (pad n s) = true /\ all_ascii (pad n s) = true.
Proof.
  intros H1 H2. unfold pad. rewrite no_sep_app, all_ascii_app, H1, H2.
  destruct (plain_zeros (n - String.length s)) as [-> ->]. split; reflexivity.
Qed.

Lemma plain_str_of_nat (n : nat) :
  no_sep (str_of_nat n) = true /\ all_ascii (str_of_nat n) = true.
Proof. split; [apply no_sep_uint|apply all_ascii_uint]. Qed.

Lemma plain_date (now : datetime) :
  no_sep (strftime_date now) = true /\ all_ascii (strftime_date now) = true.
Proof.
  unfold strftime_date, two.
  destruct (plain_pad 4 _ (proj1 (plain_str_of_nat (year now)))
              (proj2 (plain_str_of_nat (year now)))) as [Y1 Y2].
  destruct (plain_pad 2 _ (proj1 (plain_str_of_nat (month now)))
              (proj2 (plain_str_of_nat (month now)))) as [M1 M2].
  destruct (plain_pad 2 _ (proj1 (plain_str_of_nat (day now)))
              (proj2 (plain_str_of_nat (day now)))) as [D1 D2].
  rewrite !no_sep_app, !all_ascii_app, Y1, Y2, M1, M2, D1, D2. split; reflexivity.
Qed.

Lemma plain_filename (now : datetime) (n : nat) :
  no_sep (filename_of (strftime_date now) n) = true
  /\ all_ascii (filename_of (strftime_date now) n) = true.
Proof.
  unfold filename_of. destruct (plain_date now) as [D1 D2].
  destruct (plain_str_of_nat n) as [N1 N2].
  rewrite !no_sep_app, !all_ascii_app, D1, D2, N1, N2. split; reflexivity.
Qed.

Lemma head_of_no_sep (s : string) : no_sep s = true -> head_of s = None.
Proof.
  induction s as [|c s IH]; [reflexivity|]. cbn [no_sep head_of].
  intros H. apply andb_true_iff in H as (Hc & Hs). rewrite (IH Hs).
  destruct (Ascii.eqb c "/"); [discriminate|reflexivity].
Qed.

Lemma doc_path_plain (b : string) :
  no_sep b = true -> doc_path b = "docs/" +:+ b /\ os_path_dirname (doc_path b) = DOCS_DIR.
Proof.
  intros H.
  assert (Hd : doc_path b = "docs/" +:+ b).
  { destruct (doc_path_cases b) as [(Hs & _)|(_ & Hd)]; [|exact Hd].
    destruct b as [|c b]; [discriminate|]. cbn [no_sep starts_with_sep] in *.
    rewrite Hs in H. discriminate. }
  split; [exact Hd|]. rewrite Hd. unfold os_path_dirname.
  do 5 rewrite sapp_cons. rewrite sapp_nil_l. cbn [head_of].
  rewrite (head_of_no_sep b H). reflexivity.
Qed.

(** A document can be made in [docs] once [docs] is a directory. *)
Lemma parent_check_doc (b : string) (f : gmap string node) :
  no_sep b = true -> f !! DOCS_DIR = Some Dir -> parent_check (doc_path b) f = None.
Proof.
  intros Hb Hf. unfold parent_check. rewrite (proj2 (doc_path_plain b Hb)).
  change (rstrip_sep DOCS_DIR) with DOCS_DIR. cbv iota. unfold DOCS_DIR at 1.
  rewrite Hf. reflexivity.
Qed.

Lemma ensure_docs_dir (f : gmap string node) :
  (forall bytes, f !! DOCS_DIR <> Some (File bytes)) -> ensure_docs f !! DOCS_DIR = Some Dir.
Proof.
  intros H. unfold ensure_docs. destruct (f !! DOCS_DIR) as [[bytes|]|] eqn:E.
  - destruct (H bytes). reflexivity.
  - exact E.
  - apply lookup_insert_eq.
Qed.

Lemma ensure_docs_idem (f : gmap string node) : ensure_docs (ensure_docs f) = ensure_docs f.
Proof.
  unfold ensure_docs. destruct (f !! DOCS_DIR) eqn:E; [rewrite E; reflexivity|].
  rewrite lookup_insert_eq. reflexivity.
Qed.

(** ** [generate_filename] reserves nothing *)

(** The first free suffix is determined by which document files exist. *)
Lemma first_free_unique (f g : gmap string node) (date_str : string) (n n' : nat) :
  (forall k, f !! doc_path (filename_of date_str k) = None
             <-> g !! doc_path (filename_of date_str k) = None) ->
  1 <= n -> f !! doc_path (filename_of date_str n) = None ->
  (forall k, 1 <= k < n -> occupied f date_str k) ->
  1 <= n' -> g !! doc_path (filename_of date_str n') = None ->
  (forall k, 1 <= k < n' -> occupied g date_str k) ->
  n = n'.
Proof.
  intros Hsame Hn Hf Hocc Hn' Hg Hocc'.
  destruct (Nat.lt_trichotomy n n') as [Hlt|[Heq|Hgt]]; [|exact Heq|].
  - exfalso. apply (Hocc' n); [lia|]. apply Hsame, Hf.
  - exfalso. apply (Hocc n'); [lia|]. apply Hsame, Hg.
Qed.

(** X6. [generate_filename] always returns; its only effect is to create
    [docs] when nothing is there; the name it returns is not taken and is not
    reserved: a second call returns the same name. *)
Theorem generate_filename_reserves_nothing (now : datetime) (w : world) :
  exists name,
    generate_filename now w = (Ok name, World (ensure_docs (fs w)) (ui w))
    /\ fs w !! doc_path name = None
    /\ ensure_docs (fs w) !! doc_path name = None
    /\ generate_filename now (World (ensure_docs (fs w)) (ui w))
       = (Ok name, World (ensure_docs (fs w)) (ui w)).
Proof.
  destruct (generate_filename_spec now w) as (n & Hn & Hg & Hfree & Hocc).
  destruct (generate_filename_spec now (World (ensure_docs (fs w)) (ui w)))
    as (n' & Hn' & Hg' & Hfree' & Hocc').
  cbn [fs ui] in *. rewrite ensure_docs_idem in Hg'.
  assert (Hsame : forall k, fs w !! doc_path (filename_of (strftime_date now) k) = None
             <-> ensure_docs (fs w) !! doc_path (filename_of (strftime_date now) k) = None).
  { intros k. rewrite ensure_docs_lookup by apply doc_path_not_docs. reflexivity. }
  assert (n = n') as <- by (eapply first_free_unique; eauto).
  exists (filename_of (strftime_date now) n). auto.
Qed.

(** X7. The names [generate_filename] gives out are plain ASCII file names
    without a path separator, so the file of a new document is
    [docs/<name>], directly inside [docs]. *)
Theorem generated_names_stay_in_docs (now : datetime) (w w' : world) (name : string) :
  generate_filename now w = (Ok name, w') ->
  no_sep name = true /\ all_ascii name = true
  /\ doc_path name = "docs/" +:+ name
  /\ os_path_dirname (doc_path name) = DOCS_DIR.
Proof.
  intros H. destruct (generate_filename_spec now w) as (n & _ & Hg & _).
  rewrite Hg in H. injection H as <- _.
  destruct (plain_filename now n) as (Hsep & Hascii).
  destruct (doc_path_plain _ Hsep) as (Hpath & Hdir). auto.
Qed.

Lemma generated_names_stay_in_docs_witness :
  doc_path "2024-01-01-#1.md" = "docs/2024-01-01-#1.md"
  /\ os_path_dirname (doc_path "2024-01-01-#1.md") = DOCS_DIR.
Proof.
  destruct (generated_names_stay_in_docs sample_now empty_world
              (World (ensure_docs ∅) []) "2024-01-01-#1.md")
    as (_ & _ & Hpath & Hdir); [vm_compute; reflexivity|].
  split; [exact Hpath|exact Hdir].
Defined.

(** ** [create_document], step by step *)

Lemma open_w_succeeds (p : string) (w : world) :
  fs w !! p <> Some Dir -> parent_check p (fs w) = None ->
  open_w p w = (Ok tt, World (<[p := File EmptyString]> (fs w)) (ui w)).
Proof.
  intros Hd Hp. unfold open_w.
  destruct (fs w !! p) as [[bytes|]|]; [reflexivity|contradiction|].
  rewrite Hp. reflexivity.
Qed.

Lemma f_write_succeeds (p text old : string) (w : world) :
  Utf8.valid text = true -> fs w !! p = Some (File old) ->
  f_write p text w = (Ok tt, World (<[p := File (old +:+ text)]> (fs w)) (ui w)).
Proof. intros Hv Hf. unfold f_write. rewrite Hv, Hf. reflexivity. Qed.

(** With [docs] not a regular file and text that can be encoded, the
    document file is written under the first free name, and what is left of
    [create_document] is the update of the metadata store. *)
Lemma create_document_file (P : Platform) (now : datetime)
    (title category : string) (tags : list string) (content : string)
    (w : world) (metadata : json) :
  load_json METADATA_FILE w = (Ok metadata, w) ->
  (forall bytes, fs w !! DOCS_DIR <> Some (File bytes)) ->
  Utf8.valid (front_text P title category tags) = true ->
  Utf8.valid content = true ->
  exists n, 1 <= n
    /\ fs w !! doc_path (filename_of (strftime_date now) n) = None
    /\ (forall k, 1 <= k < n -> occupied (fs w) (strftime_date now) k)
    /\ create_document P now title category tags content w
       = create_document_register metadata (filename_of (strftime_date now) n)
           title category tags
           (World (<[doc_path (filename_of (strftime_date now) n) :=
                       File (front_text P title category tags +:+ content)]>
                     (ensure_docs (fs w))) (ui w)).
Proof.
  intros Hload Hdocs Hfront Hcontent.
  destruct (generate_filename_spec now w) as (n & Hn & Hg & Hfree & Hocc).
  exists n. repeat (split; [assumption|]).
  set (name := filename_of (strftime_date now) n) in *.
  assert (Hnone : ensure_docs (fs w) !! doc_path name = None).
  { rewrite ensure_docs_lookup by apply doc_path_not_docs. exact Hfree. }
  set (w1 := World (ensure_docs (fs w)) (ui w)) in *.
  assert (Hopen : open_w (doc_path name) w1
                  = (Ok tt, World (<[doc_path name := File EmptyString]> (fs w1)) (ui w1))).
  { apply open_w_succeeds; cbn [fs w1].
    - rewrite Hnone. discriminate.
    - apply parent_check_doc; [apply plain_filename|apply ensure_docs_dir, Hdocs]. }
  unfold create_document.
  rewrite (bind_ok _ _ _ _ _ Hload), (bind_ok _ _ _ _ _ Hg).
  fold (doc_path name). fold (front_text P title category tags).
  rewrite (bind_ok _ _ _ _ _ Hopen).
  rewrite (bind_ok _ _ _ _ _ (f_write_succeeds (doc_path name) _ EmptyString
             (World (<[doc_path name := File EmptyString]> (fs w1)) (ui w1)) Hfront
             (lookup_insert_eq _ _ _))).
  cbn [fs ui]. rewrite insert_insert_eq, sapp_nil_l.
  rewrite (bind_ok _ _ _ _ _ (f_write_succeeds (doc_path name) _ _
             (World (<[doc_path name := File (front_text P title category tags)]> (fs w1))
                (ui w1)) Hcontent (lookup_insert_eq _ _ _))).
  cbn [fs ui]. rewrite insert_insert_eq. reflexivity.
Qed.

Lemma dict_get_set_eq (k : string) (v : json) (m : list (string * json)) :
  dict_get k (dict_set k v m) = Some v.
Proof.
  induction m as [|[k' v'] m IH]; cbn [dict_set dict_get].
  - rewrite String.eqb_refl. reflexivity.
  - destruct (String.eqb k k') eqn:E; cbn [dict_get]; rewrite E; [reflexivity|exact IH].
Qed.

Lemma dict_get_set_ne (k k0 : string) (v : json) (m : list (string * json)) :
  k0 <> k -> dict_get k0 (dict_set k v m) = dict_get k0 m.
Proof.
  intros Hne. induction m as [|[k' v'] m IH]; cbn [dict_set dict_get].
  - destruct (String.eqb_spec k0 k); [contradiction|reflexivity].
  - destruct (String.eqb_spec k k') as [->|Hk]; cbn [dict_get].
    + destruct (String.eqb_spec k0 k'); [contradiction|reflexivity].
    + rewrite IH. reflexivity.
Qed.

Lemma dict_get_del_ne (k k0 : string) (m : list (string * json)) :
  k0 <> k -> dict_get k0 (dict_del k m) = dict_get k0 m.
Proof.
  intros Hne. induction m as [|[k' v'] m IH]; cbn [dict_del dict_get]; [reflexivity|].
  destruct (String.eqb_spec k k') as [->|Hk]; cbn [dict_get].
  - destruct (String.eqb_spec k0 k'); [contradiction|reflexivity].
  - rewrite IH. reflexivity.
Qed.

Lemma dict_set_ok (k : string) (v : json) (m : list (string * json)) :
  json_ok (JObj m) = true -> json_ok v = true -> json_ok (JObj (dict_set k v m)) = true.
Proof.
  intros Hm Hv. apply json_ok_obj in Hm as (Hn & Hvals). apply json_ok_obj. split.
  - apply nodup_keys_iff, dict_set_nodup, nodup_keys_iff, Hn.
  - apply (dict_set_values (fun x => json_ok x = true)); assumption.
Qed.

Lemma dict_set_text_ok (k : string) (v : json) (m : list (string * json)) :
  json_text_ok (JObj m) = true -> Utf8.valid k = true -> json_text_ok v = true ->
  json_text_ok (JObj (dict_set k v m)) = true.
Proof.
  intros Hm Hk Hv. cbn [json_text_ok] in *.
  induction m as [|[k' v'] m IH]; cbn [dict_set forallb].
  - rewrite Hk, Hv. reflexivity.
  - cbn [forallb] in Hm. apply andb_true_iff in Hm as (H1 & H2).
    destruct (String.eqb_spec k k') as [->|Hne]; cbn [forallb].
    + rewrite Hk, Hv, H2. reflexivity.
    + rewrite H1, (IH H2). reflexivity.
Qed.

Lemma dict_del_text_ok (k : string) (m : list (string * json)) :
  json_text_ok (JObj m) = true -> json_text_ok (JObj (dict_del k m)) = true.
Proof.
  cbn [json_text_ok]. induction m as [|[k' v'] m IH]; cbn [dict_del forallb]; [auto|].
  intros H. apply andb_true_iff in H as (H1 & H2).
  destruct (String.eqb k k'); [exact H2|]. cbn [forallb]. rewrite H1, (IH H2). reflexivity.
Qed.

Lemma document_meta_ok (title category : string) (tags : list string) :
  json_ok (document_meta title category tags) = true.
Proof.
  unfold document_meta. cbn. rewrite andb_true_r.
  induction tags as [|t tags IH]; [reflexivity|exact IH].
Qed.

(** What a create that returns has been able to encode. *)
Lemma create_document_valid (P : Platform) (now : datetime)
    (title category : string) (tags : list string) (content : string)
    (w w' : world) (name : string) :
  create_document P now title category tags content w = (Ok name, w') ->
  Utf8.valid (front_text P title category tags) = true
  /\ Utf8.valid content = true
  /\ forall m, load_json METADATA_FILE w = (Ok (JObj m), w) ->
       Utf8.valid (json_dumps (JObj (dict_set name (document_meta title category tags) m)))
       = true.
Proof.
  unfold create_document. intros H.
  apply bind_inv in H as (metadata & w1 & Hload & H).
  pose proof (load_json_world Hload) as ->.
  apply bind_inv in H as (file_name & w2 & Hgen & H).
  fold (front_text P title category tags) in H.
  apply bind_inv in H as ([] & w3 & Hopen & H).
  apply bind_inv in H as ([] & w4 & Hw1 & H). apply f_write_inv in Hw1 as (Hv1 & _).
  apply bind_inv in H as ([] & w5 & Hw2 & H). apply f_write_inv in Hw2 as (Hv2 & _).
  apply bind_inv in H as (metadata' & w6 & Hset & H). apply lift_inv in Hset as (Hset & ->).
  apply bind_inv in H as ([] & w7 & Hsave & H). apply save_json_inv in Hsave as (Hv3 & _).
  injection H as <- <-.
  split; [exact Hv1|]. split; [exact Hv2|].
  intros m Hm. rewrite Hm in Hload. injection Hload as <-.
  cbn [py_setitem] in Hset. injection Hset as <-. exact Hv3.
Qed.

(** X8. A document that has been created reads back as its front matter
    followed by the content, with every line end ([\r\n] or [\r]) read as
    [\n]; text without carriage return reads back unchanged. *)
Theorem create_then_read (P : Platform) (now : datetime)
    (title category : string) (tags : list string) (content : string)
    (w w' : world) (name : string) :
  create_document P now title category tags content w = (Ok name, w') ->
  load_markdown_file name w'
  = (Ok (universal_newlines (front_text P title category tags +:+ content)), w')
  /\ (has_cr (front_text P title category tags +:+ content) = false ->
      load_markdown_file name w'
      = (Ok (front_text P title category tags +:+ content), w')).
Proof.
  intros H. pose proof (create_document_valid _ _ _ _ _ _ _ _ _ H) as (Hv1 & Hv2 & _).
  apply create_document_inv in H as (m & n & _ & _ & -> & _ & _ & ->).
  set (name := filename_of (strftime_date now) n).
  set (text := front_text P title category tags +:+ content).
  assert (Hread : forall w0, fs w0 !! doc_path name = Some (File text) ->
            load_markdown_file name w0 = (Ok (universal_newlines text), w0)).
  { intros w0 Hf. unfold load_markdown_file, bind. rewrite os_path_exists_eq.
    fold (doc_path name). rewrite Hf. unfold read_text. rewrite Hf.
    unfold text. rewrite (valid_app _ _ Hv1 Hv2). reflexivity. }
  assert (Hf : forall f u, fs (World (<[METADATA_FILE := f]>
                 (<[doc_path name := File text]> (ensure_docs (fs w)))) u)
               !! doc_path name = Some (File text)).
  { intros f u. cbn [fs].
    rewrite lookup_insert_ne by (apply not_eq_sym, doc_path_not_metadata).
    apply lookup_insert_eq. }
  split.
  - apply Hread, Hf.
  - intros Hcr. rewrite (Hread _ (Hf _ _)), (universal_newlines_id _ Hcr). reflexivity.
Qed.

(** X9. After a create that returns, the metadata store loads as the mapping
    it was with the entry of the new name set to title, category and tags:
    every other entry is as before, and the keys keep their order, the new
    name coming last unless an entry of that name was left over. *)
Theorem create_registers_metadata (P : Platform) (now : datetime)
    (title category : string) (tags : list string) (content : string)
    (w w' : world) (name : string) :
  create_document P now title category tags content w = (Ok name, w') ->
  exists m m',
    load_json METADATA_FILE w = (Ok (JObj m), w)
    /\ load_json METADATA_FILE w' = (Ok (JObj m'), w')
    /\ dict_get name m' = Some (document_meta title category tags)
    /\ (forall k, k <> name -> dict_get k m' = dict_get k m)
    /\ map fst m' = if dict_mem name m then map fst m else map fst m ++ [name].
Proof.
  intros H. pose proof (create_document_valid _ _ _ _ _ _ _ _ _ H) as (_ & _ & Hv).
  apply create_document_inv in H as (m & n & Hload & _ & -> & _ & _ & ->).
  set (name := filename_of (strftime_date now) n) in *.
  set (meta := document_meta title category tags) in *.
  exists m, (dict_set name meta m). split; [exact Hload|].
  assert (Hok : json_ok (JObj (dict_set name meta m)) = true).
  { apply dict_set_ok; [eapply load_json_ok, Hload|apply document_meta_ok]. }
  split; [|split; [apply dict_get_set_eq|split; [|apply dict_set_keys]]].
  - rewrite (load_json_file _ _ (json_dumps (JObj (dict_set name meta m))));
      [|apply lookup_insert_eq|apply Hv, Hload].
    rewrite (json_dumps_newlines _ Hok), (json_loads_dumps _ Hok). reflexivity.
  - intros k Hk. apply dict_get_set_ne, Hk.
Qed.

Lemma create_then_read_witness :
  let content := "one" +:+ String ch_cr (String ch_nl "two") in
  let w' := snd (create_document sample_platform sample_now "A" "C" ["x"] content
                   empty_world) in
  create_document sample_platform sample_now "A" "C" ["x"] content empty_world
  = (Ok "2024-01-01-#1.md", w')
  /\ load_markdown_file "2024-01-01-#1.md" w'
     = (Ok (front_text sample_platform "A" "C" ["x"] +:+ "one" +:+ nl +:+ "two"), w').
Proof.
  intros content w'.
  assert (H : create_document sample_platform sample_now "A" "C" ["x"] content empty_world
              = (Ok "2024-01-01-#1.md", w')) by (vm_compute; reflexivity).
  split; [exact H|].
  rewrite (proj1 (create_then_read _ _ _ _ _ _ _ _ _ H)). reflexivity.
Defined.

Lemma create_registers_metadata_witness :
  let w' := snd (create_document sample_platform sample_now "B" "C" [] "second"
                   world_one_doc) in
  create_document sample_platform sample_now "B" "C" [] "second" world_one_doc
  = (Ok "2024-01-01-#2.md", w')
  /\ exists m', load_json METADATA_FILE w' = (Ok (JObj m'), w')
       /\ dict_get "2024-01-01-#1.md" m' = Some (document_meta "A" "C" ["x"])
       /\ dict_get "2024-01-01-#2.md" m' = Some (document_meta "B" "C" []).
Proof.
  intros w'.
  assert (H : create_document sample_platform sample_now "B" "C" [] "second" world_one_doc
              = (Ok "2024-01-01-#2.md", w')) by (vm_compute; reflexivity).
  split; [exact H|].
  destruct (create_registers_metadata _ _ _ _ _ _ _ _ _ H)
    as (m & m' & Hload & Hload' & Hnew & Hold & _).
  exists m'. split; [exact Hload'|]. split; [|exact Hnew].
  rewrite Hold by discriminate.
  assert (Hm : load_json METADATA_FILE world_one_doc
               = (Ok (JObj [("2024-01-01-#1.md", document_meta "A" "C" ["x"])]),
                  world_one_doc)) by (vm_compute; reflexivity).
  rewrite Hm in Hload. apply (f_equal fst) in Hload. cbn [fst] in Hload.
  injection Hload as <-. reflexivity.
Defined.

(** X10. When [metadata.json] holds JSON that is not an object, a create
    writes the document file and then fails on the item assignment with
    [TypeError]: the file is left in [docs] with no metadata entry, and
    [metadata.json] is as it was. *)
Theorem create_with_non_mapping_metadata (P : Platform) (now : datetime)
    (title category : string) (tags : list string) (content : string)
    (w : world) (metadata : json) :
  load_json METADATA_FILE w = (Ok metadata, w) -> is_dict metadata = false ->
  (forall bytes, fs w !! DOCS_DIR <> Some (File bytes)) ->
  Utf8.valid (front_text P title category tags) = true ->
  Utf8.valid content = true ->
  exists name w',
    create_document P now title category tags content w = (Raise TypeError, w')
    /\ fs w !! doc_path name = None
    /\ fs w' !! doc_path name = Some (File (front_text P title category tags +:+ content))
    /\ fs w' !! METADATA_FILE = fs w !! METADATA_FILE.
Proof.
  intros Hload Hnd Hdocs Hf Hc.
  destruct (create_document_file P now title category tags content w metadata
              Hload Hdocs Hf Hc) as (n & _ & Hfree & _ & ->).
  eexists _, _. split; [|split; [exact Hfree|]].
  - unfold create_document_register, bind, lift.
    destruct metadata; try reflexivity. discriminate Hnd.
  - cbn [fs]. split; [apply lookup_insert_eq|].
    rewrite lookup_insert_ne by apply doc_path_not_metadata.
    apply ensure_docs_lookup. discriminate.
Qed.

Lemma create_with_non_mapping_metadata_witness :
  let w := World {[ METADATA_FILE := File "[]" ]} [] in
  exists name w',
    create_document sample_platform sample_now "A" "C" [] "body" w = (Raise TypeError, w')
    /\ fs w !! doc_path name = None
    /\ fs w' !! doc_path name
       = Some (File (front_text sample_platform "A" "C" [] +:+ "body"))
    /\ fs w' !! METADATA_FILE = Some (File "[]").
Proof.
  intros w.
  destruct (create_with_non_mapping_metadata sample_platform sample_now "A" "C" []
              "body" w (JArr [])) as (name & w' & H1 & H2 & H3 & H4);
    [reflexivity|reflexivity|intros bytes; discriminate|reflexivity|reflexivity|].
  exists name, w'. rewrite H4 in *. repeat split; assumption.
Defined.

(** X11. [create_document] returns whenever the metadata store loads as a
    mapping, [docs] is not a regular file, and the front matter, the content
    and the strings of the store can be encoded as UTF-8. *)
Theorem create_document_returns (P : Platform) (now : datetime)
    (title category : string) (tags : list string) (content : string)
    (w : world) (m : list (string * json)) :
  load_json METADATA_FILE w = (Ok (JObj m), w) ->
  (forall bytes, fs w !! DOCS_DIR <> Some (File bytes)) ->
  Utf8.valid (front_text P title category tags) = true ->
  Utf8.valid content = true ->
  json_text_ok (JObj m) = true ->
  json_text_ok (document_meta title category tags) = true ->
  exists name w', create_document P now title category tags content w = (Ok name, w').
Proof.
  intros Hload Hdocs Hf Hc Hm Hmeta.
  destruct (create_document_file P now title category tags content w (JObj m)
              Hload Hdocs Hf Hc) as (n & _ & Hfree & _ & ->).
  set (name := filename_of (strftime_date now) n) in *.
  set (w1 := World _ (ui w)).
  assert (Hv : json_text_ok (JObj (dict_set name (document_meta title category tags) m))
               = true).
  { apply dict_set_text_ok; [exact Hm| |exact Hmeta].
    apply valid_ascii, plain_filename. }
  assert (Hnd : fs w1 !! METADATA_FILE <> Some Dir).
  { cbn [fs w1]. rewrite lookup_insert_ne by apply doc_path_not_metadata.
    rewrite ensure_docs_lookup by discriminate. eapply load_json_not_dir, Hload. }
  eexists _, _. unfold create_document_register, bind at 1, lift. cbn [py_setitem].
  unfold bind. rewrite (save_json_succeeds METADATA_FILE _ w1 Hnd eq_refl
                          (valid_json_dumps _ Hv)).
  reflexivity.
Qed.

Lemma create_document_returns_witness :
  exists name w',
    create_document sample_platform sample_now "B" "C" ["x"; "y"] "second" world_one_doc
    = (Ok name, w').
Proof.
  apply (create_document_returns sample_platform sample_now "B" "C" ["x"; "y"] "second"
           world_one_doc [("2024-01-01-#1.md", document_meta "A" "C" ["x"])]).
  - vm_compute. reflexivity.
  - intros bytes. vm_compute. discriminate.
  - reflexivity.
  - reflexivity.
  - reflexivity.
  - reflexivity.
Defined.

(** ** [delete_document] and what it leaves *)

(** The paths a delete leaves in place. *)
Lemma delete_document_paths (file_name : string) (w w' : world) :
  delete_document file_name w = (Ok tt, w') ->
  (forall p, p <> doc_path file_name -> p <> METADATA_FILE -> fs w' !! p = fs w !! p)
  /\ ui w' = ui w.
Proof.
  intros H. apply delete_document_inv in H as (metadata & store & Hload & Hstore & ->).
  cbn [fs ui]. split; [|reflexivity].
  intros p Hp Hm. rewrite lookup_delete_ne by congruence.
  destruct Hstore as [(m & _ & _ & _ & ->)|(_ & ->)]; [|reflexivity].
  apply lookup_insert_ne. congruence.
Qed.



(** X13. A name that has been given out and deleted is given out again: when
    a document is created and then deleted, the next create of the same day
    returns the same filename. *)
Theorem create_delete_create (P : Platform) (now now' : datetime)
    (title category : string) (tags : list string) (content : string)
    (title' category' : string) (tags' : list string) (content' : string)
    (w w1 w2 w3 : world) (name name' : string) :
  create_document P now title category tags content w = (Ok name, w1) ->
  delete_document name w1 = (Ok tt, w2) ->
  strftime_date now' = strftime_date now ->
  create_document P now' title' category' tags' content' w2 = (Ok name', w3) ->
  name' = name.
Proof.
  intros Hc Hd Hday Hc'.
  pose proof (create_document_frame _ _ _ _ _ _ _ _ _ Hc) as (_ & _ & Hframe).
  apply create_document_inv in Hc as (m & n & _ & Hn & -> & Hfree & Hocc & _).
  apply create_document_inv in Hc' as (m' & n' & _ & Hn' & -> & Hfree' & Hocc' & _).
  rewrite Hday in *.
  pose proof (delete_document_paths _ _ _ Hd) as (Hkeep & _).
  apply delete_document_inv in Hd as (metadata & store & _ & _ & Hw2).
  set (date_str := strftime_date now) in *.
  assert (Hsame : forall k, fs w !! doc_path (filename_of date_str k) = None
                            <-> fs w2 !! doc_path (filename_of date_str k) = None).
  { intros k. destruct (Nat.eq_dec k n) as [->|Hk].
    - split; [|intros _; exact Hfree]. intros _. rewrite Hw2. apply lookup_delete_eq.
    - assert (Hp : doc_path (filename_of date_str k) <> doc_path (filename_of date_str n)).
      { intros Heq. apply doc_path_inj, filename_of_inj in Heq. contradiction. }
      rewrite (Hkeep _ Hp (doc_path_not_metadata _)).
      rewrite (Hframe _ Hp (doc_path_not_metadata _) (doc_path_not_docs _)).
      reflexivity. }
  f_equal. symmetry. eapply (first_free_unique (fs w) (fs w2)); eauto.
Qed.


Lemma create_delete_create_witness :
  let w1 := snd (create_document sample_platform sample_now "A" "C" ["x"] "body"
                   empty_world) in
  let w2 := snd (delete_document "2024-01-01-#1.md" w1) in
  create_document sample_platform sample_now "A" "C" ["x"] "body" empty_world
  = (Ok "2024-01-01-#1.md", w1)
  /\ delete_document "2024-01-01-#1.md" w1 = (Ok tt, w2)
  /\ fst (create_document sample_platform sample_now "D" "C" [] "third" w2)
     = Ok "2024-01-01-#1.md".
Proof.
  intros w1 w2.
  assert (Hc : create_document sample_platform sample_now "A" "C" ["x"] "body" empty_world
               = (Ok "2024-01-01-#1.md", w1)) by (vm_compute; reflexivity).
  assert (Hd : delete_document "2024-01-01-#1.md" w1 = (Ok tt, w2))
    by (vm_compute; reflexivity).
  split; [exact Hc|]. split; [exact Hd|].
  destruct (create_document sample_platform sample_now "D" "C" [] "third" w2)
    as [[name'|e] w3] eqn:E; [|vm_compute in E; discriminate E].
  cbn [fst]. f_equal.
  exact (create_delete_create _ _ _ _ _ _ _ _ _ _ _ _ _ _ _ _ _ Hc Hd eq_refl E).
Defined.

(** X14. A file name that starts with [/] is not confined to [docs]:
    [os.path.join] drops [docs], so [load_markdown_file] reads and
    [delete_document] removes the file at that absolute path. *)
Theorem absolute_name_leaves_docs (file_name bytes : string) (w : world) :
  starts_with_sep file_name = true ->
  fs w !! file_name = Some (File bytes) ->
  (Utf8.valid bytes = true ->
   load_markdown_file file_name w = (Ok (universal_newlines bytes), w))
  /\ (forall metadata, load_json METADATA_FILE w = (Ok metadata, w) ->
        py_contains file_name metadata = Ok false ->
        delete_document file_name w
        = (Ok tt, World (delete file_name (fs w)) (ui w))).
Proof.
  intros Habs Hf.
  assert (Hp : os_path_join DOCS_DIR file_name = file_name).
  { unfold os_path_join. rewrite Habs. reflexivity. }
  split.
  - intros Hv. unfold load_markdown_file, bind. rewrite Hp, os_path_exists_eq, Hf.
    unfold read_text. rewrite Hf, Hv. reflexivity.
  - intros metadata Hl Hc. unfold delete_document.
    rewrite (bind_ok _ _ _ _ _ Hl). unfold bind at 1, lift at 1. rewrite Hc.
    unfold bind at 1, ret at 1. unfold bind. rewrite Hp, os_path_exists_eq, Hf.
    unfold os_remove. rewrite Hf. reflexivity.
Qed.

Lemma absolute_name_leaves_docs_witness :
  let w := World {[ "/home/user/notes.txt" := File "private" ]} [] in
  load_markdown_file "/home/user/notes.txt" w = (Ok "private", w)
  /\ delete_document "/home/user/notes.txt" w = (Ok tt, empty_world).
Proof.
  intros w.
  destruct (absolute_name_leaves_docs "/home/user/notes.txt" "private" w eq_refl eq_refl)
    as (Hread & Hdel).
  split; [apply Hread; reflexivity|].
  rewrite (Hdel (JObj [])); [|reflexivity|reflexivity].
  vm_compute. reflexivity.
Defined.

(** ** The builder: what it changes, and when it stops short *)

Lemma mkdocs_setup_valid (P : Platform) (w w' : world) (cfg : mkdocs_config)
    (metadata templates prompts keywords : json) :
  mkdocs_setup P w = (Ok tt, w') ->
  load_json METADATA_FILE w = (Ok metadata, w) ->
  load_json TEMPLATES_FILE w = (Ok templates, w) ->
  load_json PROMPTS_FILE w = (Ok prompts, w) ->
  load_json KEYWORDS_FILE w = (Ok keywords, w) ->
  build_config P metadata templates prompts keywords = Ok cfg ->
  Utf8.valid (yaml_dump P cfg) = true.
Proof.
  unfold mkdocs_setup. intros H H1 H2 H3 H4 H5.
  rewrite (bind_ok _ _ _ _ _ H1), (bind_ok _ _ _ _ _ H2), (bind_ok _ _ _ _ _ H3),
    (bind_ok _ _ _ _ _ H4) in H.
  unfold bind at 1, lift at 1 in H. rewrite H5 in H.
  apply bind_inv in H as ([] & w1 & Ho & H).
  apply bind_inv in H as ([] & w2 & Hw & H). apply f_write_inv in Hw as (Hv & _).
  exact Hv.
Qed.

(** The state a returning run of the builder leaves. *)
Lemma mkdocs_setup_after (P : Platform) (w w' : world) :
  mkdocs_setup P w = (Ok tt, w') ->
  exists metadata templates prompts keywords cfg,
    load_json METADATA_FILE w = (Ok metadata, w)
    /\ load_json TEMPLATES_FILE w = (Ok templates, w)
    /\ load_json PROMPTS_FILE w = (Ok prompts, w)
    /\ load_json KEYWORDS_FILE w = (Ok keywords, w)
    /\ build_config P metadata templates prompts keywords = Ok cfg
    /\ Utf8.valid (yaml_dump P cfg) = true
    /\ fs w' !! MKDOCS_CONFIG = Some (File (yaml_dump P cfg))
    /\ is_Some (fs w' !! DOCS_DIR)
    /\ is_Some (fs w' !! index_path)
    /\ ui w' = ui w
    /\ forall p, p <> MKDOCS_CONFIG -> p <> DOCS_DIR -> p <> index_path ->
         fs w' !! p = fs w !! p.
Proof.
  intros H. pose proof H as Hrun.
  apply mkdocs_setup_inv in H
    as (metadata & templates & prompts & keywords & cfg & H1 & H2 & H3 & H4 & H5 & Hw).
  exists metadata, templates, prompts, keywords, cfg.
  repeat (split; [assumption|]).
  split; [eapply mkdocs_setup_valid; eauto|].
  cbv zeta in Hw. destruct index_path_facts as (F1 & F2 & F3).
  set (f0 := <[MKDOCS_CONFIG := File (yaml_dump P cfg)]> (fs w)) in *.
  assert (Hcfg : ensure_docs f0 !! MKDOCS_CONFIG = Some (File (yaml_dump P cfg))).
  { rewrite ensure_docs_lookup by congruence. apply lookup_insert_eq. }
  assert (Hdocs : is_Some (ensure_docs f0 !! DOCS_DIR)).
  { unfold ensure_docs. destruct (f0 !! DOCS_DIR) as [x|] eqn:E; [rewrite E; eauto|].
    rewrite lookup_insert_eq. eauto. }
  assert (Hother : forall p, p <> MKDOCS_CONFIG -> p <> DOCS_DIR ->
            ensure_docs f0 !! p = fs w !! p).
  { intros p Hp1 Hp2. rewrite ensure_docs_lookup by exact Hp2.
    apply lookup_insert_ne. congruence. }
  destruct (ensure_docs f0 !! index_path) as [x|] eqn:E.
  - subst w'. cbn [fs ui]. split; [exact Hcfg|]. split; [exact Hdocs|].
    split; [rewrite E; eauto|]. split; [reflexivity|]. intros p Hp1 Hp2 _. auto.
  - destruct Hw as (Hd & ->). cbn [fs ui].
    split; [rewrite lookup_insert_ne by congruence; exact Hcfg|].
    split; [rewrite lookup_insert_ne by congruence; exact Hdocs|].
    split; [rewrite lookup_insert_eq; eauto|]. split; [reflexivity|].
    intros p Hp1 Hp2 Hp3. rewrite lookup_insert_ne by congruence. auto.
Qed.

(** X15. A run of the builder that returns changes [mkdocs.yml], [docs] and
    [docs/index.md] and nothing else: every other path holds what it held,
    so the four stores load as before, and no message is shown. *)
Theorem mkdocs_setup_changes_only_site_files (P : Platform) (w w' : world) :
  mkdocs_setup P w = (Ok tt, w') ->
  (forall p, p <> MKDOCS_CONFIG -> p <> DOCS_DIR -> p <> index_path ->
     fs w' !! p = fs w !! p)
  /\ (forall file, In file [METADATA_FILE; TEMPLATES_FILE; PROMPTS_FILE; KEYWORDS_FILE] ->
        fst (load_json file w') = fst (load_json file w))
  /\ ui w' = ui w.
Proof.
  intros H. apply mkdocs_setup_after in H
    as (metadata & templates & prompts & keywords & cfg & _ & _ & _ & _ & _ & _ & _ & _ & _
        & Hui & Hother).
  split; [exact Hother|]. split; [|exact Hui].
  intros file Hin. apply load_json_fs.
  cbn [In] in Hin. destruct Hin as [<-|[<-|[<-|[<-|[]]]]]; apply Hother; discriminate.
Qed.

(** X16. The builder is idempotent: after a run that returns, a second run
    returns and leaves the world exactly as the first one left it. *)
Theorem mkdocs_setup_idempotent (P : Platform) (w w' : world) :
  mkdocs_setup P w = (Ok tt, w') -> mkdocs_setup P w' = (Ok tt, w').
Proof.
  intros H. apply mkdocs_setup_after in H
    as (metadata & templates & prompts & keywords & cfg & H1 & H2 & H3 & H4 & H5 & Hv
        & Hcfg & Hdocs & Hidx & _ & Hother).
  assert (L : forall file v, load_json file w = (Ok v, w) ->
            file <> MKDOCS_CONFIG -> file <> DOCS_DIR -> file <> index_path ->
            load_json file w' = (Ok v, w')).
  { intros file v Hl N1 N2 N3. apply (load_json_same file w w' v Hl). auto. }
  unfold mkdocs_setup.
  rewrite (bind_ok _ _ _ _ _ (L _ _ H1 ltac:(discriminate) ltac:(discriminate)
                                ltac:(discriminate))).
  rewrite (bind_ok _ _ _ _ _ (L _ _ H2 ltac:(discriminate) ltac:(discriminate)
                                ltac:(discriminate))).
  rewrite (bind_ok _ _ _ _ _ (L _ _ H3 ltac:(discriminate) ltac:(discriminate)
                                ltac:(discriminate))).
  rewrite (bind_ok _ _ _ _ _ (L _ _ H4 ltac:(discriminate) ltac:(discriminate)
                                ltac:(discriminate))).
  unfold bind at 1, lift at 1. rewrite H5.
  assert (Hopen : open_w MKDOCS_CONFIG w'
                  = (Ok tt, World (<[MKDOCS_CONFIG := File EmptyString]> (fs w')) (ui w'))).
  { apply open_w_succeeds; [rewrite Hcfg; discriminate|reflexivity]. }
  rewrite (bind_ok _ _ _ _ _ Hopen).
  rewrite (bind_ok _ _ _ _ _ (f_write_succeeds MKDOCS_CONFIG _ EmptyString
             (World (<[MKDOCS_CONFIG := File EmptyString]> (fs w')) (ui w')) Hv
             (lookup_insert_eq _ _ _))).
  cbn [fs ui]. rewrite insert_insert_eq, sapp_nil_l, (insert_id _ _ _ Hcfg).
  destruct Hdocs as [d Hd]. destruct Hidx as [x Hx]. fold index_path.
  unfold bind, os_path_exists. cbn [fs]. rewrite Hd. cbn [negb ret fs].
  rewrite Hx. cbn [negb ret]. rewrite world_eta. reflexivity.
Qed.

Lemma mkdocs_setup_changes_only_site_files_witness :
  mkdocs_setup sample_platform example_world = (Ok tt, world_built)
  /\ fs world_built !! METADATA_FILE = fs example_world !! METADATA_FILE
  /\ fst (load_json METADATA_FILE world_built) = Ok (JObj example_metadata).
Proof.
  assert (H : mkdocs_setup sample_platform example_world = (Ok tt, world_built))
    by (vm_compute; reflexivity).
  destruct (mkdocs_setup_changes_only_site_files _ _ _ H) as (Hp & Hl & _).
  split; [exact H|]. split; [apply Hp; discriminate|].
  rewrite (Hl METADATA_FILE) by (left; reflexivity). vm_compute. reflexivity.
Defined.

Lemma mkdocs_setup_idempotent_witness :
  mkdocs_setup sample_platform example_world = (Ok tt, world_built)
  /\ mkdocs_setup sample_platform world_built = (Ok tt, world_built).
Proof.
  assert (H : mkdocs_setup sample_platform example_world = (Ok tt, world_built))
    by (vm_compute; reflexivity).
  split; [exact H|]. apply (mkdocs_setup_idempotent _ _ _ H).
Defined.

Lemma py_getitem_raises (v : json) (k : string) (e : exn) :
  py_getitem v k = Raise e -> e = KeyError \/ e = TypeError.
Proof.
  destruct v; cbn [py_getitem]; try (intros [= <-]; auto).
  destruct (dict_get k m); [discriminate|]. intros [= <-]. auto.
Qed.

(** One entry without a usable title stops the loop over the documents. *)
Lemma nav_documents_raises (items : list (string * json)) :
  Exists (fun kv => doc_label (snd kv) = None) items ->
  forall nav0, exists e, nav_documents items nav0 = Raise e
                         /\ (e = KeyError \/ e = TypeError).
Proof.
  induction items as [|[fname meta] items IH]; intros Hex nav0.
  - inversion Hex.
  - cbn [nav_documents]. unfold doc_label in Hex.
    destruct (py_getitem meta "title") as [title|e] eqn:E.
    + destruct (hashable title) eqn:Hh.
      * apply IH. inversion Hex as [? ? Hhead|? ? Htail]; subst; [|exact Htail].
        cbn [snd] in Hhead. rewrite E, Hh in Hhead. discriminate.
      * eauto.
    + exists e. split; [reflexivity|]. eapply py_getitem_raises, E.
Qed.

(** X17. The builder stops before it writes anything when the metadata
    cannot be walked: a metadata store that is not a mapping raises
    [AttributeError], and an entry without a title (or with one that cannot
    be a key) raises [KeyError] or [TypeError]; in both cases the world is as
    before, [mkdocs.yml] included. *)
Theorem mkdocs_setup_bad_metadata (P : Platform) (w : world)
    (metadata templates prompts keywords : json) :
  load_json METADATA_FILE w = (Ok metadata, w) ->
  load_json TEMPLATES_FILE w = (Ok templates, w) ->
  load_json PROMPTS_FILE w = (Ok prompts, w) ->
  load_json KEYWORDS_FILE w = (Ok keywords, w) ->
  (is_dict metadata = false -> mkdocs_setup P w = (Raise AttributeError, w))
  /\ (forall m, metadata = JObj m ->
        Exists (fun kv => doc_label (snd kv) = None) m ->
        exists e, mkdocs_setup P w = (Raise e, w) /\ (e = KeyError \/ e = TypeError)).
Proof.
  intros H1 H2 H3 H4.
  assert (Hstop : forall e,
            build_config P metadata templates prompts keywords = Raise e ->
            mkdocs_setup P w = (Raise e, w)).
  { intros e He. unfold mkdocs_setup.
    rewrite (bind_ok _ _ _ _ _ H1), (bind_ok _ _ _ _ _ H2), (bind_ok _ _ _ _ _ H3),
      (bind_ok _ _ _ _ _ H4).
    unfold bind at 1, lift at 1. rewrite He. reflexivity. }
  split.
  - intros Hnd. apply Hstop. unfold build_config.
    destruct metadata; try reflexivity. discriminate Hnd.
  - intros m -> Hex.
    destruct (nav_documents_raises m Hex [(JStr "Home", "index.md")]) as (e & He & Hk).
    exists e. split; [|exact Hk]. apply Hstop. unfold build_config.
    cbn [py_items]. rewrite He. reflexivity.
Qed.

Lemma mkdocs_setup_bad_metadata_witness :
  let w1 := World {[ METADATA_FILE := File "[1]" ]} [] in
  let w2 := World {[ METADATA_FILE := File (sq "{'a.md': {'category': 'C'}}") ]} [] in
  mkdocs_setup sample_platform w1 = (Raise AttributeError, w1)
  /\ exists e, mkdocs_setup sample_platform w2 = (Raise e, w2)
               /\ (e = KeyError \/ e = TypeError).
Proof.
  intros w1 w2. split.
  - apply (proj1 (mkdocs_setup_bad_metadata sample_platform w1 (JArr [JInt 1])
                    (JObj []) (JObj []) (JObj [])
                    ltac:(vm_compute; reflexivity) ltac:(reflexivity)
                    ltac:(reflexivity) ltac:(reflexivity))).
    reflexivity.
  - apply (proj2 (mkdocs_setup_bad_metadata sample_platform w2
                    (JObj [("a.md", JObj [("category", JStr "C")])])
                    (JObj []) (JObj []) (JObj [])
                    ltac:(vm_compute; reflexivity) ltac:(reflexivity)
                    ltac:(reflexivity) ltac:(reflexivity)) _ eq_refl).
    constructor. reflexivity.
Defined.

(** ** The store pages: add, edit, delete *)

(** Writing a store back and showing a message. *)
Lemma store_update (file : string) (m m' : list (string * json)) (msg : ui_msg)
    (w : world) :
  load_json file w = (Ok (JObj m), w) -> parent_check file (fs w) = None ->
  json_ok (JObj m') = true -> json_text_ok (JObj m') = true ->
  exists w',
    (save_json file (JObj m') >> st_show msg) w = (Ok tt, w')
    /\ load_json file w' = (Ok (JObj m'), w')
    /\ ui w' = ui w ++ [msg]
    /\ forall p, p <> file -> fs w' !! p = fs w !! p.
Proof.
  intros Hload Hp Hok Ht.
  destruct (store_saved file (JObj m') w Hok Ht (load_json_not_dir _ _ _ _ Hload) Hp)
    as (Hsave & Hback).
  eexists. split; [|split; [|split]].
  - unfold bind. rewrite Hsave. reflexivity.
  - cbn [fs ui]. eapply load_json_same; [exact Hback|reflexivity].
  - reflexivity.
  - intros p Hne. cbn [fs]. apply lookup_insert_ne. congruence.
Qed.

Lemma template_record_ok (name content : string) :
  json_ok (template_record name content) = true.
Proof. reflexivity. Qed.

Lemma template_record_text_ok (name content : string) :
  Utf8.valid name = true -> Utf8.valid content = true ->
  json_text_ok (template_record name content) = true.
Proof. intros H1 H2. cbn. rewrite H1, H2. reflexivity. Qed.

(** The add pages, for a key that is not in the store. *)
Lemma add_accepted (file dup key success : string) (x : json)
    (m : list (string * json)) (w : world) :
  load_json file w = (Ok (JObj m), w) -> parent_check file (fs w) = None ->
  dict_mem key m = false -> json_text_ok (JObj m) = true -> Utf8.valid key = true ->
  json_ok x = true -> json_text_ok x = true ->
  exists w',
    (let* store := load_json file in
     let* taken := lift (py_contains key store) in
     if taken then st_show (StError dup)
     else
       let* store := lift (py_setitem store key x) in
       save_json file store >> st_show (StSuccess success)) w = (Ok tt, w')
    /\ load_json file w' = (Ok (JObj (m ++ [(key, x)])), w')
    /\ ui w' = ui w ++ [StSuccess success]
    /\ forall p, p <> file -> fs w' !! p = fs w !! p.
Proof.
  intros Hload Hp Hnew Ht Hk Hx Htx.
  destruct (store_update file m (dict_set key x m) (StSuccess success) w Hload Hp)
    as (w' & Hrun & Hback & Hui & Hframe).
  { apply dict_set_ok; [eapply load_json_ok, Hload|exact Hx]. }
  { apply dict_set_text_ok; assumption. }
  exists w'. rewrite <- (dict_set_fresh key x m Hnew).
  split; [|auto]. rewrite (bind_ok _ _ _ _ _ Hload).
  unfold bind at 1, lift at 1. cbn [py_contains]. rewrite Hnew.
  unfold bind at 1, lift at 1. cbn [py_setitem]. exact Hrun.
Qed.

(** X18. Adding a template, a prompt or a keyword under a key the store does
    not have returns, shows the success message, and leaves the store with
    its former entries in their order followed by the new one; no other path
    is touched. *)
Theorem add_appends_entry (key a b : string) (m : list (string * json)) (w : world) :
  dict_mem key m = false -> json_text_ok (JObj m) = true ->
  Utf8.valid key = true -> Utf8.valid a = true -> Utf8.valid b = true ->
  (load_json TEMPLATES_FILE w = (Ok (JObj m), w) ->
   exists w', main_template_add key a b w = (Ok tt, w')
     /\ load_json TEMPLATES_FILE w' = (Ok (JObj (m ++ [(key, template_record a b)])), w')
     /\ ui w' = ui w ++ [StSuccess ("템플릿 '" +:+ key +:+ "' 추가 완료!")]
     /\ forall p, p <> TEMPLATES_FILE -> fs w' !! p = fs w !! p)
  /\ (load_json PROMPTS_FILE w = (Ok (JObj m), w) ->
      exists w', main_prompt_add key a w = (Ok tt, w')
        /\ load_json PROMPTS_FILE w' = (Ok (JObj (m ++ [(key, JStr a)])), w')
        /\ ui w' = ui w ++ [StSuccess ("프롬프트 '" +:+ key +:+ "' 추가 완료!")]
        /\ forall p, p <> PROMPTS_FILE -> fs w' !! p = fs w !! p)
  /\ (load_json KEYWORDS_FILE w = (Ok (JObj m), w) ->
      exists w', main_keyword_add key a w = (Ok tt, w')
        /\ load_json KEYWORDS_FILE w' = (Ok (JObj (m ++ [(key, JStr a)])), w')
        /\ ui w' = ui w ++ [StSuccess ("키워드 '" +:+ key +:+ "' 추가 완료!")]
        /\ forall p, p <> KEYWORDS_FILE -> fs w' !! p = fs w !! p).
Proof.
  intros Hnew Ht Hk Ha Hb.
  split; [|split]; intros Hload.
  - apply (add_accepted TEMPLATES_FILE); auto using template_record_text_ok.
  - apply (add_accepted PROMPTS_FILE); auto.
  - apply (add_accepted KEYWORDS_FILE); auto.
Qed.

Lemma add_appends_entry_witness :
  exists w', main_template_add "t1" "Daily" "# Log" empty_world = (Ok tt, w')
    /\ load_json TEMPLATES_FILE w' = (Ok (JObj [("t1", template_record "Daily" "# Log")]), w').
Proof.
  destruct (add_appends_entry "t1" "Daily" "# Log" [] empty_world)
    as ((w' & Hrun & Hload & _) & _); try reflexivity.
  exists w'. split; [exact Hrun|exact Hload].
Defined.

Lemma dict_get_truth (P : Platform) (k : string) (x : json) (m : list (string * json)) :
  dict_get k m = Some x -> py_truth P (JObj m) = true /\ dict_mem k m = true.
Proof.
  intros H. unfold dict_mem. rewrite H. destruct m; [discriminate|]. split; reflexivity.
Qed.

Lemma dict_set_edited (key : string) (x old : json) (m : list (string * json)) :
  dict_get key m = Some old -> edited key x m (dict_set key x m).
Proof.
  intros H. split; [|split].
  - rewrite dict_set_keys. unfold dict_mem. rewrite H. reflexivity.
  - apply dict_get_set_eq.
  - intros k Hk. apply dict_get_set_ne, Hk.
Qed.

Lemma dict_del_length (key : string) (m : list (string * json)) :
  dict_mem key m = true -> S (length (dict_del key m)) = length m.
Proof.
  unfold dict_mem. induction m as [|[k' v'] m IH]; cbn [dict_get dict_del]; [discriminate|].
  destruct (String.eqb key k'); [reflexivity|]. intros H. cbn [length]. rewrite (IH H).
  reflexivity.
Qed.

Lemma dict_del_removed (key : string) (m : list (string * json)) :
  json_ok (JObj m) = true -> dict_mem key m = true -> removed key m (dict_del key m).
Proof.
  intros Hok Hin. split; [apply (dict_del_ok key m Hok)|].
  split; [apply dict_del_length, Hin|]. intros k Hk. apply dict_get_del_ne, Hk.
Qed.

(** X19. Editing a template, a prompt or a keyword that is in the store
    returns and rewrites the store in place: the keys and their order are as
    before, the chosen key holds the new record, every other entry is
    unchanged, and no other path is touched. *)
Theorem edit_in_place (P : Platform) (key a b : string) (old : json)
    (m : list (string * json)) (w : world) :
  dict_get key m = Some old -> json_text_ok (JObj m) = true ->
  Utf8.valid key = true -> Utf8.valid a = true -> Utf8.valid b = true ->
  (load_json TEMPLATES_FILE w = (Ok (JObj m), w) ->
   (exists n c, old = template_record n c) ->
   exists w' m', main_template_edit P key a b w = (Ok tt, w')
     /\ load_json TEMPLATES_FILE w' = (Ok (JObj m'), w')
     /\ edited key (template_record a b) m m'
     /\ forall p, p <> TEMPLATES_FILE -> fs w' !! p = fs w !! p)
  /\ (load_json PROMPTS_FILE w = (Ok (JObj m), w) ->
      exists w' m', main_prompt_edit P key a w = (Ok tt, w')
        /\ load_json PROMPTS_FILE w' = (Ok (JObj m'), w')
        /\ edited key (JStr a) m m'
        /\ forall p, p <> PROMPTS_FILE -> fs w' !! p = fs w !! p)
  /\ (load_json KEYWORDS_FILE w = (Ok (JObj m), w) ->
      exists w' m', main_keyword_edit P key a w = (Ok tt, w')
        /\ load_json KEYWORDS_FILE w' = (Ok (JObj m'), w')
        /\ edited key (JStr a) m m'
        /\ forall p, p <> KEYWORDS_FILE -> fs w' !! p = fs w !! p).
Proof.
  intros Hget Ht Hk Ha Hb. destruct (dict_get_truth P key old m Hget) as (Htruth & Hin).
  assert (Hupd : forall file x msg, load_json file w = (Ok (JObj m), w) ->
            parent_check file (fs w) = None -> json_ok x = true -> json_text_ok x = true ->
            exists w' m', (save_json file (JObj (dict_set key x m)) >> st_show msg) w
                          = (Ok tt, w')
              /\ load_json file w' = (Ok (JObj m'), w')
              /\ edited key x m m'
              /\ forall p, p <> file -> fs w' !! p = fs w !! p).
  { intros file x msg Hload Hp Hx Htx.
    destruct (store_update file m (dict_set key x m) msg w Hload Hp)
      as (w' & Hrun & Hback & _ & Hframe).
    - apply dict_set_ok; [eapply load_json_ok, Hload|exact Hx].
    - apply dict_set_text_ok; assumption.
    - exists w', (dict_set key x m). eauto using dict_set_edited. }
  split; [|split].
  - intros Hload (n & c & ->).
    destruct (Hupd TEMPLATES_FILE (template_record a b)
                (StSuccess ("템플릿 '" +:+ key +:+ "' 수정 완료!")) Hload eq_refl
                (template_record_ok a b) (template_record_text_ok a b Ha Hb))
      as (w' & m' & Hrun & Hrest).
    exists w', m'. split; [|exact Hrest].
    unfold main_template_edit. rewrite (bind_ok _ _ _ _ _ Hload), Htruth.
    unfold bind at 1, lift at 1. cbn [py_keys].
    unfold bind at 1, lift at 1. cbn [py_getitem]. rewrite Hget.
    unfold bind at 1, lift at 1. cbn.
    exact Hrun.
  - intros Hload.
    destruct (Hupd PROMPTS_FILE (JStr a)
                (StSuccess ("프롬프트 '" +:+ key +:+ "' 수정 완료!")) Hload eq_refl
                eq_refl Ha) as (w' & m' & Hrun & Hrest).
    exists w', m'. split; [|exact Hrest].
    unfold main_prompt_edit. rewrite (bind_ok _ _ _ _ _ Hload), Htruth.
    unfold bind at 1, lift at 1. cbn [py_keys].
    unfold bind at 1, lift at 1. cbn [py_getitem]. rewrite Hget.
    unfold bind at 1, lift at 1. cbn [py_setitem]. exact Hrun.
  - intros Hload.
    destruct (Hupd KEYWORDS_FILE (JStr a)
                (StSuccess ("키워드 '" +:+ key +:+ "' 수정 완료!")) Hload eq_refl
                eq_refl Ha) as (w' & m' & Hrun & Hrest).
    exists w', m'. split; [|exact Hrest].
    unfold main_keyword_edit. rewrite (bind_ok _ _ _ _ _ Hload), Htruth.
    unfold bind at 1, lift at 1. cbn [py_keys].
    unfold bind at 1, lift at 1. cbn [py_getitem]. rewrite Hget.
    unfold bind at 1, lift at 1. cbn [py_setitem]. exact Hrun.
Qed.

Lemma edit_in_place_witness :
  let m := [("t1", template_record "Daily" "# Log"); ("t2", template_record "Week" "# W")] in
  let w := World {[ TEMPLATES_FILE := File (json_dumps (JObj m)) ]} [] in
  exists w' m', main_template_edit sample_platform "t1" "Day" "# Day" w = (Ok tt, w')
    /\ load_json TEMPLATES_FILE w' = (Ok (JObj m'), w')
    /\ map fst m' = ["t1"; "t2"]
    /\ dict_get "t1" m' = Some (template_record "Day" "# Day")
    /\ dict_get "t2" m' = Some (template_record "Week" "# W").
Proof.
  intros m w.
  destruct (edit_in_place sample_platform "t1" "Day" "# Day"
              (template_record "Daily" "# Log") m w)
    as (Htpl & _); try reflexivity.
  destruct Htpl as (w' & m' & Hrun & Hload & (Hkeys & Hnew & Hother) & _).
  { vm_compute. reflexivity. }
  { eauto. }
  exists w', m'. split; [exact Hrun|]. split; [exact Hload|]. split; [exact Hkeys|].
  split; [exact Hnew|]. rewrite Hother by discriminate. reflexivity.
Defined.

(** X20. Deleting a template, a prompt or a keyword that is in the store
    returns and rewrites the store without that key: the store has one entry
    less, the key is gone, every other entry is unchanged, and no other path
    is touched. *)
Theorem delete_removes_entry (P : Platform) (key : string)
    (m : list (string * json)) (w : world) :
  dict_mem key m = true -> json_text_ok (JObj m) = true ->
  (load_json TEMPLATES_FILE w = (Ok (JObj m), w) ->
   exists w' m', main_template_delete P key w = (Ok tt, w')
     /\ load_json TEMPLATES_FILE w' = (Ok (JObj m'), w')
     /\ removed key m m'
     /\ forall p, p <> TEMPLATES_FILE -> fs w' !! p = fs w !! p)
  /\ (load_json PROMPTS_FILE w = (Ok (JObj m), w) ->
      exists w' m', main_prompt_delete P key w = (Ok tt, w')
        /\ load_json PROMPTS_FILE w' = (Ok (JObj m'), w')
        /\ removed key m m'
        /\ forall p, p <> PROMPTS_FILE -> fs w' !! p = fs w !! p)
  /\ (load_json KEYWORDS_FILE w = (Ok (JObj m), w) ->
      exists w' m', main_keyword_delete P key w = (Ok tt, w')
        /\ load_json KEYWORDS_FILE w' = (Ok (JObj m'), w')
        /\ removed key m m'
        /\ forall p, p <> KEYWORDS_FILE -> fs w' !! p = fs w !! p).
Proof.
  intros Hin Ht.
  assert (Htruth : py_truth P (JObj m) = true).
  { destruct m; [discriminate Hin|reflexivity]. }
  assert (Hupd : forall file msg, load_json file w = (Ok (JObj m), w) ->
            parent_check file (fs w) = None ->
            exists w' m', (save_json file (JObj (dict_del key m)) >> st_show msg) w
                          = (Ok tt, w')
              /\ load_json file w' = (Ok (JObj m'), w')
              /\ removed key m m'
              /\ forall p, p <> file -> fs w' !! p = fs w !! p).
  { intros file msg Hload Hp.
    pose proof (load_json_ok _ _ _ _ Hload) as Hok.
    destruct (store_update file m (dict_del key m) msg w Hload Hp)
      as (w' & Hrun & Hback & _ & Hframe).
    - apply (dict_del_ok key m Hok).
    - apply dict_del_text_ok, Ht.
    - exists w', (dict_del key m). eauto using dict_del_removed. }
  split; [|split]; intros Hload.
  - destruct (Hupd TEMPLATES_FILE (StSuccess ("템플릿 '" +:+ key +:+ "' 삭제 완료!"))
                Hload eq_refl) as (w' & m' & Hrun & Hrest).
    exists w', m'. split; [|exact Hrest].
    unfold main_template_delete. rewrite (bind_ok _ _ _ _ _ Hload), Htruth.
    unfold bind at 1, lift at 1. cbn [py_keys].
    unfold bind at 1, lift at 1. cbn [py_delitem]. rewrite Hin. exact Hrun.
  - destruct (Hupd PROMPTS_FILE (StSuccess ("프롬프트 '" +:+ key +:+ "' 삭제 완료!"))
                Hload eq_refl) as (w' & m' & Hrun & Hrest).
    exists w', m'. split; [|exact Hrest].
    unfold main_prompt_delete. rewrite (bind_ok _ _ _ _ _ Hload), Htruth.
    unfold bind at 1, lift at 1. cbn [py_keys].
    unfold bind at 1, lift at 1. cbn [py_delitem]. rewrite Hin. exact Hrun.
  - destruct (Hupd KEYWORDS_FILE (StSuccess ("키워드 '" +:+ key +:+ "' 삭제 완료!"))
                Hload eq_refl) as (w' & m' & Hrun & Hrest).
    exists w', m'. split; [|exact Hrest].
    unfold main_keyword_delete. rewrite (bind_ok _ _ _ _ _ Hload), Htruth.
    unfold bind at 1, lift at 1. cbn [py_keys].
    unfold bind at 1, lift at 1. cbn [py_delitem]. rewrite Hin. exact Hrun.
Qed.

Lemma delete_removes_entry_witness :
  let m := [("k1", JStr "first"); ("k2", JStr "second")] in
  let w := World {[ KEYWORDS_FILE := File (json_dumps (JObj m)) ]} [] in
  exists w' m', main_keyword_delete sample_platform "k1" w = (Ok tt, w')
    /\ load_json KEYWORDS_FILE w' = (Ok (JObj m'), w')
    /\ dict_mem "k1" m' = false
    /\ dict_get "k2" m' = Some (JStr "second").
Proof.
  intros m w.
  destruct (delete_removes_entry sample_platform "k1" m w eq_refl eq_refl)
    as (_ & _ & Hkw).
  destruct Hkw as (w' & m' & Hrun & Hload & (Hgone & _ & Hother) & _).
  { vm_compute. reflexivity. }
  exists w', m'. split; [exact Hrun|]. split; [exact Hload|]. split; [exact Hgone|].
  rewrite Hother by discriminate. reflexivity.
Defined.

Lemma dict_del_app_fresh (key : string) (x : json) (m : list (string * json)) :
  dict_mem key m = false -> dict_del key (m ++ [(key, x)]) = m.
Proof.
  unfold dict_mem. induction m as [|[k' v'] m IH]; cbn [dict_get dict_del app].
  - intros _. rewrite String.eqb_refl. reflexivity.
  - destruct (String.eqb key k'); [discriminate|]. intros H. rewrite (IH H). reflexivity.
Qed.

(** X21. Adding a template under a new ID and deleting it again gives the
    store back: it loads as the mapping it was before the add. *)
Theorem add_then_delete_restores (P : Platform) (key a b : string)
    (m : list (string * json)) (w : world) :
  load_json TEMPLATES_FILE w = (Ok (JObj m), w) ->
  dict_mem key m = false -> json_text_ok (JObj m) = true ->
  Utf8.valid key = true -> Utf8.valid a = true -> Utf8.valid b = true ->
  exists w1 w2,
    main_template_add key a b w = (Ok tt, w1)
    /\ main_template_delete P key w1 = (Ok tt, w2)
    /\ load_json TEMPLATES_FILE w2 = (Ok (JObj m), w2).
Proof.
  intros Hload Hnew Ht Hk Ha Hb.
  destruct (add_accepted TEMPLATES_FILE "이미 존재하는 템플릿 ID입니다." key
              ("템플릿 '" +:+ key +:+ "' 추가 완료!") (template_record a b) m w
              Hload eq_refl Hnew Ht Hk (template_record_ok a b)
              (template_record_text_ok a b Ha Hb)) as (w1 & Hadd & Hload1 & _).
  set (m1 := m ++ [(key, template_record a b)]) in *.
  assert (Hin : dict_mem key m1 = true).
  { unfold m1. rewrite dict_mem_app. unfold dict_mem at 2. cbn [dict_get].
    rewrite String.eqb_refl. apply orb_true_r. }
  assert (Ht1 : json_text_ok (JObj m1) = true).
  { unfold m1. rewrite <- (dict_set_fresh key _ m Hnew).
    apply dict_set_text_ok; auto using template_record_text_ok. }
  assert (Htruth : py_truth P (JObj m1) = true).
  { unfold m1. destruct m; reflexivity. }
  destruct (store_update TEMPLATES_FILE m1 (dict_del key m1)
              (StSuccess ("템플릿 '" +:+ key +:+ "' 삭제 완료!")) w1 Hload1 eq_refl)
    as (w2 & Hrun & Hback & _).
  { apply (dict_del_ok key m1 (load_json_ok _ _ _ _ Hload1)). }
  { apply dict_del_text_ok, Ht1. }
  exists w1, w2. split; [exact Hadd|]. split.
  - unfold main_template_delete. rewrite (bind_ok _ _ _ _ _ Hload1), Htruth.
    unfold bind at 1, lift at 1. cbn [py_keys].
    unfold bind at 1, lift at 1. cbn [py_delitem]. rewrite Hin. exact Hrun.
  - unfold m1 in Hback. rewrite (dict_del_app_fresh key _ m Hnew) in Hback. exact Hback.
Qed.

Lemma add_then_delete_restores_witness :
  let w := World {[ TEMPLATES_FILE := File (json_dumps (JObj sample_store)) ]} [] in
  exists w1 w2,
    main_template_add "t2" "Week" "# W" w = (Ok tt, w1)
    /\ main_template_delete sample_platform "t2" w1 = (Ok tt, w2)
    /\ load_json TEMPLATES_FILE w2 = (Ok (JObj sample_store), w2).
Proof.
  intros w.
  apply (add_then_delete_restores sample_platform "t2" "Week" "# W" sample_store w);
    vm_compute; reflexivity.
Defined.

Lemma add_non_mapping (file dup key success : string) (x v : json) (w : world) :
  load_json file w = (Ok v, w) -> is_dict v = false ->
  (let* store := load_json file in
   let* taken := lift (py_contains key store) in
   if taken then st_show (StError dup)
   else
     let* store := lift (py_setitem store key x) in
     save_json file store >> st_show (StSuccess success)) w
  = if match py_contains key v with Ok true => true | _ => false end
    then (Ok tt, World (fs w) (ui w ++ [StError dup]))
    else (Raise TypeError, w).
Proof.
  intros Hload Hnd. rewrite (bind_ok _ _ _ _ _ Hload).
  unfold bind at 1, lift at 1.
  destruct v; try discriminate Hnd; cbn [py_contains]; try reflexivity.
  - destruct (is_substring key s); reflexivity.
  - destruct (existsb (is_str key) l); reflexivity.
Qed.

(** X22. When a store file holds JSON that is not an object, the add pages
    never write: the add raises [TypeError] and leaves the world as it was,
    except that a key found in the list, or inside the string, that the file
    holds is reported as a duplicate. *)
Theorem add_to_non_mapping (key a b : string) (v : json) (w : world) :
  is_dict v = false ->
  let found := match py_contains key v with Ok true => true | _ => false end in
  (load_json TEMPLATES_FILE w = (Ok v, w) ->
   main_template_add key a b w
   = if found then (Ok tt, World (fs w) (ui w ++ [StError "이미 존재하는 템플릿 ID입니다."]))
     else (Raise TypeError, w))
  /\ (load_json PROMPTS_FILE w = (Ok v, w) ->
      main_prompt_add key a w
      = if found then (Ok tt, World (fs w) (ui w ++ [StError "이미 존재하는 프롬프트 ID입니다."]))
        else (Raise TypeError, w))
  /\ (load_json KEYWORDS_FILE w = (Ok v, w) ->
      main_keyword_add key a w
      = if found then (Ok tt, World (fs w) (ui w ++ [StError "이미 존재하는 키워드입니다."]))
        else (Raise TypeError, w)).
Proof.
  intros Hnd found. split; [|split]; intros Hload; eapply add_non_mapping; eauto.
Qed.

Lemma add_to_non_mapping_witness :
  let w := World {[ PROMPTS_FILE := File (sq "['p1']") ]} [] in
  main_prompt_add "p2" "text" w = (Raise TypeError, w)
  /\ main_prompt_add "p1" "text" w
     = (Ok tt, World (fs w) [StError "이미 존재하는 프롬프트 ID입니다."]).
Proof.
  intros w.
  destruct (add_to_non_mapping "p2" "text" "" (JArr [JStr "p1"]) w eq_refl) as (_ & H2 & _).
  destruct (add_to_non_mapping "p1" "text" "" (JArr [JStr "p1"]) w eq_refl) as (_ & H1 & _).
  split.
  - apply H2. vm_compute. reflexivity.
  - apply H1. vm_compute. reflexivity.
Defined.

(** ** The merge utility *)

(** Reading line ends as [\n] keeps text well formed. *)
Lemma run_universal_newlines (n : nat) :
  forall s st, String.length s <= n ->
    Utf8.run st (universal_newlines s) = Utf8.run st s.
Proof.
  induction n as [|n IH]; intros s st Hlen.
  - destruct s; [reflexivity|cbn in Hlen; lia].
  - destruct s as [|c s']; [reflexivity|]. cbn [String.length] in Hlen.
    cbn [universal_newlines]. destruct (Ascii.eqb_spec c ch_cr) as [->|Hc].
    + rewrite !run_cons, !step_ascii by reflexivity.
      destruct st; try reflexivity.
      destruct s' as [|c2 s'']; [reflexivity|]. cbn [String.length] in Hlen.
      destruct (Ascii.eqb_spec c2 ch_nl) as [->|Hc2].
      * rewrite run_cons, step_ascii by reflexivity. apply IH. lia.
      * apply IH. cbn [String.length]. lia.
    + rewrite !run_cons. destruct (Utf8.step st c); [|reflexivity]. apply IH. lia.
Qed.

Lemma valid_universal_newlines (s : string) :
  Utf8.valid s = true -> Utf8.valid (universal_newlines s) = true.
Proof.
  unfold Utf8.valid. rewrite (run_universal_newlines (String.length s)) by lia. auto.
Qed.

Lemma valid_nl2 (s : string) : Utf8.valid s = true -> Utf8.valid (s +:+ nl +:+ nl) = true.
Proof. intros H. apply valid_app; [exact H|reflexivity]. Qed.

Lemma merge_one_skips (output_file root file : string) (w : world) :
  ends_with ".md" file = false -> merge_one output_file root file w = (Ok tt, w).
Proof. intros H. unfold merge_one. rewrite H. reflexivity. Qed.

(** One file of the walk adds its section to the output. *)
Lemma merge_one_adds (f : gmap string node) (output_file root file acc bytes : string)
    (u : list ui_msg) :
  ends_with ".md" file = true -> os_path_join root file <> output_file ->
  Utf8.valid file = true ->
  f !! os_path_join root file = Some (File bytes) -> Utf8.valid bytes = true ->
  merge_one output_file root file (World (<[output_file := File acc]> f) u)
  = (Ok tt, World (<[output_file := File (acc +:+ merge_section file
                                                   (universal_newlines bytes))]> f) u).
Proof.
  intros Hmd Hne Hfile Hf Hv. unfold merge_one. rewrite Hmd.
  set (p := os_path_join root file) in *.
  assert (Hread : read_text p (World (<[output_file := File acc]> f) u)
                  = (Ok (universal_newlines bytes), World (<[output_file := File acc]> f) u)).
  { unfold read_text. cbn [fs]. rewrite lookup_insert_ne by congruence.
    rewrite Hf, Hv. reflexivity. }
  rewrite (bind_ok _ _ _ _ _ Hread).
  assert (Hw : forall text old, Utf8.valid text = true ->
            f_write output_file text (World (<[output_file := File old]> f) u)
            = (Ok tt, World (<[output_file := File (old +:+ text)]> f) u)).
  { intros text old Ht.
    rewrite (f_write_succeeds output_file text old _ Ht (lookup_insert_eq _ _ _)).
    cbn [fs ui]. rewrite insert_insert_eq. reflexivity. }
  rewrite (bind_ok _ _ _ _ _ (Hw _ _ (valid_app _ _ (eq_refl : Utf8.valid "## " = true)
                                         (valid_nl2 _ Hfile)))).
  rewrite (bind_ok _ _ _ _ _ (Hw _ _ (valid_nl2 _ (valid_universal_newlines _ Hv)))).
  rewrite (Hw _ _ (eq_refl : Utf8.valid (string_of_list_ascii (repeat "-"%char 40)
                                           +:+ nl +:+ nl) = true)).
  unfold merge_section. rewrite !sapp_assoc. reflexivity.
Qed.

Lemma merge_files_adds (f : gmap string node) (output_file root : string)
    (u : list ui_msg) (files : list string) :
  Forall (md_readable f output_file root) files ->
  forall acc,
    merge_files output_file root files (World (<[output_file := File acc]> f) u)
    = (Ok tt, World (<[output_file := File (acc +:+ sections_of f root files)]> f) u).
Proof.
  induction 1 as [|file files Hfile Hfiles IH]; intros acc.
  - cbn [merge_files sections_of]. rewrite sapp_nil_r. reflexivity.
  - cbn [merge_files sections_of]. unfold md_readable in Hfile.
    destruct (ends_with ".md" file) eqn:Hmd.
    + destruct (Hfile eq_refl) as (Hne & Hname & bytes & Hf & Hv).
      rewrite (bind_ok _ _ _ _ _ (merge_one_adds f output_file root file acc bytes u
                                     Hmd Hne Hname Hf Hv)).
      rewrite IH, Hf, sapp_assoc. reflexivity.
    + rewrite (bind_ok _ _ _ _ _ (merge_one_skips output_file root file _ Hmd)).
      rewrite IH, sapp_nil_l. reflexivity.
Qed.

Lemma merge_walk_adds (f : gmap string node) (output_file : string)
    (u : list ui_msg) (dirs : list (string * list string)) :
  Forall (fun d => Forall (md_readable f output_file (fst d)) (snd d)) dirs ->
  forall acc,
    merge_walk output_file dirs (World (<[output_file := File acc]> f) u)
    = (Ok tt, World (<[output_file := File (acc +:+ walk_sections f dirs)]> f) u).
Proof.
  induction 1 as [|[root files] dirs Hd Hdirs IH]; intros acc.
  - cbn [merge_walk walk_sections]. rewrite sapp_nil_r. reflexivity.
  - cbn [merge_walk walk_sections]. cbn [fst snd] in Hd.
    rewrite (bind_ok _ _ _ _ _ (merge_files_adds f output_file root u files Hd acc)).
    rewrite IH, sapp_assoc. reflexivity.
Qed.

Lemma all_ascii_datetime (now : datetime) : all_ascii (strftime_datetime now) = true.
Proof.
  unfold strftime_datetime, two.
  pose proof (proj2 (plain_date now)) as D.
  pose proof (fun n => proj2 (plain_pad 2 _ (proj1 (plain_str_of_nat n))
                                (proj2 (plain_str_of_nat n)))) as T.
  rewrite !all_ascii_app, D, !T. reflexivity.
Qed.

Lemma valid_merge_lines (now : datetime) (folder_path : string) :
  Utf8.valid folder_path = true ->
  Utf8.valid ("# MERGED Overview (" +:+ strftime_datetime now +:+ ")" +:+ nl +:+ nl) = true
  /\ Utf8.valid ("합쳐진 폴더: " +:+ folder_path +:+ nl +:+ nl) = true.
Proof.
  intros H. split.
  - apply valid_ascii. rewrite !all_ascii_app, all_ascii_datetime. reflexivity.
  - apply valid_app; [reflexivity|apply valid_nl2, H].
Qed.

(** X23. On a folder that exists, with an output path that can be opened and
    [.md] files that can all be read, [merge_md_files] returns the success
    message and leaves in the output file, whatever it held, the two header
    lines followed by one section per [.md] file in the order of the walk
    (heading with the file name, the text of the file, a rule of 40 dashes);
    files with another suffix add nothing, and no other path changes. *)
Theorem merge_writes_sections (P : Platform) (now : datetime)
    (folder_path output_file : string) (w : world) :
  is_Some (fs w !! folder_path) ->
  fs w !! output_file <> Some Dir -> parent_check output_file (fs w) = None ->
  Utf8.valid folder_path = true ->
  let dirs := os_walk P (<[output_file := File (merge_header now folder_path)]> (fs w))
                folder_path in
  Forall (fun d => Forall (md_readable (fs w) output_file (fst d)) (snd d)) dirs ->
  merge_md_files P now folder_path output_file w
  = (Ok ("Merged 파일이 성공적으로 생성되었습니다: " +:+ output_file),
     World (<[output_file := File (merge_header now folder_path
                                     +:+ walk_sections (fs w) dirs)]> (fs w)) (ui w)).
Proof.
  intros [x Hx] Hnd Hp Hfolder dirs Hread.
  destruct (valid_merge_lines now folder_path Hfolder) as (Hl1 & Hl2).
  unfold merge_md_files, bind at 1. rewrite os_path_exists_eq, Hx. cbn [negb].
  unfold try_except.
  rewrite (bind_ok _ _ _ _ _ (open_w_succeeds output_file w Hnd Hp)).
  rewrite (bind_ok _ _ _ _ _ (f_write_succeeds output_file _ EmptyString _ Hl1
                                (lookup_insert_eq _ _ _))).
  cbn [fs ui]. rewrite insert_insert_eq, sapp_nil_l.
  rewrite (bind_ok _ _ _ _ _ (f_write_succeeds output_file _ _
             (World (<[output_file := File _]> (fs w)) (ui w)) Hl2
             (lookup_insert_eq _ _ _))).
  cbn [fs ui]. rewrite insert_insert_eq. fold (merge_header now folder_path).
  unfold bind at 1. cbn [fs]. fold dirs.
  rewrite (merge_walk_adds (fs w) output_file (ui w) dirs Hread). reflexivity.
Qed.

Lemma merge_writes_sections_witness :
  let w := World {[ "notes" := Dir; "notes/a.md" := File "alpha";
                    "notes/todo.txt" := File "skip";
                    "merged_overview.md" := File "old" ]} [] in
  exists w',
    merge_md_files notes_platform sample_now "notes" "merged_overview.md" w
    = (Ok "Merged 파일이 성공적으로 생성되었습니다: merged_overview.md", w')
    /\ fs w' !! "merged_overview.md"
       = Some (File (merge_header sample_now "notes" +:+ merge_section "a.md" "alpha")).
Proof.
  intros w. eexists. split.
  - apply (merge_writes_sections notes_platform sample_now "notes" "merged_overview.md" w).
    + vm_compute. eauto.
    + vm_compute. discriminate.
    + reflexivity.
    + reflexivity.
    + constructor; [|constructor]. cbn [fst snd].
      constructor; [|constructor; [|constructor]].
      * intros _. split; [discriminate|]. split; [reflexivity|].
        exists "alpha". split; vm_compute; reflexivity.
      * intros Hmd. vm_compute in Hmd. discriminate Hmd.
  - cbn [fs]. rewrite lookup_insert_eq. reflexivity.
Defined.

Lemma preserves_ret {A} (I : world -> Prop) (a : A) : preserves I (ret a).
Proof. intros w0 r w1 H [= <- <-]. exact H. Qed.

Lemma preserves_bind {A B} (I : world -> Prop) (m : M A) (k : A -> M B) :
  preserves I m -> (forall a, preserves I (k a)) -> preserves I (bind m k).
Proof.
  intros Hm Hk w0 r w1 HI. unfold bind.
  destruct (m w0) as [[a|e] w2] eqn:E.
  - intros H. eapply Hk; [eapply Hm; eauto|exact H].
  - intros [= <- <-]. eapply Hm; eauto.
Qed.

Lemma preserves_read_text (I : world -> Prop) (p : string) : preserves I (read_text p).
Proof.
  intros w0 r w1 HI. unfold read_text.
  destruct (fs w0 !! p) as [[bytes|]|]; [destruct (Utf8.valid bytes)|..];
    intros [= <- <-]; exact HI.
Qed.

Lemma preserves_append (w : world) (output_file header text : string) :
  preserves (merged_so_far w output_file header) (f_write output_file text).
Proof.
  intros w0 r w1 ((rest & Hout) & Hother & Hui). unfold f_write.
  destruct (Utf8.valid text); [|intros [= <- <-]; repeat split; eauto].
  rewrite Hout. intros [= <- <-]. unfold merged_so_far. cbn [fs ui].
  split; [|split; [|exact Hui]].
  - exists (rest +:+ text). rewrite lookup_insert_eq, sapp_assoc. reflexivity.
  - intros p Hp. rewrite lookup_insert_ne by congruence. apply Hother, Hp.
Qed.

Lemma preserves_merge_walk (w : world) (output_file header : string)
    (dirs : list (string * list string)) :
  preserves (merged_so_far w output_file header) (merge_walk output_file dirs).
Proof.
  induction dirs as [|[root files] dirs IH]; cbn [merge_walk]; [apply preserves_ret|].
  apply preserves_bind; [|intros _; exact IH].
  induction files as [|file files IHf]; cbn [merge_files]; [apply preserves_ret|].
  apply preserves_bind; [|intros _; exact IHf].
  unfold merge_one. destruct (ends_with ".md" file); [|apply preserves_ret].
  apply preserves_bind; [apply preserves_read_text|]. intros text.
  repeat (apply preserves_bind; [apply preserves_append|intros _]).
  apply preserves_append.
Qed.

(** X24. [merge_md_files] never raises. Once the folder exists and the
    output path has been opened, the output file holds the new header
    followed by what the merge got to, whether the merge ends with the
    success message or with an error message: what the file held before is
    gone in both cases; no other path changes. *)
Theorem merge_replaces_output (P : Platform) (now : datetime)
    (folder_path output_file : string) (w : world) :
  is_Some (fs w !! folder_path) ->
  fs w !! output_file <> Some Dir -> parent_check output_file (fs w) = None ->
  Utf8.valid folder_path = true ->
  exists msg w' rest,
    merge_md_files P now folder_path output_file w = (Ok msg, w')
    /\ fs w' !! output_file = Some (File (merge_header now folder_path +:+ rest))
    /\ (forall p, p <> output_file -> fs w' !! p = fs w !! p)
    /\ ui w' = ui w.
Proof.
  intros [x Hx] Hnd Hp Hfolder.
  destruct (valid_merge_lines now folder_path Hfolder) as (Hl1 & Hl2).
  unfold merge_md_files, bind at 1. rewrite os_path_exists_eq, Hx. cbn [negb].
  unfold try_except.
  rewrite (bind_ok _ _ _ _ _ (open_w_succeeds output_file w Hnd Hp)).
  rewrite (bind_ok _ _ _ _ _ (f_write_succeeds output_file _ EmptyString _ Hl1
                                (lookup_insert_eq _ _ _))).
  cbn [fs ui]. rewrite insert_insert_eq, sapp_nil_l.
  rewrite (bind_ok _ _ _ _ _ (f_write_succeeds output_file _ _
             (World (<[output_file := File _]> (fs w)) (ui w)) Hl2
             (lookup_insert_eq _ _ _))).
  cbn [fs ui]. rewrite insert_insert_eq. fold (merge_header now folder_path).
  set (w1 := World (<[output_file := File (merge_header now folder_path)]> (fs w)) (ui w)).
  assert (H1 : merged_so_far w output_file (merge_header now folder_path) w1).
  { split; [|split; [|reflexivity]].
    - exists EmptyString. cbn [fs w1]. rewrite lookup_insert_eq, sapp_nil_r. reflexivity.
    - intros p Hne. cbn [fs w1]. apply lookup_insert_ne. congruence. }
  unfold bind at 1.
  destruct (merge_walk output_file (os_walk P (fs w1) folder_path) w1) as [r w2] eqn:E.
  pose proof (preserves_merge_walk w output_file _ _ w1 r w2 H1 E)
    as ((rest & Hout) & Hother & Hui).
  destruct r as [[]|e]; cbn [ret]; eauto 10.
Qed.

Lemma merge_replaces_output_witness :
  let w := World {[ "notes" := Dir; "notes/a.md" := File byte_ff;
                    "merged_overview.md" := File "old" ]} [] in
  exists w' rest,
    merge_md_files notes_platform sample_now "notes" "merged_overview.md" w
    = (Ok "파일 병합 중 오류 발생: error", w')
    /\ fs w' !! "merged_overview.md"
       = Some (File (merge_header sample_now "notes" +:+ rest)).
Proof.
  intros w.
  destruct (merge_replaces_output notes_platform sample_now "notes" "merged_overview.md" w)
    as (msg & w' & rest & Hrun & Hout & _).
  - vm_compute. eauto.
  - vm_compute. discriminate.
  - reflexivity.
  - reflexivity.
  - exists w', rest. split; [|exact Hout]. rewrite Hrun. f_equal.
    assert (Hmsg : fst (merge_md_files notes_platform sample_now "notes"
                          "merged_overview.md" w) = Ok "파일 병합 중 오류 발생: error")
      by (vm_compute; reflexivity).
    rewrite Hrun in Hmsg. exact Hmsg.
Defined.

(** ** The merge page *)

Lemma is_substring_cons_ne (x : string) (c : ascii) (s : string) :
  is_prefix x (String c s) = false -> is_substring x (String c s) = is_substring x s.
Proof. intros H. cbn [is_substring]. rewrite H. reflexivity. Qed.

Lemma marker_in_missing_folder_message (folder_path : string) :
  is_substring merge_marker ("지정된 폴더가 존재하지 않습니다: " +:+ folder_path)
  = is_substring merge_marker folder_path.
Proof.
  repeat rewrite sapp_cons. rewrite sapp_nil_l.
  repeat (rewrite is_substring_cons_ne by reflexivity). reflexivity.
Qed.

Lemma marker_in_success_message (output_file : string) :
  is_substring merge_marker ("Merged 파일이 성공적으로 생성되었습니다: " +:+ output_file)
  = true.
Proof.
  repeat rewrite sapp_cons. rewrite sapp_nil_l.
  repeat (rewrite is_substring_cons_ne by reflexivity). reflexivity.
Qed.

(** X25. The merge page asks for both paths, and tells success from failure
    by looking for "성공적으로 생성" in the message of [merge_md_files]: with an
    empty path nothing is merged and an error is shown; the success message
    is shown as a success; and the message for a folder that does not exist
    is shown as an error unless the folder path itself contains the marker,
    in which case it is shown as a success although nothing was merged. *)
Theorem main_merge_message (P : Platform) (now : datetime)
    (folder_path output_file : string) (w : world) :
  (folder_path = EmptyString \/ output_file = EmptyString ->
   main_merge P now folder_path output_file w
   = (Ok tt, World (fs w) (ui w ++ [StError "폴더 경로와 저장 경로를 모두 입력하세요."])))
  /\ (folder_path <> EmptyString -> output_file <> EmptyString ->
      (forall w',
         merge_md_files P now folder_path output_file w
         = (Ok ("Merged 파일이 성공적으로 생성되었습니다: " +:+ output_file), w') ->
         main_merge P now folder_path output_file w
         = (Ok tt, World (fs w')
                     (ui w' ++ [StSuccess ("Merged 파일이 성공적으로 생성되었습니다: "
                                           +:+ output_file)])))
      /\ (fs w !! folder_path = None ->
          let msg := "지정된 폴더가 존재하지 않습니다: " +:+ folder_path in
          main_merge P now folder_path output_file w
          = (Ok tt, World (fs w)
                      (ui w ++ [if is_substring merge_marker folder_path
                                then StSuccess msg else StError msg])))).
Proof.
  split.
  - intros [-> | ->]; unfold main_merge; [reflexivity|].
    rewrite orb_true_r. reflexivity.
  - intros Hf Ho.
    assert (Hgo : String.eqb folder_path "" || String.eqb output_file "" = false).
    { apply String.eqb_neq in Hf, Ho. rewrite Hf, Ho. reflexivity. }
    split.
    + intros w' Hrun. unfold main_merge. rewrite Hgo.
      rewrite (bind_ok _ _ _ _ _ Hrun), marker_in_success_message. reflexivity.
    + intros Hmissing msg. unfold main_merge. rewrite Hgo.
      assert (Hrun : merge_md_files P now folder_path output_file w = (Ok msg, w)).
      { unfold merge_md_files, bind, os_path_exists. rewrite Hmissing. reflexivity. }
      rewrite (bind_ok _ _ _ _ _ Hrun). unfold msg at 1.
      rewrite marker_in_missing_folder_message.
      destruct (is_substring merge_marker folder_path); reflexivity.
Qed.

Lemma main_merge_message_witness :
  main_merge sample_platform sample_now "/no/such/dir" "merged_overview.md" empty_world
  = (Ok tt, World ∅ [StError "지정된 폴더가 존재하지 않습니다: /no/such/dir"])
  /\ main_merge sample_platform sample_now "성공적으로 생성" "merged_overview.md" empty_world
     = (Ok tt, World ∅ [StSuccess "지정된 폴더가 존재하지 않습니다: 성공적으로 생성"])
  /\ main_merge sample_platform sample_now "" "merged_overview.md" empty_world
     = (Ok tt, World ∅ [StError "폴더 경로와 저장 경로를 모두 입력하세요."]).
Proof.
  split; [|split].
  - apply (proj2 (proj2 (main_merge_message sample_platform sample_now "/no/such/dir"
                           "merged_overview.md" empty_world)
                    ltac:(discriminate) ltac:(discriminate))).
    reflexivity.
  - apply (proj2 (proj2 (main_merge_message sample_platform sample_now "성공적으로 생성"
                           "merged_overview.md" empty_world)
                    ltac:(discriminate) ltac:(discriminate))).
    reflexivity.
  - apply (proj1 (main_merge_message sample_platform sample_now ""
                    "merged_overview.md" empty_world)).
    left. reflexivity.
Defined.

(** ** Documents and their metadata entries *)





